(** * Remote configurator of the ThingsBoard IoT gateway

    A shallow embedding of
    [thingsboard_gateway/tb_utility/tb_gateway_remote_configurator.py]
    (class [RemoteConfigurator]) and the properties of its update
    dispatcher, change detector and domain handlers. *)

From Stdlib Require Import ZArith Ascii String List Bool Lia.
From stdpp Require Import base tactics option list strings pretty gmap.

Local Open Scope Z_scope.
Local Open Scope string_scope.

(** ** Python values

    Every value the configurator handles comes out of a JSON document
    (the attribute payloads, the configuration files), so a Python
    object is a JSON value: [None], [bool], [int], [str], [list] and
    [dict] with string keys.  A [dict] keeps its insertion order, which
    [str()] and iteration expose, so it is an association list. *)

#[warnings="-register-all"]
Inductive json : Type :=
| JNull
| JBool (b : bool)
| JInt (z : Z)
| JStr (s : string)
| JList (l : list json)
| JObj (kvs : list (string * json)).

Abbreviation dict := (list (string * json)).

Definition json_eq_dec : ∀ a b : json, {a = b} + {a ≠ b}.
Proof.
  fix IH 1.
  decide equality.
  - apply bool_dec.
  - apply Z.eq_dec.
  - apply string_dec.
  - apply List.list_eq_dec, IH.
  - apply List.list_eq_dec. decide equality. apply string_dec.
Defined.

#[global] Instance json_eq_decision : EqDecision json := json_eq_dec.

Module Dict.

(** [d.get(k)]: the value stored under [k], if any. *)
Fixpoint get (k : string) (d : dict) : option json :=
  match d with
  | [] => None
  | (k', v) :: d' => if String.eqb k' k then Some v else get k d'
  end.

(** [d[k] = v]: an existing key keeps its position, a new key goes last. *)
Fixpoint set (k : string) (v : json) (d : dict) : dict :=
  match d with
  | [] => [(k, v)]
  | (k', v') :: d' =>
      if String.eqb k' k then (k', v) :: d' else (k', v') :: set k v d'
  end.

(** [d.update(other)]. *)
Definition update (d other : dict) : dict :=
  fold_left (λ acc kv, set kv.1 kv.2 acc) other d.

(** [d.pop(k, None)] as far as the dictionary is concerned. *)
Fixpoint remove (k : string) (d : dict) : dict :=
  match d with
  | [] => []
  | (k', v) :: d' => if String.eqb k' k then d' else (k', v) :: remove k d'
  end.

Definition keys (d : dict) : list string := map fst d.

End Dict.

(** Sorting a dictionary by key, for comparing dictionaries whatever the
    order their keys were inserted in. *)
Fixpoint insert_by_key (kv : string * json) (d : dict) : dict :=
  match d with
  | [] => [kv]
  | kv' :: d' =>
      if String.leb kv.1 kv'.1 then kv :: kv' :: d'
      else kv' :: insert_by_key kv d'
  end.

Definition sort_by_key (d : dict) : dict := foldr insert_by_key [] d.

(** The representative of a value up to Python's [==]: [True == 1] and
    [False == 0], and two dictionaries are equal when they hold equal
    values under the same keys. *)
Fixpoint canon (v : json) : json :=
  match v with
  | JBool b => JInt (if b then 1 else 0)
  | JList l => JList (map canon l)
  | JObj kvs =>
      JObj (sort_by_key
              ((fix go (kvs : dict) : dict :=
                  match kvs with
                  | [] => []
                  | (k, x) :: r => (k, canon x) :: go r
                  end) kvs))
  | _ => v
  end.

(** [a == b] and [a != b]. *)
Definition py_eq (a b : json) : bool := bool_decide (canon a = canon b).
Definition py_ne (a b : json) : bool := negb (py_eq a b).

(** Truth value of an object, as [if x], [x or y] and [not x] test it. *)
Definition truthy (v : json) : bool :=
  match v with
  | JNull => false
  | JBool b => b
  | JInt z => negb (Z.eqb z 0)
  | JStr s => negb (String.eqb s "")
  | JList l => match l with [] => false | _ => true end
  | JObj d => match d with [] => false | _ => true end
  end.

(** [a or b]. *)
Definition py_or (a b : json) : json := if truthy a then a else b.

(** [str(n)] for an integer. *)
Definition str_of_int (n : Z) : string := pretty n.

Arguments str_of_int : simpl never.

(** [sub in s] for strings. *)
Fixpoint is_prefix (p s : string) : bool :=
  match p, s with
  | EmptyString, _ => true
  | String a p', String b s' => if Ascii.eqb a b then is_prefix p' s' else false
  | _, _ => false
  end.

Fixpoint contains (sub s : string) : bool :=
  is_prefix sub s ||
  match s with
  | EmptyString => false
  | String _ s' => contains sub s'
  end.

(** ** Exceptions and outcomes *)

(** The exception classes the source names in an [except] clause, and the
    ones the built-in operations raise.  All of them derive from
    [Exception]; [OSError] stands for its subclasses too
    ([FileNotFoundError] and the like). *)
Inductive exn : Type :=
| KeyError
| AttributeError
| TypeError
| ValueError
| OSError
| OtherError (what : string).

#[global] Instance exn_eq_decision : EqDecision exn.
Proof. solve_decision. Defined.

(** What running a piece of code gives: a value, a raised exception, or
    no answer within the allowed number of loop iterations. *)
Inductive outcome (A : Type) : Type :=
| Ok (a : A)
| Raise (e : exn)
| Diverge.

Arguments Ok {A} a.
Arguments Raise {A} e.
Arguments Diverge {A}.

#[global] Instance outcome_ret : MRet outcome := λ A a, Ok a.

#[global] Instance outcome_bind : MBind outcome := λ A B f r,
  match r with
  | Ok a => f a
  | Raise e => Raise e
  | Diverge => Diverge
  end.

(** ** Built-in operations on objects *)

Module Py.

(** [o[k]] for a string [k]. *)
Definition getitem (o : json) (k : string) : outcome json :=
  match o with
  | JObj d => match Dict.get k d with Some v => Ok v | None => Raise KeyError end
  | _ => Raise TypeError
  end.

(** [o.get(k, default)]; only a [dict] has the method. *)
Definition get (o : json) (k : string) (default : json) : outcome json :=
  match o with
  | JObj d => Ok (from_option id default (Dict.get k d))
  | _ => Raise AttributeError
  end.

(** [o[k] = v], giving the object after the assignment. *)
Definition setitem (o : json) (k : string) (v : json) : outcome json :=
  match o with
  | JObj d => Ok (JObj (Dict.set k v d))
  | _ => Raise TypeError
  end.

(** [o.update(other)], giving the object after the call.  The source
    passes dictionaries.  An empty sequence is accepted and changes
    nothing; a sequence of key/value pairs, which Python accepts too, is
    not among the values kept here and is refused like any other
    argument. *)
Definition update (o other : json) : outcome json :=
  match o with
  | JObj d =>
      match other with
      | JObj d' => Ok (JObj (Dict.update d d'))
      | JList [] | JStr "" => Ok o
      | JStr _ => Raise ValueError
      | _ => Raise TypeError
      end
  | _ => Raise AttributeError
  end.

(** [o.pop(k)], giving the object after the call: no default, so a
    missing key is a [KeyError]. *)
Definition pop (o : json) (k : string) : outcome json :=
  match o with
  | JObj d =>
      match Dict.get k d with
      | Some _ => Ok (JObj (Dict.remove k d))
      | None => Raise KeyError
      end
  | JList _ => Raise TypeError
  | _ => Raise AttributeError
  end.

(** [o.pop(k, None)], giving the object after the call. *)
Definition pop_default (o : json) (k : string) : outcome json :=
  match o with
  | JObj d => Ok (JObj (Dict.remove k d))
  | JList _ => Raise TypeError
  | _ => Raise AttributeError
  end.

(** [x in o]: an element of a list, a key of a dictionary, a piece of
    a string. *)
Definition contains (x o : json) : outcome bool :=
  match o with
  | JList l => Ok (existsb (py_eq x) l)
  | JObj d =>
      match x with
      | JStr k => Ok (bool_decide (k ∈ Dict.keys d))
      | JList _ | JObj _ => Raise TypeError
      | _ => Ok false
      end
  | JStr s =>
      match x with
      | JStr sub => Ok (contains sub s)
      | _ => Raise TypeError
      end
  | _ => Raise TypeError
  end.

(** Looking up a method that only a [dict] has ([update], [get]). *)
Definition dict_method (o : json) : outcome unit :=
  match o with
  | JObj _ => Ok tt
  | _ => Raise AttributeError
  end.

(** The integer a number stands for in a comparison. *)
Definition as_int (v : json) : option Z :=
  match v with
  | JInt z => Some z
  | JBool b => Some (if b then 1 else 0)
  | _ => None
  end.

(** [a <= n] for an integer [n]. *)
Definition le_int (a : json) (n : Z) : outcome bool :=
  match as_int a with
  | Some z => Ok (Z.leb z n)
  | None => Raise TypeError
  end.

(** [prefix + o] for a string [prefix]. *)
Definition concat (prefix : string) (o : json) : outcome string :=
  match o with
  | JStr s => Ok (prefix ++ s)
  | _ => Raise TypeError
  end.

(** The element a sequence has at an index, counted from the end when
    the index is negative. *)
Definition index {A} (l : list A) (i : Z) : option A :=
  let n := Z.of_nat (length l) in
  let j := if (i <? 0)%Z then (i + n)%Z else i in
  if (0 <=? j)%Z && (j <? n)%Z then l !! Z.to_nat j else None.

(** [o[key]] for any key: a dictionary is looked up, a list and a
    string are indexed. *)
Definition subscript (o key : json) : outcome json :=
  match o with
  | JObj d =>
      match key with
      | JStr k => getitem o k
      | JList _ | JObj _ => Raise TypeError
      | _ => Raise KeyError
      end
  | JList l =>
      match as_int key with
      | Some i =>
          match index l i with
          | Some v => Ok v
          | None => Raise (OtherError "IndexError")
          end
      | None => Raise TypeError
      end
  | JStr s =>
      match as_int key with
      | Some i =>
          match index (list_ascii_of_string s) i with
          | Some c => Ok (JStr (String c EmptyString))
          | None => Raise (OtherError "IndexError")
          end
      | None => Raise TypeError
      end
  | _ => Raise TypeError
  end.

End Py.

(** ** The gateway, the file system and the observable events *)

(** An MQTT client of the platform, [TBClient(config, config_folder_path)]. *)
Record TBClient : Type := {
  client_config : json;
  client_folder : string
}.

(** An event storage, built by the class registered under [storage_type]. *)
Record Storage : Type := {
  storage_type : string;
  storage_config : json
}.

(** The attributes and collaborators of [TBGatewayService] the
    configurator reaches through [self._gateway]; [W] is the rest of the
    world (network, clock, connectors, logging set-up). *)
Record Gateway (W : Type) : Type := {
  tb_client : TBClient;
  _event_storage : Storage;
  event_storage_types : list string;
  available_connectors : list string;
  gw_config : dict;
  config_path : string;
  world : W
}.

Arguments tb_client {W} _.
Arguments _event_storage {W} _.
Arguments event_storage_types {W} _.
Arguments available_connectors {W} _.
Arguments gw_config {W} _.
Arguments config_path {W} _.
Arguments world {W} _.

(** What does not belong to this repository: library functions and the
    methods of the gateway service, of its clients and of its connectors.
    A method sees and may change the gateway, and may raise. *)
Class Externals (W : Type) : Type := {
  py_str : json → string;                       (* str(obj) *)
  py_hash : string → Z;                         (* hash(s) *)
  dumps : json → string;                        (* simplejson.dumps(obj, indent='  ') *)
  loads : string → outcome json;                (* simplejson.load(file) *)
  clock_ms : W → Z * W;                         (* time() * 1000 *)
  sleep_ms : Z → W → W;                         (* sleep(ms / 1000) *)
  client_init : json → string → Gateway W → outcome unit * Gateway W;
  client_connect : TBClient → Gateway W → outcome unit * Gateway W;
  client_disconnect : TBClient → Gateway W → outcome unit * Gateway W;
  client_stop : TBClient → Gateway W → outcome unit * Gateway W;
  client_is_connected : TBClient → Gateway W → outcome bool * Gateway W;
  subscribe_to_required_topics : Gateway W → outcome unit * Gateway W;
  storage_init : string → json → Gateway W → outcome unit * Gateway W;
  init_grpc_service : json → Gateway W → outcome unit * Gateway W;
  load_connectors : json → Gateway W → outcome unit * Gateway W;
  connect_with_connectors : Gateway W → outcome unit * Gateway W;
  connector_close : string → Gateway W → outcome unit * Gateway W;
  init_statistics_service : json → Gateway W → outcome unit * Gateway W;
  init_device_filtering : json → Gateway W → outcome unit * Gateway W;
  init_remote_shell : json → Gateway W → outcome unit * Gateway W;
  dictConfig : json → Gateway W → outcome unit * Gateway W;
  install_remote_handler : Gateway W → outcome unit * Gateway W
}.

(** A file: its text and [int(os.path.getmtime(path) * 1000)]. *)
Record File : Type := {
  content : string;
  mtime : Z
}.

Inductive level : Type := DEBUG | INFO | WARNING | ERROR.

(** What the configurator does that can be observed from outside. *)
Inductive Event : Type :=
| EvLog (lvl : level) (msg : string)         (* LOG.debug / info / warning / error *)
| EvLogExc (e : exn)                         (* LOG.exception(e) *)
| EvSend (key : string) (value : json)       (* tb_client.client.send_attributes({key: value}) *)
| EvMkdir (path : string)                    (* os.mkdir *)
| EvOpenW (path : string)                    (* open(path, 'w'): the file is emptied *)
| EvWrite (path text : string)               (* file.write / file.writelines *)
| EvBackup (path text : string).             (* backup_file.writelines *)

(** The configurator ([self]) with the gateway it drives and the files
    under the configuration folder. *)
Record State (W : Type) : Type := {
  in_process : bool;
  _config : dict;
  _active_connectors : json;
  _gateway : Gateway W;
  files : gmap string File;
  folders : gset string;
  trace : list Event
}.

Arguments in_process {W} _.
Arguments _config {W} _.
Arguments _active_connectors {W} _.
Arguments _gateway {W} _.
Arguments files {W} _.
Arguments folders {W} _.
Arguments trace {W} _.

(** Field updates. *)
Definition set_tb_client {W} (c : TBClient) (g : Gateway W) : Gateway W :=
  {| tb_client := c; _event_storage := _event_storage g;
     event_storage_types := event_storage_types g;
     available_connectors := available_connectors g;
     gw_config := gw_config g; config_path := config_path g; world := world g |}.

Definition set_event_storage {W} (x : Storage) (g : Gateway W) : Gateway W :=
  {| tb_client := tb_client g; _event_storage := x;
     event_storage_types := event_storage_types g;
     available_connectors := available_connectors g;
     gw_config := gw_config g; config_path := config_path g; world := world g |}.

Definition set_available_connectors {W} (l : list string) (g : Gateway W) : Gateway W :=
  {| tb_client := tb_client g; _event_storage := _event_storage g;
     event_storage_types := event_storage_types g;
     available_connectors := l;
     gw_config := gw_config g; config_path := config_path g; world := world g |}.

Definition set_gw_config {W} (c : dict) (g : Gateway W) : Gateway W :=
  {| tb_client := tb_client g; _event_storage := _event_storage g;
     event_storage_types := event_storage_types g;
     available_connectors := available_connectors g;
     gw_config := c; config_path := config_path g; world := world g |}.

Definition set_world {W} (w : W) (g : Gateway W) : Gateway W :=
  {| tb_client := tb_client g; _event_storage := _event_storage g;
     event_storage_types := event_storage_types g;
     available_connectors := available_connectors g;
     gw_config := gw_config g; config_path := config_path g; world := w |}.

Definition set_in_process {W} (b : bool) (s : State W) : State W :=
  {| in_process := b; _config := _config s;
     _active_connectors := _active_connectors s; _gateway := _gateway s;
     files := files s; folders := folders s; trace := trace s |}.

Definition set_config {W} (c : dict) (s : State W) : State W :=
  {| in_process := in_process s; _config := c;
     _active_connectors := _active_connectors s; _gateway := _gateway s;
     files := files s; folders := folders s; trace := trace s |}.

Definition set_active_connectors {W} (a : json) (s : State W) : State W :=
  {| in_process := in_process s; _config := _config s;
     _active_connectors := a; _gateway := _gateway s;
     files := files s; folders := folders s; trace := trace s |}.

Definition set_gateway {W} (g : Gateway W) (s : State W) : State W :=
  {| in_process := in_process s; _config := _config s;
     _active_connectors := _active_connectors s; _gateway := g;
     files := files s; folders := folders s; trace := trace s |}.

Definition set_files {W} (f : gmap string File) (s : State W) : State W :=
  {| in_process := in_process s; _config := _config s;
     _active_connectors := _active_connectors s; _gateway := _gateway s;
     files := f; folders := folders s; trace := trace s |}.

Definition set_folders {W} (d : gset string) (s : State W) : State W :=
  {| in_process := in_process s; _config := _config s;
     _active_connectors := _active_connectors s; _gateway := _gateway s;
     files := files s; folders := d; trace := trace s |}.

Definition set_trace {W} (t : list Event) (s : State W) : State W :=
  {| in_process := in_process s; _config := _config s;
     _active_connectors := _active_connectors s; _gateway := _gateway s;
     files := files s; folders := folders s; trace := t |}.

(** The exception classes of the [except] clauses. *)
Definition is_AttributeError (e : exn) : bool := bool_decide (e = AttributeError).
Definition is_OSError (e : exn) : bool := bool_decide (e = OSError).
Definition is_KeyError_or_AttributeError (e : exn) : bool :=
  bool_decide (e = KeyError) || bool_decide (e = AttributeError).
Definition is_Exception (e : exn) : bool := true.

(** The keys of [self._handlers]: regular expressions given to
    [fullmatch].  Six of them are plain words, which match themselves
    only; the last one, [(?=\D*\d?).*], matches every string [.*]
    matches, that is every string without a line break. *)
Inductive pattern : Type :=
| Literal (word : string)
| AnyName.

Definition newline : string := String "010"%char EmptyString.

Definition fullmatch (p : pattern) (s : string) : bool :=
  match p with
  | Literal word => String.eqb word s
  | AnyName => negb (contains newline s)
  end.

Section Configurator.

Context {W : Type} `{!Externals W}.

(** *** Code that changes the state and may raise *)

Definition M (A : Type) : Type := State W → outcome A * State W.

#[global] Instance M_ret : MRet M := λ A a s, (Ok a, s).

#[global] Instance M_bind : MBind M := λ A B f m s,
  match m s with
  | (Ok a, s') => f a s'
  | (Raise e, s') => (Raise e, s')
  | (Diverge, s') => (Diverge, s')
  end.

Definition lift {A} (r : outcome A) : M A := λ s, (r, s).
Definition raise {A} (e : exn) : M A := λ s, (Raise e, s).
Definition diverge {A} : M A := λ s, (Diverge, s).
Definition gets {A} (f : State W → A) : M A := λ s, (Ok (f s), s).
Definition modify (f : State W → State W) : M unit := λ s, (Ok tt, f s).

(** [try: body / except classes: handler]. *)
Definition try_except {A} (body : M A) (classes : exn → bool)
    (handler : exn → M A) : M A := λ s,
  match body s with
  | (Raise e, s') => if classes e then handler e s' else (Raise e, s')
  | r => r
  end.

(** [try: body / except classes: handler / else: orelse]. *)
Definition try_except_else {A B} (body : M A) (classes : exn → bool)
    (handler : exn → M B) (orelse : A → M B) : M B := λ s,
  match body s with
  | (Ok a, s') => orelse a s'
  | (Raise e, s') => if classes e then handler e s' else (Raise e, s')
  | (Diverge, s') => (Diverge, s')
  end.

(** [try: body / finally: final]: [final] runs however [body] ends. *)
Definition try_finally {A} (body : M A) (final : M unit) : M A := λ s,
  match body s with
  | (Diverge, s') => (Diverge, s')
  | (r, s') =>
      match final s' with
      | (Ok _, s'') => (r, s'')
      | (Raise e, s'') => (Raise e, s'')
      | (Diverge, s'') => (Diverge, s'')
      end
  end.

Fixpoint for_each {A} (body : A → M unit) (l : list A) : M unit :=
  match l with
  | [] => mret tt
  | x :: l' => body x ;; for_each body l'
  end.

Definition emit (ev : Event) : M unit :=
  modify (λ s, set_trace (trace s ++ [ev]) s).

Definition log (lvl : level) (msg : string) : M unit := emit (EvLog lvl msg).

(** [LOG.exception(e)]. *)
Definition log_exception (e : exn) : M unit := emit (EvLogExc e).

(** A method of the gateway or of one of its collaborators. *)
Definition call {A} (f : Gateway W → outcome A * Gateway W) : M A := λ s,
  let (r, g) := f (_gateway s) in (r, set_gateway g s).

Definition modify_gateway (f : Gateway W → Gateway W) : M unit :=
  modify (λ s, set_gateway (f (_gateway s)) s).

(** [time() * 1000]. *)
Definition time_ms : M Z := λ s,
  let (t, w) := clock_ms (world (_gateway s)) in
  (Ok t, set_gateway (set_world w (_gateway s)) s).

(** [sleep(ms / 1000)]. *)
Definition sleep (ms : Z) : M unit :=
  modify_gateway (λ g, set_world (sleep_ms ms (world g)) g).

(** [self._gateway.get_config_path()]. *)
Definition get_config_path : M string := gets (λ s, config_path (_gateway s)).

(** [self._gateway.tb_client.client.send_attributes({key: value})]. *)
Definition send_attributes (key : string) (value : json) : M unit :=
  emit (EvSend key value).

(** *** Files.  The configuration folder is taken to be writable:
    opening a file for writing and creating a folder do not fail. *)

(** [os.path.exists(path)]. *)
Definition path_exists (path : string) : M bool :=
  gets (λ s, bool_decide (is_Some (files s !! path))
             || bool_decide (path ∈ folders s)).

(** [int(os.path.getmtime(path) * 1000)]. *)
Definition getmtime_ms (path : string) : M Z := λ s,
  match files s !! path with
  | Some f => (Ok (mtime f), s)
  | None => (Raise OSError, s)
  end.

(** [os.mkdir(path)]. *)
Definition mkdir (path : string) : M unit :=
  modify (λ s, set_folders ({[path]} ∪ folders s) s) ;;
  emit (EvMkdir path).

Definition store_file (path text : string) : M unit :=
  now ← time_ms;
  modify (λ s, set_files (<[path := {| content := text; mtime := now |}]> (files s)) s).

(** [open(path, 'w')]: the file is created or emptied. *)
Definition open_w (path : string) : M unit :=
  store_file path "" ;; emit (EvOpenW path).

(** [file.writelines(text)] / [file.write(text)] on a file just opened
    for writing. *)
Definition write (path text : string) : M unit :=
  store_file path text ;; emit (EvWrite path text).

(** [with open(path, 'r') as file: load(file)]. *)
Definition load_file (path : string) : M json := λ s,
  match files s !! path with
  | Some f => (loads (content f), s)
  | None => (Raise OSError, s)
  end.

(** *** The change detector *)

(** [self._modifiable_static_attrs]. *)
Definition _modifiable_static_attrs : dict :=
  [("logs_configuration", JStr "logs.json")].

(** [file_path] of [_is_modified]: [None] when the payload has no
    [get] method. *)
Definition resolve_file_path (attr_name : string) (config : json) : M json :=
  try_except
    (explicit ← lift (Py.get config "configuration" JNull);
     mret (py_or explicit
             (from_option id JNull (Dict.get attr_name _modifiable_static_attrs))))
    is_AttributeError
    (λ _, mret JNull).

Definition _is_modified (attr_name : string) (config : json) : M bool :=
  file_path ← resolve_file_path attr_name config;
  (* if there is no file path that means that it is RemoteLoggingLevel
     or active_connectors attribute update *)
  if bool_decide (file_path = JNull) then mret true
  else
    not_newer ← try_except
      (folder ← get_config_path;
       file_path ← lift (Py.concat folder file_path);
       ts ← lift (Py.get config "ts" (JInt 0));
       modified_at ← getmtime_ms file_path;
       lift (Py.le_int ts modified_at))
      is_OSError
      (λ _, log WARNING "File %s not exist" ;; mret false);
    mret (negb not_newer).

(** *** The dispatcher, over any table of handlers *)

Definition handler_table : Type := list (pattern * (json → M unit)).

(** [for (name, func) in self._handlers.items(): if fullmatch(name,
    attr_name): func(request_config); break]. *)
Fixpoint dispatch (handlers : handler_table) (attr_name : string)
    (request_config : json) : M unit :=
  match handlers with
  | [] => mret tt
  | (name, func) :: rest =>
      if fullmatch name attr_name then func request_config
      else dispatch rest attr_name request_config
  end.

(** The body of the loop over [config.keys()]; [request_config] is
    [config[attr_name]]. *)
Definition process_key (handlers : handler_table)
    (item : string * json) : M unit :=
  let attr_name := item.1 in
  let request_config := item.2 in
  if contains "deleted" attr_name then mret tt
  else
    modified ← _is_modified attr_name request_config;
    if negb modified then mret tt
    else dispatch handlers attr_name request_config.

Definition process_config_request_with (handlers : handler_table)
    (config : dict) : M unit :=
  busy ← gets in_process;
  if negb busy then
    log DEBUG "Got config update request: %s" ;;
    modify (set_in_process true) ;;
    try_finally
      (try_except
         (for_each (process_key handlers) config)
         is_KeyError_or_AttributeError
         (λ _, log ERROR "Unknown attribute update name (Available: %s)"))
      (modify (set_in_process false))
  else
    log ERROR "Remote configuration is already in processing".

(** *** The configuration store *)

(** [self.general_configuration] (getter): [self._config.get('thingsboard', {})]. *)
Definition general_configuration : M json :=
  gets (λ s, from_option id (JObj []) (Dict.get "thingsboard" (_config s))).

(** [self.storage_configuration] (getter). *)
Definition storage_configuration : M json :=
  gets (λ s, from_option id (JObj []) (Dict.get "storage" (_config s))).

(** [self.grpc_configuration] (getter). *)
Definition grpc_configuration : M json :=
  gets (λ s, from_option id (JObj []) (Dict.get "grpc" (_config s))).

(** [self._config[section].update(config)]. *)
Definition update_section (section : string) (config : json) : M unit :=
  c ← gets _config;
  current ← lift (Py.getitem (JObj c) section);
  updated ← lift (Py.update current config);
  modify (set_config (Dict.set section updated c)).

(** [self.general_configuration = config] (setter). *)
Definition set_general_configuration (config : json) : M unit :=
  update_section "thingsboard" config.

(** [self.storage_configuration = config] (setter). *)
Definition set_storage_configuration (config : json) : M unit :=
  update_section "storage" config.

(** [self.grpc_configuration = config] (setter):
    [self._config.get('grpc', {}).update(config)]; without a [grpc]
    section the dictionary updated is a fresh one that nobody keeps. *)
Definition set_grpc_configuration (config : json) : M unit :=
  c ← gets _config;
  match Dict.get "grpc" c with
  | Some current =>
      updated ← lift (Py.update current config);
      modify (set_config (Dict.set "grpc" updated c))
  | None => lift (Py.update (JObj []) config) ;; mret tt
  end.

(** [self.general_configuration[k] = v]: the dictionary the getter
    gives is the stored one, changed in place, or a fresh one. *)
Definition general_configuration_setitem (k : string) (v : json) : M unit :=
  c ← gets _config;
  match Dict.get "thingsboard" c with
  | Some current =>
      updated ← lift (Py.setitem current k v);
      modify (set_config (Dict.set "thingsboard" updated c))
  | None => mret tt
  end.

(** [connector.pop('config_updated', None)] and
    [connector.pop('config_file_path', None)]. *)
Definition strip_entry (connector : json) : outcome json :=
  connector ← Py.pop_default connector "config_updated";
  Py.pop_default connector "config_file_path".

(** The loop of the [connectors_configuration] getter: the entries
    before the first one that raises have been changed. *)
Fixpoint strip_markers (connectors : list json) : list json * option exn :=
  match connectors with
  | [] => ([], None)
  | connector :: rest =>
      match strip_entry connector with
      | Ok connector' =>
          let (rest', e) := strip_markers rest in (connector' :: rest', e)
      | Raise e => (connector :: rest, Some e)
      | Diverge => (connector :: rest, None)
      end
  end.

(** [self.connectors_configuration] (getter): the stored list itself,
    or a fresh empty one.  The configuration file holds a list there. *)
Definition connectors_configuration : M (list json) :=
  c ← gets _config;
  match Dict.get "connectors" c with
  | None => mret []
  | Some (JList connectors) =>
      let (connectors', e) := strip_markers connectors in
      modify (set_config (Dict.set "connectors" (JList connectors') c)) ;;
      match e with
      | Some e => raise e
      | None => mret connectors'
      end
  | Some _ => raise TypeError
  end.

(** The stored list of connectors, changed in place by [f]; nothing
    is kept when the getter gave a fresh list. *)
Definition modify_connectors (f : list json → list json) : M unit :=
  c ← gets _config;
  match Dict.get "connectors" c with
  | Some (JList connectors) =>
      modify (set_config (Dict.set "connectors" (JList (f connectors)) c))
  | _ => mret tt
  end.

Fixpoint map_outcome {A B} (f : A → outcome B) (l : list A) : outcome (list B) :=
  match l with
  | [] => Ok []
  | x :: l' => y ← f x; ys ← map_outcome f l'; Ok (y :: ys)
  end.

(** One entry of [connectors_config] in the local format. *)
Definition connector_summary (connector : json) : outcome json :=
  type ← Py.getitem connector "type";
  name ← Py.getitem connector "name";
  configuration ← Py.getitem connector "configuration";
  Ok (JObj [("type", type); ("name", name); ("configuration", configuration)]).

Definition _get_general_config_in_local_format : M json :=
  connectors ← connectors_configuration;
  connectors_config ← lift (map_outcome connector_summary connectors);
  thingsboard ← general_configuration;
  storage ← storage_configuration;
  grpc ← grpc_configuration;
  mret (JObj [("thingsboard", thingsboard); ("storage", storage);
              ("grpc", grpc); ("connectors", JList connectors_config)]).

(** [with open(get_config_path() + "tb_gateway.json", "w") as file:
    file.writelines(dumps(self._get_general_config_in_local_format(),
    indent='  '))]. *)
Definition write_general_configuration_file : M unit :=
  folder ← get_config_path;
  open_w (folder ++ "tb_gateway.json") ;;
  local ← _get_general_config_in_local_format;
  write (folder ++ "tb_gateway.json") (dumps local).

(** *** Backups *)

Definition create_configuration_file_backup (config_data : json)
    (config_file_name : json) : M unit :=
  folder ← get_config_path;
  let backup_folder_path := folder ++ "backup" in
  present ← path_exists backup_folder_path;
  (if negb present then mkdir backup_folder_path else mret tt) ;;
  stem ← lift (Py.concat (backup_folder_path ++ "/") config_file_name);
  now ← time_ms;
  let backup_file_path := stem ++ "_backup_" ++ str_of_int (Z.quot now 1000) in
  store_file backup_file_path "" ;;
  emit (EvOpenW backup_file_path) ;;
  log DEBUG "Backup file created for configuration file %s in %s" ;;
  store_file backup_file_path (dumps config_data) ;;
  emit (EvBackup backup_file_path (dumps config_data)).

(** *** Handlers without a rollback of their own *)

Definition _handle_remote_logging_level_update (config : json) : M unit :=
  send_attributes "RemoteLoggingLevel" config.

(** [TBLoggerHandler(self._gateway)], [activate], [setTarget] and
    [LOG.addHandler] are one step of the logging set-up. *)
Definition _handle_logs_configuration_update (config : json) : M unit :=
  log DEBUG "Processing logs configuration update..." ;;
  try_except
    (folder ← get_config_path;
     let logs_conf_file_path := folder ++ "logs.json" in
     call (dictConfig config) ;;
     call install_remote_handler ;;
     open_w logs_conf_file_path ;;
     write logs_conf_file_path (dumps config) ;;
     log DEBUG "Logs configuration has been updated." ;;
     send_attributes "logs_configuration" config)
    is_Exception
    (λ e, log ERROR "Remote logging configuration is wrong!" ;;
          log_exception e).

(** *** Storage *)

(** [self._gateway.event_storage_types[key]]. *)
Definition storage_class_of (key : json) : M string :=
  known ← gets (λ s, event_storage_types (_gateway s));
  match key with
  | JStr name => if bool_decide (name ∈ known) then mret name else raise KeyError
  | JList _ | JObj _ => raise TypeError
  | _ => raise KeyError
  end.

(** The [try] block of the handler:
    [storage_class = self._gateway.event_storage_types[config["type"]]]
    and [self._gateway._event_storage = storage_class(config)]. *)
Definition install_event_storage (config : json) : M unit :=
  key ← lift (Py.getitem config "type");
  storage_class ← storage_class_of key;
  call (storage_init storage_class config) ;;
  modify_gateway (set_event_storage
    {| storage_type := storage_class; storage_config := config |}).

Definition _handle_storage_configuration_update (config : json) : M unit :=
  log DEBUG "Processing storage configuration update..." ;;
  old_event_storage ← gets (λ s, _event_storage (_gateway s));
  try_except_else
    (install_event_storage config)
    is_Exception
    (λ e,
       log ERROR "Something went wrong with applying the new storage configuration. Reverting..." ;;
       log_exception e ;;
       modify_gateway (set_event_storage old_event_storage))
    (λ _,
       set_storage_configuration config ;;
       write_general_configuration_file ;;
       stored ← storage_configuration;
       send_attributes "storage_configuration" stored ;;
       log INFO "Processed storage configuration update successfully").

(** *** GRPC *)

(** [for connector_name in self._gateway.available_connectors:
    self._gateway.available_connectors[connector_name].close()], then
    [load_connectors] and [connect_with_connectors]. *)
Definition restart_connectors : M unit :=
  names ← gets (λ s, available_connectors (_gateway s));
  for_each (λ connector_name, call (connector_close connector_name)) names ;;
  local ← _get_general_config_in_local_format;
  call (load_connectors local) ;;
  call connect_with_connectors.

Definition _handle_grpc_configuration_update (config : json) : M unit :=
  log DEBUG "Processing GRPC configuration update..." ;;
  current ← grpc_configuration;
  if py_ne config current then
    try_except_else
      (call (init_grpc_service config) ;;
       restart_connectors)
      is_Exception
      (λ e,
         log ERROR "Something went wrong with applying the new GRPC configuration. Reverting..." ;;
         log_exception e ;;
         current ← grpc_configuration;
         call (init_grpc_service current) ;;
         restart_connectors)
      (λ _,
         set_grpc_configuration config ;;
         write_general_configuration_file ;;
         stored ← grpc_configuration;
         send_attributes "grpc_configuration" stored ;;
         log INFO "Processed GRPC configuration update successfully")
  else mret tt.

(** *** Active connectors *)

(** [self._gateway.available_connectors[name]]. *)
Definition available_connector (name : json) : M string :=
  names ← gets (λ s, available_connectors (_gateway s));
  match name with
  | JStr n => if bool_decide (n ∈ names) then mret n else raise KeyError
  | JList _ | JObj _ => raise TypeError
  | _ => raise KeyError
  end.

(** [self._gateway.available_connectors.pop(name)]. *)
Definition pop_available_connector (name : string) : M unit :=
  names ← gets (λ s, available_connectors (_gateway s));
  if bool_decide (name ∈ names) then
    modify_gateway (set_available_connectors
                      (filter (λ n, n ≠ name) names))
  else raise KeyError.

(** The first loop of [_handle_active_connectors_update], giving
    [for_deletion]; [has_changed] is true when it is not empty. *)
Fixpoint close_inactive (config : json) (names : list string)
    (for_deletion : list string) : M (list string) :=
  match names with
  | [] => mret for_deletion
  | active_connector_name :: rest =>
      listed ← lift (Py.contains (JStr active_connector_name) config);
      if negb listed then
        for_deletion ← try_except
          (call (connector_close active_connector_name) ;;
           mret (for_deletion ++ [active_connector_name])%list)
          is_Exception
          (λ e, log_exception e ;; mret for_deletion);
        close_inactive config rest for_deletion
      else close_inactive config rest for_deletion
  end.

(** [list(filter(lambda connector: connector['name'] in connector_list, ...))]. *)
Fixpoint filter_listed (connector_list : json) (connectors : list json)
    : outcome (list json) :=
  match connectors with
  | [] => Ok []
  | connector :: rest =>
      name ← Py.getitem connector "name";
      keep ← Py.contains name connector_list;
      kept ← filter_listed connector_list rest;
      Ok (if (keep : bool) then connector :: kept else kept)
  end.

Definition _delete_connectors_from_config (connector_list : json) : M unit :=
  connectors ← connectors_configuration;
  kept ← lift (filter_listed connector_list connectors);
  modify (λ s, set_config (Dict.set "connectors" (JList kept) (_config s)) s).

Definition _handle_active_connectors_update (config : json) : M unit :=
  log DEBUG "Processing active connectors configuration update..." ;;
  names ← gets (λ s, available_connectors (_gateway s));
  for_deletion ← close_inactive config names [];
  (if bool_decide (for_deletion ≠ []) then
     for_each pop_available_connector for_deletion ;;
     _delete_connectors_from_config config ;;
     write_general_configuration_file ;;
     modify (set_active_connectors config)
   else mret tt) ;;
  send_attributes "active_connectors" config.

(** *** The connection of the gateway to the platform *)

Definition _revert_connection : M unit :=
  try_except
    (log INFO "Remote general configuration will be restored." ;;
     client ← gets (λ s, tb_client (_gateway s));
     call (client_disconnect client) ;;
     client ← gets (λ s, tb_client (_gateway s));
     call (client_stop client) ;;
     general ← general_configuration;
     folder ← get_config_path;
     call (client_init general folder) ;;
     modify_gateway (set_tb_client
       {| client_config := general; client_folder := folder |}) ;;
     client ← gets (λ s, tb_client (_gateway s));
     call (client_connect client) ;;
     call subscribe_to_required_topics ;;
     log DEBUG "%s connection has been restored")
    is_Exception
    (λ e, log ERROR "Exception on reverting configuration occurred:" ;;
          log_exception e).

(** [while time() * 1000 - apply_start >= 1000 and not connection_state:
    connection_state = client.is_connected(); sleep(.1)], giving
    [connection_state]; [fuel] bounds the number of turns. *)
Fixpoint poll_connection (fuel : nat) (client : TBClient) (apply_start : Z)
    (connection_state : bool) : M bool :=
  now ← time_ms;
  if Z.leb 1000 (now - apply_start) && negb connection_state then
    match fuel with
    | O => diverge
    | S fuel' =>
        connection_state ← call (client_is_connected client);
        sleep 100 ;;
        poll_connection fuel' client apply_start connection_state
    end
  else mret connection_state.

(** [self._gateway.tb_client = client;
    self._gateway.subscribe_to_required_topics(); return True]. *)
Definition use_client (client : TBClient) : M bool :=
  modify_gateway (set_tb_client client) ;;
  call subscribe_to_required_topics ;;
  mret true.

(** [while not connection_state: for client in (new_tb_client,
    old_tb_client): ...]; [fuel] bounds the number of turns of each
    loop. *)
Fixpoint try_clients (fuel : nat) (new_tb_client old_tb_client : TBClient)
    (apply_start : Z) : M bool :=
  match fuel with
  | O => diverge
  | S fuel' =>
      call (client_connect new_tb_client) ;;
      connection_state ← poll_connection fuel' new_tb_client apply_start false;
      if (connection_state : bool) then use_client new_tb_client
      else
        call (client_connect old_tb_client) ;;
        connection_state ← poll_connection fuel' old_tb_client apply_start false;
        if (connection_state : bool) then use_client old_tb_client
        else try_clients fuel' new_tb_client old_tb_client apply_start
  end.

Definition _apply_connection_config (fuel : nat) (config : json) : M bool :=
  apply_start ← time_ms;
  old_tb_client ← gets (λ s, tb_client (_gateway s));
  try_except
    (call (client_disconnect old_tb_client) ;;
     call (client_init config (client_folder old_tb_client)) ;;
     let new_tb_client :=
       {| client_config := config; client_folder := client_folder old_tb_client |} in
     try_clients fuel new_tb_client old_tb_client apply_start)
    is_Exception
    (λ e, log_exception e ;;
          _revert_connection ;;
          mret false).

(** *** General configuration *)

Definition DEFAULT_STATISTICS : json :=
  JObj [("enable", JBool true); ("statsSendPeriodInSeconds", JInt 3600)].

(** [config[k]] against [self.general_configuration[k]]. *)
Definition item_changed (config : json) (k : string) : M bool :=
  new ← lift (Py.getitem config k);
  general ← general_configuration;
  old ← lift (Py.getitem general k);
  mret (py_ne new old).

(** [config.get(k, default)] against
    [self.general_configuration.get(k, default)]. *)
Definition optional_item_changed (config : json) (k : string)
    (default : json) : M bool :=
  new ← lift (Py.get config k default);
  general ← general_configuration;
  old ← lift (Py.get general k default);
  mret (py_ne new old).

(** [a or b] on conditions: [b] is evaluated only when [a] is false. *)
Definition or_else (a b : M bool) : M bool :=
  x ← a; if (x : bool) then mret true else b.

Definition connection_changed (config : json) : M bool :=
  or_else (item_changed config "host")
 (or_else (item_changed config "port")
 (or_else (item_changed config "security")
 (or_else (optional_item_changed config "provisioning" (JObj []))
          (item_changed config "qos")))).

Definition _check_statistics_configuration_changes (config : json) : M bool :=
  general ← general_configuration;
  general_statistics_config ← lift (Py.get general "statistics" DEFAULT_STATISTICS);
  differs ← or_else
    (new ← lift (Py.getitem config "enable");
     old ← lift (Py.getitem general_statistics_config "enable");
     mret (py_ne new old))
    (new ← lift (Py.getitem config "statsSendPeriodInSeconds");
     old ← lift (Py.getitem general_statistics_config "statsSendPeriodInSeconds");
     mret (py_ne new old));
  if (differs : bool) then mret true
  else
    file_name ← lift (Py.get general_statistics_config "configuration" JNull);
    commands ←
      (if truthy file_name then
         folder ← get_config_path;
         file_name ← lift (Py.getitem general_statistics_config "configuration");
         path ← lift (Py.concat folder file_name);
         load_file path
       else mret (JList []));
    new_commands ← lift (Py.get config "commands" (JList []));
    mret (py_ne new_commands commands).

(** The [except] branch of [_apply_statistics_config]. *)
Definition restore_statistics_service (e : exn) : M unit :=
  log ERROR "Something went wrong with applying the new statistics configuration. Reverting..." ;;
  log_exception e ;;
  general ← general_configuration;
  old ← lift (Py.get general "statistics" DEFAULT_STATISTICS);
  call (init_statistics_service old).

(** [_apply_statistics_config(config)] gives its result and [config]
    as the call leaves it: the statistics object it was given is
    changed in place by [config['configuration'] = ...].  Nothing
    raises between that assignment and the next statement, so the
    [try] block is entered in two parts with the same [except]
    branch. *)
Definition _apply_statistics_config (config : json) : M (bool * json) :=
  try_except_else
    (commands ← lift (Py.get config "commands" (JList []));
     if truthy commands then
       general ← general_configuration;
       statistics ← lift (Py.getitem general "statistics");
       statistics_conf_file_name ←
         lift (Py.get statistics "configuration" (JStr "statistics.json"));
       let statistics_conf_file_name :=
         if bool_decide (statistics_conf_file_name = JNull)
         then JStr "statistics.json" else statistics_conf_file_name in
       folder ← get_config_path;
       path ← lift (Py.concat folder statistics_conf_file_name);
       open_w path ;;
       write path (dumps commands) ;;
       lift (Py.setitem config "configuration" statistics_conf_file_name)
     else mret config)
    is_Exception
    (λ e, restore_statistics_service e ;; mret (false, config))
    (λ config,
       try_except
         (call (init_statistics_service config) ;;
          general_configuration_setitem "statistics" config ;;
          mret (true, config))
         is_Exception
         (λ e, restore_statistics_service e ;; mret (false, config))).

Definition _apply_device_filtering_config (config : json) : M bool :=
  try_except
    (new ← lift (Py.get config "deviceFiltering" (JObj [("enable", JBool false)]));
     call (init_device_filtering new) ;;
     mret true)
    is_Exception
    (λ e,
       log ERROR "Something went wrong with applying the new device filtering configuration. Reverting..." ;;
       log_exception e ;;
       general ← general_configuration;
       old ← lift (Py.get general "deviceFiltering" (JObj [("enable", JBool false)]));
       call (init_device_filtering old) ;;
       mret false).

Definition _apply_remote_shell_config (config : json) : M bool :=
  try_except
    (new ← lift (Py.get config "remoteShell" JNull);
     call (init_remote_shell new) ;;
     mret true)
    is_Exception
    (λ e,
       log ERROR "Something went wrong with applying the new Remote Shell configuration. Reverting..." ;;
       log_exception e ;;
       general ← general_configuration;
       old ← lift (Py.get general "remoteShell" JNull);
       call (init_remote_shell old) ;;
       mret false).

(** [self._gateway.config['thingsboard'].update(config)]. *)
Definition _apply_other_params_config (config : json) : M unit :=
  c ← gets (λ s, gw_config (_gateway s));
  current ← lift (Py.getitem (JObj c) "thingsboard");
  updated ← lift (Py.update current config);
  modify_gateway (set_gw_config (Dict.set "thingsboard" updated c)).

(** [self.general_configuration['statistics'].pop('commands')]. *)
Definition _cleanup : M unit :=
  general ← general_configuration;
  statistics ← lift (Py.getitem general "statistics");
  statistics ← lift (Py.pop statistics "commands");
  general_configuration_setitem "statistics" statistics.

(** [config[k].update(self.general_configuration[k])], giving [config]
    after the call. *)
Definition revert_item (config : json) (k : string) : M json :=
  new ← lift (Py.getitem config k);
  lift (Py.dict_method new) ;;
  general ← general_configuration;
  old ← lift (Py.getitem general k);
  reverted ← lift (Py.update new old);
  lift (Py.setitem config k reverted).

(** Step 1 of the handler, giving [config] as the step leaves it. *)
Definition connection_step (fuel : nat) (config : json) : M json :=
  log INFO "--- Checking connection configuration changes..." ;;
  changed ← connection_changed config;
  if (changed : bool) then
    log INFO "---- Connection configuration changed. Processing..." ;;
    success ← _apply_connection_config fuel config;
    if negb success then
      general ← general_configuration;
      lift (Py.update config general)
    else mret config
  else
    log INFO "--- Connection configuration not changed." ;;
    mret config.

(** Step 2.  The object [_apply_statistics_config] changes in place is
    the payload's own [statistics] when it has one. *)
Definition statistics_step (config : json) : M json :=
  log INFO "--- Checking statistics configuration changes..." ;;
  statistics ← lift (Py.get config "statistics" DEFAULT_STATISTICS);
  changed ← _check_statistics_configuration_changes statistics;
  if (changed : bool) then
    log INFO "---- Statistics configuration changed. Processing..." ;;
    statistics ← lift (Py.get config "statistics" DEFAULT_STATISTICS);
    applied ← _apply_statistics_config statistics;
    config ← lift (match Py.getitem config "statistics" with
                   | Ok _ => Py.setitem config "statistics" applied.2
                   | _ => Ok config
                   end);
    if negb applied.1 then revert_item config "statistics"
    else mret config
  else
    log INFO "--- Statistics configuration not changed." ;;
    mret config.

(** Step 3. *)
Definition device_filtering_step (config : json) : M json :=
  log INFO "--- Checking device filtering configuration changes..." ;;
  changed ← optional_item_changed config "deviceFiltering" JNull;
  if (changed : bool) then
    log INFO "---- Device filtering configuration changed. Processing..." ;;
    success ← _apply_device_filtering_config config;
    if negb success then revert_item config "deviceFiltering"
    else mret config
  else
    log INFO "--- Device filtering configuration not changed." ;;
    mret config.

(** Step 4. *)
Definition remote_shell_step (config : json) : M json :=
  log INFO "--- Checking Remote Shell configuration changes..." ;;
  changed ← optional_item_changed config "remoteShell" JNull;
  if (changed : bool) then
    log INFO "---- Remote Shell configuration changed. Processing..." ;;
    success ← _apply_remote_shell_config config;
    if negb success then revert_item config "remoteShell"
    else mret config
  else
    log INFO "--- Remote Shell configuration not changed." ;;
    mret config.

(** The end of the handler, from [LOG.info('--- Saving new general
    configuration...')]. *)
Definition save_general_configuration (config : json) : M unit :=
  log INFO "--- Saving new general configuration..." ;;
  set_general_configuration config ;;
  general ← general_configuration;
  send_attributes "general_configuration" general ;;
  _cleanup ;;
  write_general_configuration_file.

Definition _handle_general_configuration_update (fuel : nat)
    (config : json) : M unit :=
  log INFO "Processing general configuration update" ;;
  config ← connection_step fuel config;
  config ← statistics_step config;
  config ← device_filtering_step config;
  config ← remote_shell_step config;
  log INFO "--- Checking other configuration parameters changes..." ;;
  _apply_other_params_config config ;;
  save_general_configuration config.

(** *** Connectors *)

(** [list(filter(lambda item: item['name'] == config['name'],
    connectors))]: the entries kept, each with its position in the
    stored list (the entries found are the stored objects). *)
Fixpoint find_connectors (config : json) (connectors : list json)
    (position : nat) : outcome (list (nat * json)) :=
  match connectors with
  | [] => Ok []
  | item :: rest =>
      name ← Py.getitem item "name";
      wanted ← Py.getitem config "name";
      found ← find_connectors config rest (S position);
      Ok (if py_eq name wanted then (position, item) :: found else found)
  end.

(** [{'name': config['name'], 'type': config['type'], 'configuration':
    config_file_name}] with [key] and [class] when the payload has
    them. *)
Definition summary_entry (config config_file_name : json) : outcome json :=
  name ← Py.getitem config "name";
  type ← Py.getitem config "type";
  let connector_configuration :=
    [("name", name); ("type", type); ("configuration", config_file_name)] in
  key ← Py.get config "key" JNull;
  connector_configuration ←
    (if truthy key then
       key ← Py.getitem config "key";
       Ok (Dict.set "key" key connector_configuration)
     else Ok connector_configuration);
  class ← Py.get config "class" JNull;
  connector_configuration ←
    (if truthy class then
       class ← Py.getitem config "class";
       Ok (Dict.set "class" class connector_configuration)
     else Ok connector_configuration);
  Ok (JObj connector_configuration).

(** [config['configurationJson'].update({'logLevel': config['logLevel'],
    'name': config['name']})], giving [config] after the call. *)
Definition merge_log_level_and_name (config : json) : outcome json :=
  configuration_json ← Py.getitem config "configurationJson";
  Py.dict_method configuration_json ;;
  log_level ← Py.getitem config "logLevel";
  name ← Py.getitem config "name";
  merged ← Py.update configuration_json
             (JObj [("logLevel", log_level); ("name", name)]);
  Py.setitem config "configurationJson" merged.

(** The key of [{config['name']: config}], as it goes out. *)
Definition attribute_key (name : json) : outcome string :=
  match name with
  | JStr s => Ok s
  | JInt z => Ok (str_of_int z)
  | JBool b => Ok (if b then "true" else "false")
  | JNull => Ok "null"
  | JList _ | JObj _ => Raise TypeError
  end.

(** [self._gateway.available_connectors[name].close()] and
    [self._gateway.available_connectors.pop(name)], then the reload. *)
Definition replace_connector (name : json) : M unit :=
  connector ← available_connector name;
  call (connector_close connector) ;;
  connector ← available_connector name;
  pop_available_connector connector ;;
  local ← _get_general_config_in_local_format;
  call (load_connectors local) ;;
  call connect_with_connectors.

(** The branch [if not found_connectors], giving [config] as it
    leaves it. *)
Definition add_connector (config config_file_name : json) : M json :=
  connector_configuration ← lift (summary_entry config config_file_name);
  folder ← get_config_path;
  path ← lift (Py.concat folder config_file_name);
  open_w path ;;
  config ← lift (merge_log_level_and_name config);
  create_configuration_file_backup config config_file_name ;;
  configuration_json ← lift (Py.getitem config "configurationJson");
  write path (dumps configuration_json) ;;
  connectors_configuration ;;
  modify_connectors (λ connectors, (connectors ++ [connector_configuration])%list) ;;
  write_general_configuration_file ;;
  local ← _get_general_config_in_local_format;
  call (load_connectors local) ;;
  call connect_with_connectors ;;
  mret config.

(** The content check of the [else] branch, giving [changed]. *)
Definition backup_if_content_differs (config config_file_name : json) : M bool :=
  folder ← get_config_path;
  config_file_path ← lift (Py.concat folder config_file_name);
  present ← path_exists config_file_path;
  if (present : bool) then
    connector_config_data ← load_file config_file_path;
    let config_hash := py_hash (py_str connector_config_data) in
    configuration_json ← lift (Py.getitem config "configurationJson");
    if negb (Z.eqb config_hash (py_hash (py_str configuration_json))) then
      create_configuration_file_backup connector_config_data config_file_name ;;
      mret true
    else mret false
  else mret false.

(** The condition on [name], [type], [class], [key] and [logLevel]. *)
Definition summary_changed (found_connector config : json) : M bool :=
  let differ (old new : outcome json) : M bool :=
    old ← lift old; new ← lift new; mret (py_ne old new) in
  or_else (differ (Py.get found_connector "name" JNull) (Py.getitem config "name"))
 (or_else (differ (Py.get found_connector "type" JNull) (Py.getitem config "type"))
 (or_else (differ (Py.get found_connector "class" JNull) (Py.get config "class" JNull))
 (or_else (differ (Py.get found_connector "key" JNull) (Py.get config "key" JNull))
          (differ (stored ← Py.get found_connector "configurationJson" (JObj []);
                   Py.get stored "logLevel" JNull)
                  (Py.get config "logLevel" JNull))))).

(** The [else] branch, for the first entry found, giving [config] as
    it leaves it. *)
Definition update_connector (config config_file_name : json)
    (position : nat) (found_connector : json) : M json :=
  changed ← backup_if_content_differs config config_file_name;
  differs ← summary_changed found_connector config;
  updated ←
    (if (differs : bool) then
       connector_configuration ← lift (summary_entry config config_file_name);
       found_connector ← lift (Py.update found_connector connector_configuration);
       modify_connectors (λ connectors, <[position := found_connector]> connectors) ;;
       mret (Some connector_configuration)
     else mret None);
  if (changed : bool) || differs then
    folder ← get_config_path;
    path ← lift (Py.concat folder config_file_name);
    open_w path ;;
    config ← lift (merge_log_level_and_name config);
    configuration_json ← lift (Py.getitem config "configurationJson");
    write path (dumps configuration_json) ;;
    let connector_configuration := from_option id found_connector updated in
    name ← lift (Py.getitem connector_configuration "name");
    replace_connector name ;;
    mret config
  else mret config.

Definition _handle_connector_configuration_update (config : json) : M unit :=
  log DEBUG "Processing connectors configuration update..." ;;
  try_except
    (config_file_name ← lift (Py.getitem config "configuration");
     connectors ← connectors_configuration;
     found_connectors ← lift (find_connectors config connectors 0);
     config ←
       match found_connectors with
       | [] => add_connector config config_file_name
       | (position, found_connector) :: _ =>
           update_connector config config_file_name position found_connector
       end;
     name ← lift (Py.getitem config "name");
     key ← lift (attribute_key name);
     send_attributes key config)
    is_Exception
    (λ e, log_exception e).

(** *** The table of handlers and the entry point *)

(** [self._handlers], in the order the dictionary is written. *)
Definition _handlers (fuel : nat) : handler_table :=
  [ (Literal "general_configuration", _handle_general_configuration_update fuel);
    (Literal "storage_configuration", _handle_storage_configuration_update);
    (Literal "grpc_configuration", _handle_grpc_configuration_update);
    (Literal "logs_configuration", _handle_logs_configuration_update);
    (Literal "active_connectors", _handle_active_connectors_update);
    (Literal "RemoteLoggingLevel", _handle_remote_logging_level_update);
    (AnyName, _handle_connector_configuration_update) ].

Definition process_config_request (fuel : nat) (config : dict) : M unit :=
  process_config_request_with (_handlers fuel) config.

(** *** Reading the configuration back *)

(** [self.general_configuration.update(other)], giving the dictionary
    after the call: the dictionary the getter gives is the stored one,
    changed in place, or a fresh one. *)
Definition general_configuration_update (other : json) : M json :=
  c ← gets _config;
  match Dict.get "thingsboard" c with
  | Some current =>
      updated ← lift (Py.update current other);
      modify (set_config (Dict.set "thingsboard" updated c)) ;;
      mret updated
  | None => lift (Py.update (JObj []) other)
  end.

(** [self.general_configuration['statistics'][k]]. *)
Definition statistics_item (k : string) : M json :=
  general ← general_configuration;
  statistics ← lift (Py.getitem general "statistics");
  lift (Py.getitem statistics k).

(** [self.general_configuration['statistics'].get('configuration')]. *)
Definition statistics_configuration : M json :=
  general ← general_configuration;
  statistics ← lift (Py.getitem general "statistics");
  lift (Py.get statistics "configuration" JNull).

Definition _get_general_config_in_remote_format : M json :=
  stat_conf_path ← statistics_configuration;
  commands ←
    (if truthy stat_conf_path then
       folder ← get_config_path;
       path ← lift (Py.concat folder stat_conf_path);
       load_file path
     else mret (JList []));
  config ← general_configuration;
  lift (Py.dict_method config) ;;
  enable ← statistics_item "enable";
  period ← statistics_item "statsSendPeriodInSeconds";
  configuration ← statistics_configuration;
  general_configuration_update
    (JObj [("statistics",
            JObj [("enable", enable); ("statsSendPeriodInSeconds", period);
                  ("configuration", configuration); ("commands", commands)])]).

(** [[connector['name'] for connector in self.connectors_configuration]]. *)
Definition _get_active_connectors : M (list json) :=
  connectors ← connectors_configuration;
  lift (map_outcome (λ connector, Py.getitem connector "name") connectors).

(** *** Reading the files when the configurator is built *)

Definition _load_logs_configuration : M json :=
  try_except
    (folder ← get_config_path;
     load_file (folder ++ "logs.json"))
    is_Exception
    (λ e, log_exception e ;; mret (JObj [])).

(** One turn of the innermost loop of [_load_connectors_configuration],
    for the stored entry at [position], giving [connector] as the turn
    leaves it: [pop] takes [config] out of it. *)
Definition merge_loaded_connector (connector : json) (position : nat)
    (general_connector_config : json) : M json :=
  name ← lift (Py.getitem general_connector_config "name");
  wanted ← lift (Py.getitem connector "name");
  if py_eq name wanted then
    configs ← lift (Py.getitem connector "config");
    connector ← lift (Py.pop connector "config");
    file_name ← lift (Py.getitem general_connector_config "configuration");
    config ← lift (Py.subscript configs file_name);
    updated ← lift (Py.update general_connector_config connector);
    updated ← lift (Py.setitem updated "configurationJson" config);
    modify_connectors (λ connectors, <[position := updated]> connectors) ;;
    mret connector
  else mret connector.

(** [for general_connector_config in self.connectors_configuration: ...]
    from [position] on.  A turn changes the entry it is at and no other,
    so the entries are the ones the getter gave. *)
Fixpoint merge_into_entries (connector : json) (entries : list json)
    (position : nat) : M json :=
  match entries with
  | [] => mret connector
  | general_connector_config :: rest =>
      connector ← merge_loaded_connector connector position general_connector_config;
      merge_into_entries connector rest (S position)
  end.

(** [for connector in connector_list: ...], giving the connectors as the
    loop leaves them. *)
Fixpoint merge_connector_list (connector_list : list json) : M (list json) :=
  match connector_list with
  | [] => mret []
  | connector :: rest =>
      entries ← connectors_configuration;
      connector ← merge_into_entries connector entries 0;
      rest ← merge_connector_list rest;
      mret (connector :: rest)
  end.

(** [self._load_connectors_configuration()].  [connectors_configs] is
    [self._gateway.connectors_configs], which the gateway builds from
    the connector files: the connectors it read, by type.  The function
    changes them in place; they are given back as it leaves them. *)
Fixpoint _load_connectors_configuration
    (connectors_configs : list (string * list json))
    : M (list (string * list json)) :=
  match connectors_configs with
  | [] => mret []
  | (connector_type, connector_list) :: rest =>
      connector_list ← merge_connector_list connector_list;
      rest ← _load_connectors_configuration rest;
      mret ((connector_type, connector_list) :: rest)
  end.

End Configurator.

(** ** A test double of the gateway

    Used to run the configurator on concrete updates.  The world is a
    clock and three switches; every collaborator succeeds unless a
    switch says otherwise. *)

Module Stub.

Record World : Type := {
  clock : Z;                 (* milliseconds since the epoch *)
  broker_reachable : bool;   (* whether a client ever gets connected *)
  client_breaks : bool;      (* whether building a client raises *)
  storage_breaks : bool      (* whether building a storage raises *)
}.

Definition advance (ms : Z) (w : World) : World :=
  {| clock := clock w + ms; broker_reachable := broker_reachable w;
     client_breaks := client_breaks w; storage_breaks := storage_breaks w |}.

Definition quote : string := String "034"%char EmptyString.

(** A compact rendering of a value, used for [str] and [dumps]. *)
Fixpoint render (v : json) : string :=
  match v with
  | JNull => "null"
  | JBool b => if b then "true" else "false"
  | JInt z => pretty z
  | JStr s => quote ++ s ++ quote
  | JList l =>
      "[" ++ (fix go (l : list json) : string :=
                match l with
                | [] => ""
                | x :: r => render x ++ "," ++ go r
                end) l ++ "]"
  | JObj d =>
      "{" ++ (fix go (d : dict) : string :=
                match d with
                | [] => ""
                | (k, x) :: r => quote ++ k ++ quote ++ ":" ++ render x ++ "," ++ go r
                end) d ++ "}"
  end.

(** The documents the examples keep in files. *)
Definition mqtt_v1 : json := JObj [("broker", JStr "old")].
Definition mqtt_v2 : json := JObj [("broker", JStr "new")].
Definition documents : list json := [mqtt_v1; mqtt_v2; JList []].

(** Parsing, for the documents above. *)
Definition parse (text : string) : outcome json :=
  match filter (λ v, render v = text) documents with
  | v :: _ => Ok v
  | [] => Raise ValueError
  end.

Definition checksum (s : string) : Z :=
  fold_right (λ c acc, Z.of_nat (nat_of_ascii c) + 31 * acc) 0
    (list_ascii_of_string s).

Definition succeed (g : Gateway World) : outcome unit * Gateway World :=
  (Ok tt, set_world (advance 1 (world g)) g).

#[global] Instance externals : Externals World := {|
  py_str := render;
  py_hash := checksum;
  dumps := render;
  loads := parse;
  clock_ms := λ w, (clock w, w);
  sleep_ms := advance;
  client_init := λ _ _ g,
    if client_breaks (world g) then (Raise (OtherError "client"), g) else succeed g;
  client_connect := λ _, succeed;
  client_disconnect := λ _, succeed;
  client_stop := λ _, succeed;
  client_is_connected := λ _ g, (Ok (broker_reachable (world g)), g);
  subscribe_to_required_topics := succeed;
  storage_init := λ _ _ g,
    if storage_breaks (world g) then (Raise (OtherError "storage"), g) else succeed g;
  init_grpc_service := λ _, succeed;
  load_connectors := λ _, succeed;
  connect_with_connectors := succeed;
  connector_close := λ _, succeed;
  init_statistics_service := λ _, succeed;
  init_device_filtering := λ _, succeed;
  init_remote_shell := λ _, succeed;
  dictConfig := λ _, succeed;
  install_remote_handler := succeed
|}.

Definition general : json :=
  JObj [("host", JStr "tb.local"); ("port", JInt 1883);
        ("security", JObj [("accessToken", JStr "t0")]); ("qos", JInt 1);
        ("maxPayloadSizeBytes", JInt 1024);
        ("statistics", JObj [("enable", JBool true);
                             ("statsSendPeriodInSeconds", JInt 3600)])].

Definition mqtt_entry : json :=
  JObj [("name", JStr "MQTT"); ("type", JStr "mqtt");
        ("configuration", JStr "mqtt.json")].

Definition stored_config : dict :=
  [("thingsboard", general);
   ("storage", JObj [("type", JStr "memory")]);
   ("grpc", JObj [("enabled", JBool false)]);
   ("connectors", JList [mqtt_entry])].

Definition start_world : World :=
  {| clock := 1700000000000; broker_reachable := true;
     client_breaks := false; storage_breaks := false |}.

Definition gateway_in (w : World) : Gateway World :=
  {| tb_client := {| client_config := general; client_folder := "/etc/tb/" |};
     _event_storage := {| storage_type := "memory";
                          storage_config := JObj [("type", JStr "memory")] |};
     event_storage_types := ["memory"; "file"; "sqlite"];
     available_connectors := ["MQTT"];
     gw_config := stored_config;
     config_path := "/etc/tb/";
     world := w |}.

Definition state_in (w : World) : State World :=
  {| in_process := false;
     _config := stored_config;
     _active_connectors := JList [];
     _gateway := gateway_in w;
     files := {[ "/etc/tb/mqtt.json" := {| content := render mqtt_v1; mtime := 1600000000000 |};
                 "/etc/tb/logs.json" := {| content := "{}"; mtime := 1600000000000 |} ]};
     folders := ∅;
     trace := [] |}.

Definition start : State World := state_in start_world.

(** A batch whose first key is handled with an error. *)
Definition broken_batch : dict :=
  [("general_configuration", JObj []); ("RemoteLoggingLevel", JStr "DEBUG")].

(** A request arriving while another one is in flight. *)
Definition busy : State World := set_in_process true start.

(** The platform cannot be reached, for any client. *)
Definition outage : World :=
  {| clock := 1700000000000; broker_reachable := false;
     client_breaks := false; storage_breaks := false |}.

(** Building a client raises. *)
Definition no_client : World :=
  {| clock := 1700000000000; broker_reachable := true;
     client_breaks := true; storage_breaks := false |}.

(** Building a storage raises. *)
Definition no_storage : World :=
  {| clock := 1700000000000; broker_reachable := true;
     client_breaks := false; storage_breaks := true |}.

(** A general configuration with another host and another payload
    size, and no statistics. *)
Definition moved : json :=
  JObj [("host", JStr "tb2.local"); ("port", JInt 1883);
        ("security", JObj [("accessToken", JStr "t0")]); ("qos", JInt 1);
        ("maxPayloadSizeBytes", JInt 2048)].

(** The current general configuration with another payload size, and
    no statistics. *)
Definition resized : json :=
  JObj [("host", JStr "tb.local"); ("port", JInt 1883);
        ("security", JObj [("accessToken", JStr "t0")]); ("qos", JInt 1);
        ("maxPayloadSizeBytes", JInt 2048)].

Definition file_storage : json := JObj [("type", JStr "file")].

(** An update of the MQTT connector with another configuration, and
    one with the configuration that is on disk. *)
Definition mqtt_update (configuration_json : json) : dict :=
  [("name", JStr "MQTT"); ("type", JStr "mqtt");
   ("configuration", JStr "mqtt.json"); ("logLevel", JStr "INFO");
   ("configurationJson", configuration_json)].

(** A connector the gateway does not have yet. *)
Definition modbus_update : dict :=
  [("name", JStr "Modbus"); ("type", JStr "modbus");
   ("configuration", JStr "modbus.json"); ("logLevel", JStr "INFO");
   ("configurationJson", JObj [("master", JObj [])])].

End Stub.

(** ** A second test double, whose operations can be made to fail

    The world is a clock and the list of the operations that raise
    when they are called; an operation that succeeds takes a
    millisecond. *)

Module Lab.

Record World : Type := {
  clock : Z;                 (* milliseconds since the epoch *)
  broken : list string       (* the operations that raise *)
}.

Definition elapse (ms : Z) (w : World) : World :=
  {| clock := clock w + ms; broken := broken w |}.

Definition attempt (operation : string) (g : Gateway World)
    : outcome unit * Gateway World :=
  if bool_decide (operation ∈ broken (world g))
  then (Raise (OtherError operation), g)
  else (Ok tt, set_world (elapse 1 (world g)) g).

(** The documents the examples keep in files. *)
Definition uptime : json :=
  JList [JObj [("attributeOnGateway", JStr "uptime");
               ("command", JStr "uptime"); ("timeout", JInt 5)]].

Definition logging : json :=
  JObj [("version", JInt 1); ("disable_existing_loggers", JBool false)].

Definition documents : list json :=
  [Stub.mqtt_v1; Stub.mqtt_v2; JList []; uptime; logging].

Definition parse (text : string) : outcome json :=
  match filter (λ v, Stub.render v = text) documents with
  | v :: _ => Ok v
  | [] => Raise ValueError
  end.

#[global] Instance externals : Externals World := {|
  py_str := Stub.render;
  py_hash := Stub.checksum;
  dumps := Stub.render;
  loads := parse;
  clock_ms := λ w, (clock w, w);
  sleep_ms := elapse;
  client_init := λ _ _, attempt "TBClient";
  client_connect := λ _, attempt "connect";
  client_disconnect := λ _, attempt "disconnect";
  client_stop := λ _, attempt "stop";
  client_is_connected := λ _ g,
    (Ok (negb (bool_decide ("network" ∈ broken (world g)))), g);
  subscribe_to_required_topics := attempt "subscribe";
  storage_init := λ _ _, attempt "storage";
  init_grpc_service := λ _, attempt "init_grpc_service";
  load_connectors := λ _, attempt "load_connectors";
  connect_with_connectors := attempt "connect_with_connectors";
  connector_close := λ name, attempt ("close " ++ name);
  init_statistics_service := λ _, attempt "init_statistics_service";
  init_device_filtering := λ _, attempt "init_device_filtering";
  init_remote_shell := λ _, attempt "init_remote_shell";
  dictConfig := λ _, attempt "dictConfig";
  install_remote_handler := attempt "TBLoggerHandler"
|}.

Definition statistics : json :=
  JObj [("enable", JBool true); ("statsSendPeriodInSeconds", JInt 3600);
        ("configuration", JStr "statistics.json")].

Definition general : json :=
  JObj [("host", JStr "tb.local"); ("port", JInt 1883);
        ("security", JObj [("accessToken", JStr "t0")]); ("qos", JInt 1);
        ("maxPayloadSizeBytes", JInt 1024);
        ("statistics", statistics)].

Definition mqtt_entry : json :=
  JObj [("name", JStr "MQTT"); ("type", JStr "mqtt");
        ("configuration", JStr "mqtt.json")].

Definition modbus_entry : json :=
  JObj [("name", JStr "Modbus"); ("type", JStr "modbus");
        ("configuration", JStr "modbus.json");
        ("config_updated", JInt 1700000000);
        ("config_file_path", JStr "/etc/tb/modbus.json")].

Definition stored_config : dict :=
  [("thingsboard", general);
   ("storage", JObj [("type", JStr "memory")]);
   ("connectors", JList [mqtt_entry; modbus_entry])].

Definition gateway_in (w : World) : Gateway World :=
  {| tb_client := {| client_config := general; client_folder := "/etc/tb/" |};
     _event_storage := {| storage_type := "memory";
                          storage_config := JObj [("type", JStr "memory")] |};
     event_storage_types := ["memory"; "file"; "sqlite"];
     available_connectors := ["MQTT"; "Modbus"];
     gw_config := stored_config;
     config_path := "/etc/tb/";
     world := w |}.

Definition state_in (w : World) : State World :=
  {| in_process := false;
     _config := stored_config;
     _active_connectors := JList [];
     _gateway := gateway_in w;
     files := {[ "/etc/tb/mqtt.json" := {| content := Stub.render Stub.mqtt_v1;
                                           mtime := 1600000000000 |};
                 "/etc/tb/statistics.json" := {| content := Stub.render uptime;
                                                 mtime := 1600000000000 |} ]};
     folders := ∅;
     trace := [] |}.

(** Every operation succeeds. *)
Definition fine : World := {| clock := 1700000000000; broken := [] |}.

Definition start : State World := state_in fine.

(** The MQTT entry with a configuration loaded into it, and the state
    whose store holds it. *)
Definition loaded_mqtt_entry : json :=
  JObj [("name", JStr "MQTT"); ("type", JStr "mqtt");
        ("configuration", JStr "mqtt.json");
        ("configurationJson", JObj [("broker", JStr "old"); ("logLevel", JStr "INFO");
                                    ("name", JStr "MQTT")])].

Definition loaded : State World :=
  set_config (Dict.set "connectors" (JList [loaded_mqtt_entry; modbus_entry]) stored_config)
    start.

(** The MQTT connector as the gateway read it from its file. *)
Definition mqtt_fields : dict :=
  [("name", JStr "MQTT"); ("type", JStr "mqtt");
   ("configuration", JStr "mqtt.json")].

Definition mqtt_read : dict :=
  [("name", JStr "MQTT"); ("type", JStr "mqtt");
   ("config", JObj [("mqtt.json", Stub.mqtt_v1)]);
   ("config_updated", JInt 1700000000);
   ("config_file_path", JStr "/etc/tb/mqtt.json")].

(** A store that names the MQTT connector twice. *)
Definition doubled : State World :=
  set_config
    (Dict.set "connectors" (JList [mqtt_entry; modbus_entry; mqtt_entry]) stored_config)
    start.

(** The state when the operations of [operations] raise. *)
Definition failing (operations : list string) : State World :=
  state_in {| clock := 1700000000000; broken := operations |}.

End Lab.

(** * Properties *)

(** The file an attribute resolves to: the payload's own
    [configuration] entry or, failing that, the entry of the static
    table; [JNull] when there is none. *)
Definition resolved_file (attr_name : string) (config : json) : json :=
  match config with
  | JObj d =>
      py_or (from_option id JNull (Dict.get "configuration" d))
            (from_option id JNull (Dict.get attr_name _modifiable_static_attrs))
  | _ => JNull
  end.

(** The timestamp of a payload: its [ts] entry, [0] without one. *)
Definition payload_ts (config : json) : option Z :=
  match config with
  | JObj d => Py.as_int (from_option id (JInt 0) (Dict.get "ts" d))
  | _ => None
  end.

(** The configurator when the loop over the keys of a batch starts: the
    request is logged and the flag is set. *)
Definition entered {W} (s : State W) : State W :=
  set_in_process true
    (set_trace (trace s ++ [EvLog DEBUG "Got config update request: %s"]) s).

(** [m] leaves the observation [f] of the state as it finds it. *)
Definition preserves {W A X} (f : State W → X) (m : @M W A) : Prop :=
  ∀ s, f (m s).2 = f s.

(** The number of backup records written in a run. *)
Definition is_backup (ev : Event) : bool :=
  match ev with EvBackup _ _ => true | _ => false end.

Definition backups (t : list Event) : nat := length (filter is_backup t).

(** An entry of the list of connectors as the local format reads it. *)
Definition connector_entry_ok (entry : json) : Prop :=
  ∃ d, entry = JObj d ∧ is_Some (Dict.get "type" d) ∧
       is_Some (Dict.get "name" d) ∧ is_Some (Dict.get "configuration" d).

(** The list of connectors of a store, when it has one, is a list of
    such entries. *)
Definition connectors_well_formed (c : dict) : Prop :=
  match Dict.get "connectors" c with
  | None => True
  | Some (JList l) => Forall connector_entry_ok l
  | Some _ => False
  end.

(** [s'] is [s] but for the list of connectors of the store and for
    the world behind the gateway. *)
Definition same_but_connectors_and_world {W} (s s' : State W) : Prop :=
  in_process s' = in_process s ∧
  _active_connectors s' = _active_connectors s ∧
  (∃ w, _gateway s' = set_world w (_gateway s)) ∧
  (∀ k, k ≠ "connectors" → Dict.get k (_config s') = Dict.get k (_config s)) ∧
  connectors_well_formed (_config s') ∧
  folders s' = folders s.

(** The state after [LOG.info(msg)]. *)
Definition logged {W} (msg : string) (s : State W) : State W :=
  set_trace (trace s ++ [EvLog INFO msg]) s.

(** The name of an entry of the list of connectors, and the name up to
    Python's [==], which is how the handler looks entries up. *)
Definition entry_name (entry : json) : option json :=
  match entry with
  | JObj d => Dict.get "name" d
  | _ => None
  end.

Definition cname (entry : json) : option json := canon <$> entry_name entry.

(** Every entry has a name and no two entries have equal names. *)
Definition names_distinct (l : list json) : Prop :=
  Forall (λ entry, is_Some (entry_name entry)) l ∧ NoDup (cname <$> l).

Definition connectors_distinct (c : dict) : Prop :=
  match Dict.get "connectors" c with
  | Some (JList l) => names_distinct l
  | _ => True
  end.

(** The names of the stored connectors, up to [==]. *)
Definition cnames {W} (s : State W) : option (list (option json)) :=
  match Dict.get "connectors" (_config s) with
  | Some (JList l) => Some (cname <$> l)
  | _ => None
  end.

(** From a state where [P] holds, [m] returns a value and a state
    related by [Q], or ends otherwise in a state where [E] holds. *)
Definition triple {W A} (P : State W → Prop) (m : @M W A)
    (Q : A → State W → Prop) (E : State W → Prop) : Prop :=
  ∀ s, P s →
    match m s with
    | (Ok a, s') => Q a s'
    | (_, s') => E s'
    end.

(** The names of the stored connectors once a handler is done with a
    list that had the names [v]: the same, or one more name, which none
    of them was equal to. *)
Definition same_or_one_more (v : option (list (option json)))
    (now : option (list (option json))) : Prop :=
  now = v ∨
  ∃ ns wanted, v = Some ns ∧ (Some (canon wanted) ∉ ns) ∧
               now = Some (ns ++ [Some (canon wanted)])%list.

(** A stored entry the connector handler can compare with a payload:
    a dictionary with a name whose [configurationJson], if it has one,
    is a dictionary. *)
Definition stored_entry_ok (entry : json) : Prop :=
  ∃ d, entry = JObj d ∧ is_Some (Dict.get "name" d) ∧
       match Dict.get "configurationJson" d with
       | None | Some (JObj _) => True
       | _ => False
       end.

(** A payload as [_handle_connector_configuration_update] expects it,
    for the configuration file [file_name] and with the configuration
    [configuration_json]. *)
Definition connector_payload (d : dict) (file_name : string) (name : json)
    (configuration_json : dict) : Prop :=
  Dict.get "configuration" d = Some (JStr file_name) ∧
  Dict.get "name" d = Some name ∧
  is_Some (Dict.get "type" d) ∧
  is_Some (Dict.get "logLevel" d) ∧
  Dict.get "configurationJson" d = Some (JObj configuration_json).

(** The local copy is at least as fresh as the payload. *)
Definition file_is_current {W} (attr_name : string) (config : json)
    (s : State W) : Prop :=
  ∃ p f t,
    resolved_file attr_name config = JStr p ∧
    files s !! (config_path (_gateway s) ++ p) = Some f ∧
    payload_ts config = Some t ∧
    (t ≤ mtime f)%Z.

(** The document [_get_general_config_in_local_format] builds from a
    store, for some summaries of its connectors. *)
Definition local_format_of (c : dict) (summaries : list json) : json :=
  JObj [("thingsboard", from_option id (JObj []) (Dict.get "thingsboard" c));
        ("storage", from_option id (JObj []) (Dict.get "storage" c));
        ("grpc", from_option id (JObj []) (Dict.get "grpc" c));
        ("connectors", JList summaries)].

(** The keys of [self._handlers] that are plain words. *)
Definition reserved_names : list string :=
  ["general_configuration"; "storage_configuration"; "grpc_configuration";
   "logs_configuration"; "active_connectors"; "RemoteLoggingLevel"].

(** Whether a run ended with an exception. *)
Definition raised {A} (r : outcome A) : bool :=
  match r with Raise _ => true | _ => false end.

(** A key of a batch that [process_config_request] looks at. *)
Definition looked_at (item : string * json) : bool :=
  negb (contains "deleted" item.1).

(** Whether the list of active connectors names a connector, as
    [name not in config] tests it. *)
Definition listed (l : list json) (name : string) : bool :=
  existsb (py_eq (JStr name)) l.

(** Whether it names the connector of an entry of the store. *)
Definition entry_listed (l : list json) (entry : json) : bool :=
  match entry_name entry with
  | Some name => existsb (py_eq name) l
  | None => false
  end.

(** An entry of the store without the marks [config_updated] and
    [config_file_path]. *)
Definition stripped (entry : json) : json :=
  match entry with
  | JObj d => JObj (Dict.remove "config_file_path" (Dict.remove "config_updated" d))
  | _ => entry
  end.

(** An entry of the store as a Python dictionary: no key twice. *)
Definition entry_is_dict (entry : json) : Prop :=
  ∃ d, entry = JObj d ∧ NoDup (Dict.keys d).

(** The record of [LOG.exception]. *)
Definition is_exception_log (ev : Event) : bool :=
  match ev with EvLogExc _ => true | _ => false end.

(** The store once the getter of the connectors has been through it. *)
Definition strip_config (c : dict) : dict :=
  match Dict.get "connectors" c with
  | Some (JList l) => Dict.set "connectors" (JList (strip_markers l).1) c
  | _ => c
  end.



(** The file [_apply_statistics_config] writes the commands to, for
    the statistics [st] in memory. *)
Definition statistics_file (st : dict) : json :=
  let name := from_option id (JStr "statistics.json") (Dict.get "configuration" st) in
  if bool_decide (name = JNull) then JStr "statistics.json" else name.


Definition same_optional (k : string) (default : json) (d g : dict) : Prop :=
  py_eq (from_option id default (Dict.get k d))
        (from_option id default (Dict.get k g)) = true.

(** A stored entry and a connector payload agree on what the handler
    compares besides the name: [type], [class], [key] and the
    [logLevel], which the entry has in its [configurationJson]. *)
Definition entry_matches (entry : json) (d : dict) : Prop :=
  ∃ fd, entry = JObj fd ∧
    same_optional "type" JNull fd d ∧
    same_optional "class" JNull fd d ∧
    same_optional "key" JNull fd d ∧
    py_eq (match Dict.get "configurationJson" fd with
           | Some (JObj stored) => from_option id JNull (Dict.get "logLevel" stored)
           | _ => JNull
           end)
          (from_option id JNull (Dict.get "logLevel" d)) = true.

(** [m] keeps the property [P] of the state, however it ends. *)
Definition keeps {W A} (P : State W → Prop) (m : @M W A) : Prop :=
  ∀ s, P s → P (m s).2.

Example py_eq_dict_order :
  py_eq (JObj [("a", JInt 1); ("b", JBool true)])
        (JObj [("b", JInt 1); ("a", JInt 1)]) = true.
Proof. vm_compute. reflexivity. Qed.

Example contains_deleted : contains "deleted" "mqtt_deleted_1" = true.
Proof. reflexivity. Qed.

Section Dispatcher.

Context {W : Type} `{!Externals W}.

Implicit Types (s : State W) (handlers : @handler_table W).

Lemma bind_ok {A B} (m : M A) (f : A → M B) s a s' :
  m s = (Ok a, s') → (m ≫= f) s = f a s'.
Proof. unfold mbind, M_bind. by intros ->. Qed.

Lemma bind_raise {A B} (m : M A) (f : A → M B) s e s' :
  m s = (Raise e, s') → (m ≫= f) s = (Raise e, s').
Proof. unfold mbind, M_bind. by intros ->. Qed.

Lemma bind_diverge {A B} (m : M A) (f : A → M B) s s' :
  m s = (Diverge, s') → (m ≫= f) s = (Diverge, s').
Proof. unfold mbind, M_bind. by intros ->. Qed.

Lemma resolve_file_path_eq attr_name config s :
  resolve_file_path attr_name config s = (Ok (resolved_file attr_name config), s).
Proof. by destruct config. Qed.

Lemma _is_modified_current attr_name config s :
  file_is_current attr_name config s →
  _is_modified attr_name config s = (Ok false, s).
Proof.
  intros (p & f & t & Hp & Hf & Ht & Hle).
  unfold _is_modified.
  rewrite (bind_ok _ _ _ _ _ (resolve_file_path_eq _ _ _)), Hp.
  destruct config as [| | | |?|d]; try discriminate.
  simpl in Ht. unfold Py.le_int, getmtime_ms, try_except, mbind, M_bind, lift, get_config_path, gets.
  simpl. rewrite Hf. unfold Py.le_int. rewrite Ht. simpl.
  by rewrite (proj2 (Z.leb_le _ _) Hle).
Qed.


(** C10.  A payload of a file-backed attribute that carries no [ts]
    is given the timestamp 0: whenever the file exists (modification
    times count from the epoch), the update is reported unmodified and
    the dispatcher goes on to the next key, whatever the handlers are:
    none is invoked and nothing changes, not even the log. *)
Theorem payload_without_ts_is_skipped handlers attr_name d p f s :
  Dict.get "ts" d = None →
  resolved_file attr_name (JObj d) = JStr p →
  files s !! (config_path (_gateway s) ++ p) = Some f →
  (0 ≤ mtime f)%Z →
  payload_ts (JObj d) = Some 0%Z ∧
  _is_modified attr_name (JObj d) s = (Ok false, s) ∧
  process_key handlers (attr_name, JObj d) s = (Ok tt, s).
Proof.
  intros Hts Hp Hf Hm.
  assert (Ht : payload_ts (JObj d) = Some 0%Z) by (simpl; by rewrite Hts).
  assert (Hrun : _is_modified attr_name (JObj d) s = (Ok false, s)).
  { apply _is_modified_current. by exists p, f, 0%Z. }
  repeat split; try done.
  unfold process_key. simpl.
  destruct (contains "deleted" attr_name); [done|].
  by rewrite (bind_ok _ _ _ _ _ Hrun).
Qed.

(** C2.  While a request is in flight a new one is rejected: whatever
    the batch and the handlers are, the call only logs an error, so no
    change detector runs, no handler is invoked and nothing else
    changes.  A call that does execute leaves [in_process] false when
    it returns, with a value or with an exception that escaped the
    loop. *)
Theorem process_config_request_single_flight handlers config s :
  (in_process s = true →
     process_config_request_with handlers config s =
     (Ok tt,
      set_trace
        (trace s ++ [EvLog ERROR "Remote configuration is already in processing"]) s)) ∧
  (in_process s = false →
     ∀ r s', process_config_request_with handlers config s = (r, s') →
             r ≠ Diverge → in_process s' = false).
Proof.
  split; intros Hflag.
  - unfold process_config_request_with, mbind, M_bind, gets. by rewrite Hflag.
  - intros r s' Hrun Hr.
    unfold process_config_request_with, mbind, M_bind, gets, log, emit, modify in Hrun.
    rewrite Hflag in Hrun. simpl in Hrun.
    unfold try_finally, try_except, modify in Hrun.
    destruct (for_each (process_key handlers) config _) as [[[]|e|] s1];
      simpl in Hrun.
    + by inversion Hrun.
    + destruct (is_KeyError_or_AttributeError e); simpl in Hrun; by inversion Hrun.
    + inversion Hrun. by subst.
Qed.

Lemma for_each_stops {A} (body : A → M unit) before item after s e s1 s2 :
  for_each body before s = (Ok tt, s1) →
  body item s1 = (Raise e, s2) →
  for_each body (before ++ item :: after) s = (Raise e, s2).
Proof.
  revert s. induction before as [|x before IH]; intros s Hbefore Hitem; simpl in *.
  - inversion Hbefore; subst. by rewrite (bind_raise _ _ _ _ _ Hitem).
  - unfold mbind, M_bind in Hbefore |- *.
    destruct (body x s) as [[[]|?|] sx]; try discriminate.
    by apply IH.
Qed.

(** C1, as the code has it.  The [try] statement encloses the whole
    loop: the keys are handled in order, and the first key whose
    handling raises ends the batch.  A [KeyError] or an
    [AttributeError] is caught and logged and the call returns; any
    other exception goes on to the caller.  Either way the keys after
    it are not handled (the result does not depend on them) and the
    flag is released. *)
Theorem first_error_ends_the_batch handlers before item after s e s1 s2 :
  in_process s = false →
  for_each (process_key handlers) before (entered s) = (Ok tt, s1) →
  process_key handlers item s1 = (Raise e, s2) →
  process_config_request_with handlers (before ++ item :: after) s =
  if is_KeyError_or_AttributeError e then
    (Ok tt,
     set_in_process false
       (set_trace
          (trace s2 ++ [EvLog ERROR "Unknown attribute update name (Available: %s)"]) s2))
  else (Raise e, set_in_process false s2).
Proof.
  intros Hflag Hbefore Hitem.
  pose proof (for_each_stops _ _ _ after _ _ _ _ Hbefore Hitem) as Hloop.
  unfold process_config_request_with, mbind, M_bind, gets, log, emit, modify.
  rewrite Hflag. simpl. unfold try_finally, try_except, modify.
  unfold entered in Hloop. rewrite Hloop.
  by destruct (is_KeyError_or_AttributeError e).
Qed.

End Dispatcher.

(** ** Dictionaries *)

Lemma dict_get_set_eq k v (d : dict) : Dict.get k (Dict.set k v d) = Some v.
Proof.
  induction d as [|[k' v'] d IH]; simpl.
  - by rewrite String.eqb_refl.
  - destruct (String.eqb k' k) eqn:E; simpl; rewrite E; [done|apply IH].
Qed.

Lemma dict_get_set_ne k k' v (d : dict) :
  k ≠ k' → Dict.get k' (Dict.set k v d) = Dict.get k' d.
Proof.
  intros Hne. induction d as [|[k0 v0] d IH]; simpl.
  - destruct (String.eqb k k') eqn:E; [|done]. by apply String.eqb_eq in E.
  - destruct (String.eqb k0 k) eqn:E; simpl.
    + apply String.eqb_eq in E. subst k0.
      destruct (String.eqb k k') eqn:E'; [|done]. by apply String.eqb_eq in E'.
    + by rewrite IH.
Qed.

Lemma dict_get_remove_ne k k' (d : dict) :
  k ≠ k' → Dict.get k' (Dict.remove k d) = Dict.get k' d.
Proof.
  intros Hne. induction d as [|[k0 v0] d IH]; simpl; [done|].
  destruct (String.eqb k0 k) eqn:E; simpl.
  - apply String.eqb_eq in E. subst k0.
    destruct (String.eqb k k') eqn:E'; [|done]. by apply String.eqb_eq in E'.
  - by rewrite IH.
Qed.

(** ** Frames: what a piece of code leaves alone *)

Section Frames.

Context {W : Type} `{!Externals W} {X : Type} (f : State W → X).

Lemma preserves_ret {A} (a : A) : preserves f (mret a).
Proof. by intros s. Qed.

Lemma preserves_lift {A} (r : outcome A) : preserves f (lift r).
Proof. by intros s. Qed.

Lemma preserves_raise {A} e : preserves f (raise (A:=A) e).
Proof. by intros s. Qed.

Lemma preserves_diverge {A} : preserves f (diverge (A:=A)).
Proof. by intros s. Qed.

Lemma preserves_gets {A} (g : State W → A) : preserves f (gets g).
Proof. by intros s. Qed.

Lemma preserves_modify (g : State W → State W) :
  (∀ s, f (g s) = f s) → preserves f (modify g).
Proof. intros Hg s. apply Hg. Qed.

Lemma preserves_bind {A B} (m : M A) (k : A → M B) :
  preserves f m → (∀ a, preserves f (k a)) → preserves f (m ≫= k).
Proof.
  intros Hm Hk s. unfold mbind, M_bind. specialize (Hm s).
  destruct (m s) as [[a|e|] s1]; simpl in *; [|done..].
  by rewrite Hk.
Qed.

Lemma preserves_try_except {A} (body : M A) classes handler :
  preserves f body → (∀ e, preserves f (handler e)) →
  preserves f (try_except body classes handler).
Proof.
  intros Hb Hh s. unfold try_except. specialize (Hb s).
  destruct (body s) as [[a|e|] s1]; simpl in *; [done| |done].
  destruct (classes e); [by rewrite Hh|done].
Qed.

Lemma preserves_try_except_else {A B} (body : M A) classes
    (handler : exn → M B) orelse :
  preserves f body → (∀ e, preserves f (handler e)) →
  (∀ a, preserves f (orelse a)) →
  preserves f (try_except_else body classes handler orelse).
Proof.
  intros Hb Hh Ho s. unfold try_except_else. specialize (Hb s).
  destruct (body s) as [[a|e|] s1]; simpl in *; [by rewrite Ho| |done].
  destruct (classes e); [by rewrite Hh|done].
Qed.

Lemma preserves_for_each {A} (body : A → M unit) l :
  (∀ x, preserves f (body x)) → preserves f (for_each body l).
Proof.
  intros Hb. induction l; simpl; [apply preserves_ret|].
  apply preserves_bind; auto.
Qed.

(** Observations that do not look at the gateway. *)
Hypothesis f_gateway : ∀ g s, f (set_gateway g s) = f s.

Lemma preserves_call {A} (o : Gateway W → outcome A * Gateway W) :
  preserves f (call o).
Proof. intros s. unfold call. destruct (o (_gateway s)). apply f_gateway. Qed.

Lemma preserves_modify_gateway g : preserves f (modify_gateway g).
Proof. intros s. apply f_gateway. Qed.

Lemma preserves_time_ms : preserves f time_ms.
Proof. intros s. unfold time_ms. destruct (clock_ms _). apply f_gateway. Qed.

Lemma preserves_sleep ms : preserves f (sleep ms).
Proof. apply preserves_modify_gateway. Qed.

(** ... nor at the files. *)
Hypothesis f_files : ∀ x s, f (set_files x s) = f s.
Hypothesis f_folders : ∀ x s, f (set_folders x s) = f s.

Lemma preserves_store_file path text : preserves f (store_file path text).
Proof.
  apply preserves_bind; [apply preserves_time_ms|].
  intros now. apply preserves_modify. intros s. apply f_files.
Qed.

Lemma preserves_path_exists path : preserves f (path_exists path).
Proof. apply preserves_gets. Qed.

Lemma preserves_getmtime_ms path : preserves f (getmtime_ms path).
Proof. intros s. unfold getmtime_ms. by destruct (files s !! path). Qed.

Lemma preserves_load_file path : preserves f (load_file path).
Proof. intros s. unfold load_file. by destruct (files s !! path). Qed.

End Frames.

Lemma backups_snoc t ev : is_backup ev = false → backups (t ++ [ev]) = backups t.
Proof.
  intros Hev. unfold backups. rewrite filter_app, length_app.
  by destruct ev; try discriminate; simpl; rewrite Nat.add_0_r.
Qed.

Lemma preserves_emit {W X} (f : State W → X) ev :
  (∀ s, f (set_trace (trace s ++ [ev]) s) = f s) → preserves f (emit ev).
Proof. intros Hf. by apply preserves_modify. Qed.

Lemma preserves_mkdir {W X} (f : State W → X) path :
  (∀ x s, f (set_folders x s) = f s) →
  (∀ s, f (set_trace (trace s ++ [EvMkdir path]) s) = f s) →
  preserves f (mkdir path).
Proof.
  intros Hd Ht. apply preserves_bind; [by apply preserves_modify|].
  intros _. by apply preserves_emit.
Qed.

(** Side conditions of the frame lemmas, for the observations used
    below. *)
Ltac frame_side :=
  solve [ intros; reflexivity
        | intros; simpl; apply backups_snoc; reflexivity
        | auto ].

Ltac frame_head m :=
  lazymatch m with
  | ?g _ _ _ _ _ => g | ?g _ _ _ _ => g | ?g _ _ _ => g | ?g _ _ => g | ?g _ => g
  | _ => m
  end.

(** Frames of straight-line code follow its structure; [loops] is tried
    on the loops, which need an induction of their own. *)
Ltac frame_with loops :=
  repeat first
    [ progress intros
    | loops
    | apply preserves_ret
    | apply preserves_lift
    | apply preserves_raise
    | apply preserves_diverge
    | apply preserves_gets
    | apply preserves_bind
    | apply preserves_try_except
    | apply preserves_try_except_else
    | apply preserves_for_each
    | apply preserves_call; frame_side
    | apply preserves_modify_gateway; frame_side
    | apply preserves_time_ms; frame_side
    | apply preserves_sleep; frame_side
    | apply preserves_store_file; frame_side
    | apply preserves_path_exists
    | apply preserves_getmtime_ms
    | apply preserves_load_file
    | apply preserves_mkdir; frame_side
    | apply preserves_emit; frame_side
    | apply preserves_modify; frame_side
    | assumption
    | match goal with
      | |- preserves _ (if ?b then _ else _) => destruct b
      | |- preserves _ (match ?x with _ => _ end) => destruct x
      | |- preserves _ (let (_, _) := ?x in _) => destruct x
      | |- preserves _ ?m => let h := frame_head m in progress unfold h
      end ].

Ltac frame := frame_with fail.

Section TraceFrames.

Context {W : Type} `{!Externals W}.

Lemma connectors_configuration_trace :
  preserves (W:=W) trace connectors_configuration.
Proof. frame. Qed.

Lemma local_format_trace :
  preserves (W:=W) trace _get_general_config_in_local_format.
Proof. frame. Qed.


End TraceFrames.

(** Running straight-line code: the steps are unfolded and the state
    is computed. *)
Ltac exec :=
  unfold open_w, write, store_file, sleep, time_ms, send_attributes, log,
    log_exception, emit, modify_gateway, modify, get_config_path, gets,
    lift, raise, diverge, mbind, M_bind, mret, M_ret;
  simpl.

(** ** Writing the general configuration file *)

Section LocalFormat.

Context {W : Type} `{!Externals W}.

Implicit Types (s : State W).

Lemma same_but_refl s :
  connectors_well_formed (_config s) → same_but_connectors_and_world s s.
Proof.
  intros Hwf. repeat split; try done.
  exists (world (_gateway s)). by destruct (_gateway s).
Qed.

Lemma same_but_trans s1 s2 s3 :
  same_but_connectors_and_world s1 s2 → same_but_connectors_and_world s2 s3 →
  same_but_connectors_and_world s1 s3.
Proof.
  intros (Ha & Hb & [w Hc] & Hd & He & Hf) (Ha' & Hb' & [w' Hc'] & Hd' & He' & Hf').
  repeat split; try congruence.
  - exists w'. rewrite Hc', Hc. done.
  - intros k Hk. rewrite Hd', Hd; done.
Qed.

Lemma strip_entry_ok entry :
  connector_entry_ok entry →
  ∃ entry', strip_entry entry = Ok entry' ∧ connector_entry_ok entry'.
Proof.
  intros (d & -> & Ht & Hn & Hc).
  eexists. split; [reflexivity|].
  eexists. split; [reflexivity|].
  rewrite !dict_get_remove_ne by done. done.
Qed.

Lemma strip_markers_ok l :
  Forall connector_entry_ok l →
  ∃ l', strip_markers l = (l', None) ∧ Forall connector_entry_ok l'.
Proof.
  induction 1 as [|entry l Hentry _ (l' & Hl' & Hok)]; simpl.
  - by exists [].
  - destruct (strip_entry_ok _ Hentry) as (entry' & -> & Hentry').
    rewrite Hl'. exists (entry' :: l'). by split; [|constructor].
Qed.

Lemma summaries_ok l :
  Forall connector_entry_ok l →
  ∃ summaries, map_outcome connector_summary l = Ok summaries.
Proof.
  induction 1 as [|entry l (d & -> & [t Ht] & [n Hn] & [c Hc]) _ (summaries & Hs)];
    simpl.
  - by eexists.
  - assert (∃ summary, connector_summary (JObj d) = Ok summary) as [summary ->].
    { unfold connector_summary. simpl. rewrite Ht, Hn, Hc. by eexists. }
    simpl. rewrite Hs. by eexists.
Qed.

Lemma connectors_configuration_run s :
  connectors_well_formed (_config s) →
  ∃ l s', connectors_configuration s = (Ok l, s') ∧
          Forall connector_entry_ok l ∧
          same_but_connectors_and_world s s' ∧
          trace s' = trace s ∧ files s' = files s.
Proof.
  intros Hwf. pose proof Hwf as Hwf'.
  unfold connectors_well_formed in Hwf.
  unfold connectors_configuration, mbind, M_bind, gets.
  destruct (Dict.get "connectors" (_config s)) as [[| | | |l|]|] eqn:Hget; try done.
  - destruct (strip_markers_ok _ Hwf) as (l' & -> & Hl'). simpl.
    exists l', (set_config (Dict.set "connectors" (JList l') (_config s)) s).
    repeat split; simpl; try done.
    + exists (world (_gateway s)). by destruct (_gateway s).
    + intros k Hk. by rewrite dict_get_set_ne.
    + unfold connectors_well_formed. by rewrite dict_get_set_eq.
  - exists [], s. repeat split; try done.
    by apply same_but_refl.
Qed.

Lemma local_format_run s :
  connectors_well_formed (_config s) →
  ∃ summaries s',
    _get_general_config_in_local_format s
    = (Ok (local_format_of (_config s) summaries), s') ∧
    same_but_connectors_and_world s s' ∧
    trace s' = trace s ∧ files s' = files s.
Proof.
  intros Hwf.
  destruct (connectors_configuration_run s Hwf) as (l & s1 & Hrun & Hl & Hsame & Ht & Hf).
  destruct (summaries_ok _ Hl) as (summaries & Hs).
  exists summaries, s1. split; [|done].
  unfold _get_general_config_in_local_format.
  rewrite (bind_ok _ _ _ _ _ Hrun).
  unfold mbind at 1, M_bind, lift. rewrite Hs.
  unfold general_configuration, storage_configuration, grpc_configuration,
    mbind, M_bind, gets, mret, M_ret, local_format_of.
  destruct Hsame as (_ & _ & _ & Hk & _).
  by rewrite !Hk.
Qed.

Lemma write_general_configuration_file_run s :
  connectors_well_formed (_config s) →
  let path := config_path (_gateway s) ++ "tb_gateway.json" in
  ∃ summaries t s',
    let text := dumps (local_format_of (_config s) summaries) in
    write_general_configuration_file s = (Ok tt, s') ∧
    same_but_connectors_and_world s s' ∧
    trace s' = (trace s ++ [EvOpenW path; EvWrite path text])%list ∧
    files s' !! path = Some {| content := text; mtime := t |} ∧
    (∀ p, p ≠ path → files s' !! p = files s !! p).
Proof.
  intros Hwf path.
  unfold write_general_configuration_file. exec.
  destruct (clock_ms (world (_gateway s))) as [t0 w0] eqn:Hclock. simpl.
  match goal with |- context [_get_general_config_in_local_format ?s0] =>
    set (s1 := s0) end.
  assert (Hwf1 : connectors_well_formed (_config s1)) by done.
  destruct (local_format_run s1 Hwf1) as (summaries & s2 & Hrun & Hsame & Ht & Hf).
  rewrite Hrun. simpl.
  destruct (clock_ms (world (_gateway s2))) as [t w] eqn:Hclock2. simpl.
  exists summaries, t. eexists. split; [reflexivity|].
  destruct Hsame as (Ha & Hb & [w' Hc] & Hd & He & Hfo).
  repeat split; simpl; try done.
  - exists w. rewrite Hc. simpl. by destruct (_gateway s).
  - rewrite Ht. subst s1. simpl. by rewrite <- app_assoc.
  - apply lookup_insert_eq.
  - intros p Hp. rewrite lookup_insert_ne by done.
    rewrite Hf. subst s1. simpl. by rewrite lookup_insert_ne.
Qed.

End LocalFormat.

(** ** The storage handler *)

Section StorageHandler.

Context {W : Type} `{!Externals W}.

Implicit Types (s : State W).

Lemma install_event_storage_config config :
  preserves (W:=W) _config (install_event_storage config).
Proof. frame. Qed.

Lemma install_event_storage_files config :
  preserves (W:=W) files (install_event_storage config).
Proof. frame. Qed.

Lemma install_event_storage_trace config :
  preserves (W:=W) trace (install_event_storage config).
Proof. frame. Qed.

Lemma install_event_storage_ok config s s1 :
  install_event_storage config s = (Ok tt, s1) →
  ∃ new storage_class,
    config = JObj new ∧
    Dict.get "type" new = Some (JStr storage_class) ∧
    _event_storage (_gateway s1)
    = {| storage_type := storage_class; storage_config := config |}.
Proof.
  unfold install_event_storage, storage_class_of, call. exec.
  destruct config as [| | | | |new]; try by inversion 1. simpl.
  destruct (Dict.get "type" new) as [[| | |storage_class| |]|] eqn:Hty; simpl;
    try by inversion 1.
  destruct (bool_decide _); simpl; [|by inversion 1].
  destruct (storage_init _ _ _) as [[[]|?|] g]; simpl; try by inversion 1.
  intros [= <-]. by exists new, storage_class.
Qed.

(** C5.  When building the new storage raises, the handler puts the
    saved storage back, and the stored configuration and the files
    are as before: nothing is written but the log, nothing is sent.
    When it succeeds, on a store that has a storage section and
    well-formed connectors, the new storage stays in place, the stored
    storage section is updated with the payload, the general
    configuration file is rewritten with it and the
    [storage_configuration] attribute is sent. *)
Theorem storage_update_swaps_or_reverts config s :
  let s0 :=
    set_trace
      (trace s ++ [EvLog DEBUG "Processing storage configuration update..."])%list s in
  (∀ e s1,
     install_event_storage config s0 = (Raise e, s1) →
     ∃ s',
       _handle_storage_configuration_update config s = (Ok tt, s') ∧
       _event_storage (_gateway s') = _event_storage (_gateway s) ∧
       _config s' = _config s ∧
       files s' = files s ∧
       trace s' =
         (trace s0 ++
          [EvLog ERROR "Something went wrong with applying the new storage configuration. Reverting...";
           EvLogExc e])%list) ∧
  (∀ s1 old,
     install_event_storage config s0 = (Ok tt, s1) →
     Dict.get "storage" (_config s) = Some (JObj old) →
     connectors_well_formed (_config s) →
     ∃ new storage_class summaries t s',
       let stored := JObj (Dict.update old new) in
       let path := config_path (_gateway s1) ++ "tb_gateway.json" in
       let text :=
         dumps (local_format_of (Dict.set "storage" stored (_config s)) summaries) in
       _handle_storage_configuration_update config s = (Ok tt, s') ∧
       config = JObj new ∧
       Dict.get "type" new = Some (JStr storage_class) ∧
       _event_storage (_gateway s')
       = {| storage_type := storage_class; storage_config := config |} ∧
       Dict.get "storage" (_config s') = Some stored ∧
       files s' !! path = Some {| content := text; mtime := t |} ∧
       trace s' =
         (trace s0 ++
          [EvOpenW path; EvWrite path text;
           EvSend "storage_configuration" stored;
           EvLog INFO "Processed storage configuration update successfully"])%list).
Proof.
  intros s0. split.
  - intros e s1 Hrun.
    pose proof (install_event_storage_config config s0) as Hc.
    pose proof (install_event_storage_files config s0) as Hf.
    pose proof (install_event_storage_trace config s0) as Ht.
    rewrite Hrun in Hc, Hf, Ht. simpl in Hc, Hf, Ht.
    unfold _handle_storage_configuration_update, try_except_else. exec.
    fold s0. rewrite Hrun. simpl.
    eexists. split; [reflexivity|]. simpl.
    rewrite Hc, Hf, Ht. repeat split; try done.
    by rewrite <- app_assoc.
  - intros s1 old Hrun Hold Hwf.
    pose proof (install_event_storage_config config s0) as Hc.
    pose proof (install_event_storage_files config s0) as Hf.
    pose proof (install_event_storage_trace config s0) as Ht.
    rewrite Hrun in Hc, Hf, Ht. simpl in Hc, Hf, Ht.
    destruct (install_event_storage_ok _ _ _ Hrun) as (new & storage_class & -> & Hty & Hst).
    unfold _handle_storage_configuration_update, try_except_else. exec.
    fold s0. rewrite Hrun. simpl.
    unfold set_storage_configuration, update_section. exec.
    rewrite Hc, Hold. simpl.
    set (stored := JObj (Dict.update old new)).
    set (s2 := set_config _ s1).
    assert (Hwf2 : connectors_well_formed (_config s2)).
    { unfold connectors_well_formed. subst s2. simpl.
      rewrite dict_get_set_ne by done. apply Hwf. }
    destruct (write_general_configuration_file_run s2 Hwf2)
      as (summaries & t & s3 & Hwrite & Hsame & Htr & Hfile & _).
    rewrite Hwrite. simpl.
    unfold storage_configuration. exec.
    destruct Hsame as (_ & _ & [w Hg] & Hk & _).
    rewrite (Hk "storage") by done. subst s2. simpl.
    rewrite dict_get_set_eq. simpl.
    exists new, storage_class, summaries, t. eexists.
    split; [reflexivity|]. simpl in *.
    repeat split; try done.
    + rewrite Hg. simpl. apply Hst.
    + rewrite (Hk "storage") by done. apply dict_get_set_eq.
    + rewrite Htr, Ht. by rewrite <- !app_assoc.
Qed.

End StorageHandler.

(** ** The end of the general configuration handler *)

Section GeneralSave.

Context {W : Type} `{!Externals W}.

Implicit Types (s : State W).


End GeneralSave.

(** ** The connection protocol *)

Section ConnectionFrames.

Context {W : Type} `{!Externals W} {X : Type} (f : State W → X).

Hypothesis f_gateway : ∀ g s, f (set_gateway g s) = f s.
Hypothesis f_trace : ∀ t s, f (set_trace t s) = f s.

Lemma preserves_poll_connection fuel client apply_start connection_state :
  preserves f (poll_connection fuel client apply_start connection_state).
Proof.
  revert connection_state.
  induction fuel as [|fuel IH]; intros connection_state; simpl;
    frame_with ltac:(apply IH).
Qed.

Lemma preserves_use_client client : preserves f (use_client client).
Proof. frame. Qed.

Lemma preserves_try_clients fuel new_tb_client old_tb_client apply_start :
  preserves f (try_clients fuel new_tb_client old_tb_client apply_start).
Proof.
  induction fuel as [|fuel IH]; simpl;
    frame_with ltac:(first [apply IH | apply preserves_poll_connection
                           | apply preserves_use_client]).
Qed.

Lemma preserves__revert_connection : preserves f _revert_connection.
Proof. frame. Qed.

Lemma preserves__apply_connection_config fuel config :
  preserves f (_apply_connection_config fuel config).
Proof.
  unfold _apply_connection_config.
  frame_with ltac:(first [apply preserves_try_clients
                         | apply preserves__revert_connection]).
Qed.

End ConnectionFrames.

Section NeverConnected.

Context {W : Type} `{!Externals W}.

(** [unreachable g]: the gateway is and stays in a situation where no
    client gets connected, while building, connecting and
    disconnecting clients do not raise. *)
Variable unreachable : Gateway W → Prop.

Hypothesis unreachable_clock :
  ∀ g, unreachable g → unreachable (set_world (clock_ms (world g)).2 g).
Hypothesis unreachable_sleep :
  ∀ ms g, unreachable g → unreachable (set_world (sleep_ms ms (world g)) g).
Hypothesis unreachable_disconnect :
  ∀ c g, unreachable g →
    (client_disconnect c g).1 = Ok tt ∧ unreachable (client_disconnect c g).2.
Hypothesis unreachable_init :
  ∀ config folder g, unreachable g →
    (client_init config folder g).1 = Ok tt ∧
    unreachable (client_init config folder g).2.
Hypothesis unreachable_connect :
  ∀ c g, unreachable g →
    (client_connect c g).1 = Ok tt ∧ unreachable (client_connect c g).2.
Hypothesis never_connected :
  ∀ c g, unreachable g →
    (client_is_connected c g).1 = Ok false ∧
    unreachable (client_is_connected c g).2.

Implicit Types (s : State W).

Lemma poll_connection_unreachable fuel client apply_start s :
  unreachable (_gateway s) →
  ∃ s', unreachable (_gateway s') ∧
        (poll_connection fuel client apply_start false s = (Ok false, s') ∨
         poll_connection fuel client apply_start false s = (Diverge, s')).
Proof.
  revert s. induction fuel as [|fuel IH]; intros s Hs; simpl; exec;
    pose proof (unreachable_clock _ Hs) as Hclock;
    destruct (clock_ms (world (_gateway s))) as [now w]; simpl in *;
    destruct (1000 <=? now - apply_start)%Z; simpl;
    try (eexists; split; [|by (left + right)]; done).
  unfold call. simpl.
  destruct (never_connected client _ Hclock) as [Hno Hafter].
  destruct (client_is_connected client _) as [r g]. simpl in *. subst r.
  simpl. apply IH. simpl. by apply unreachable_sleep.
Qed.

Lemma try_clients_unreachable fuel new_tb_client old_tb_client apply_start s :
  unreachable (_gateway s) →
  (try_clients fuel new_tb_client old_tb_client apply_start s).1 = Diverge.
Proof.
  revert s. induction fuel as [|fuel IH]; intros s Hs; simpl; [done|].
  unfold mbind at 1, M_bind at 1, call.
  destruct (unreachable_connect new_tb_client _ Hs) as [Hok Hafter].
  destruct (client_connect new_tb_client _) as [r g]. simpl in *. subst r.
  unfold mbind at 1, M_bind at 1.
  destruct (poll_connection_unreachable fuel new_tb_client apply_start
              (set_gateway g s) Hafter) as (s1 & Hs1 & [-> | ->]); [|done].
  unfold mbind at 1, M_bind at 1, call.
  destruct (unreachable_connect old_tb_client _ Hs1) as [Hok' Hafter'].
  destruct (client_connect old_tb_client _) as [r g']. simpl in *. subst r.
  unfold mbind at 1, M_bind at 1.
  destruct (poll_connection_unreachable fuel old_tb_client apply_start
              (set_gateway g' s1) Hafter') as (s2 & Hs2 & [-> | ->]); [|done].
  by apply IH.
Qed.

(** C3, as the code has it.  The loop has no way out but a connected
    client or an exception: when no client gets connected and nothing
    raises, [_apply_connection_config] has not returned after any
    number of turns, whatever the clock does; it neither reverts nor
    reports a failure. *)
Theorem apply_connection_config_never_times_out fuel config s :
  unreachable (_gateway s) →
  (_apply_connection_config fuel config s).1 = Diverge.
Proof.
  intros Hs. unfold _apply_connection_config, try_except. exec.
  pose proof (unreachable_clock _ Hs) as Hclock.
  destruct (clock_ms (world (_gateway s))) as [apply_start w]. simpl in *.
  unfold call. simpl.
  destruct (unreachable_disconnect (tb_client (_gateway s)) _ Hclock) as [Hok Hafter].
  destruct (client_disconnect _ _) as [r g]. simpl in *. subst r. simpl.
  destruct (unreachable_init config (client_folder (tb_client (_gateway s))) _ Hafter)
    as [Hok' Hafter'].
  destruct (client_init _ _ _) as [r g']. simpl in *. subst r. simpl.
  match goal with |- context [try_clients fuel ?n ?o ?a ?s0] =>
    pose proof (try_clients_unreachable fuel n o a s0 Hafter') as Hloop;
    destruct (try_clients fuel n o a s0) as [r s'] end.
  simpl in Hloop. by subst r.
Qed.

End NeverConnected.

(** ** The connection step of the general configuration handler *)

Lemma dict_get_absent k (d : dict) : k ∉ Dict.keys d → Dict.get k d = None.
Proof.
  induction d as [|[k' v] d IH]; simpl; [done|].
  intros Hk. apply not_elem_of_cons in Hk as [Hne Hk].
  destruct (String.eqb k' k) eqn:E; [|by apply IH].
  apply String.eqb_eq in E. congruence.
Qed.

(** [d.update(other)] read key by key. *)
Lemma dict_get_update k (d other : dict) :
  NoDup (Dict.keys other) →
  Dict.get k (Dict.update d other) =
  match Dict.get k other with
  | Some v => Some v
  | None => Dict.get k d
  end.
Proof.
  unfold Dict.update. revert d.
  induction other as [|[k0 v0] other IH]; intros d Hnodup; simpl; [done|].
  apply NoDup_cons in Hnodup as [Hk0 Hnodup]. simpl in Hk0.
  rewrite IH by done.
  destruct (String.eqb k0 k) eqn:E.
  - apply String.eqb_eq in E. subst k0.
    rewrite (dict_get_absent _ _ Hk0). apply dict_get_set_eq.
  - destruct (Dict.get k other); [done|].
    apply dict_get_set_ne. intros ->. by rewrite String.eqb_refl in E.
Qed.

Section ConnectionStep.

Context {W : Type} `{!Externals W}.

Implicit Types (s : State W).

Lemma connection_changed_reads config :
  preserves (W:=W) (λ s, s) (connection_changed config).
Proof. frame. Qed.

(** C4, as the code has it.  When the connection sub-step fails, the
    payload is updated with the whole current general configuration:
    every field the current configuration has, a connection field or
    not, gets its current value, and the fields it does not have
    (among them [provisioning], when the current configuration has
    none) keep the value of the payload. *)
Theorem failed_connection_restores_every_current_field fuel d g s s' :
  let s1 := logged "--- Checking connection configuration changes..." s in
  let s2 := logged "---- Connection configuration changed. Processing..." s1 in
  (connection_changed (JObj d) s1).1 = Ok true →
  _apply_connection_config fuel (JObj d) s2 = (Ok false, s') →
  Dict.get "thingsboard" (_config s) = Some (JObj g) →
  NoDup (Dict.keys g) →
  ∃ reverted,
    connection_step fuel (JObj d) s = (Ok (JObj reverted), s') ∧
    _config s' = _config s ∧
    ∀ k, Dict.get k reverted =
         match Dict.get k g with
         | Some v => Some v
         | None => Dict.get k d
         end.
Proof.
  intros s1 s2 Hchanged Happly Hg Hnodup.
  pose proof (connection_changed_reads (JObj d) s1) as Hsame.
  destruct (connection_changed (JObj d) s1) as [r s1'] eqn:Hrun.
  simpl in Hchanged, Hsame. subst r s1'.
  assert (Hconfig : _config s' = _config s).
  { pose proof (preserves__apply_connection_config _config
                  ltac:(done) ltac:(done) fuel (JObj d) s2) as Hc.
    by rewrite Happly in Hc. }
  exists (Dict.update d g). split; [|split; [done|]].
  - unfold connection_step.
    unfold mbind at 1, M_bind at 1, log, emit, modify. fold (logged "--- Checking connection configuration changes..." s). fold s1.
    rewrite (bind_ok _ _ _ _ _ Hrun).
    unfold mbind at 1, M_bind at 1, log, emit, modify.
    fold (logged "---- Connection configuration changed. Processing..." s1). fold s2.
    rewrite (bind_ok _ _ _ _ _ Happly). simpl.
    unfold general_configuration. exec. by rewrite Hconfig, Hg.
  - intros k. by apply dict_get_update.
Qed.

End ConnectionStep.

(** ** Pre- and postconditions *)

Section Triples.

Context {W : Type} `{!Externals W}.

Implicit Types (P E : State W → Prop).

Lemma triple_ret {A} P (a : A) (Q : A → State W → Prop) E :
  (∀ s, P s → Q a s) → triple P (mret a) Q E.
Proof. intros HQ s Hs. by apply HQ. Qed.

Lemma triple_bind {A B} P (m : M A) (Q : A → State W → Prop) E
    (k : A → M B) (R : B → State W → Prop) :
  triple P m Q E → (∀ a, triple (Q a) (k a) R E) → triple P (m ≫= k) R E.
Proof.
  intros Hm Hk s Hs. specialize (Hm s Hs). unfold mbind, M_bind.
  destruct (m s) as [[a|e|] s1]; [|done..].
  by apply Hk.
Qed.

Lemma triple_conseq {A} P P' (m : M A) (Q Q' : A → State W → Prop) E E' :
  triple P m Q E →
  (∀ s, P' s → P s) → (∀ a s, Q a s → Q' a s) → (∀ s, E s → E' s) →
  triple P' m Q' E'.
Proof.
  intros Hm HP HQ HE s Hs. specialize (Hm s (HP s Hs)).
  destruct (m s) as [[a|e|] s1]; auto.
Qed.

Lemma triple_frame {A X} (f : State W → X) v (m : M A) E :
  preserves f m → (∀ s, f s = v → E s) →
  triple (λ s, f s = v) m (λ _ s, f s = v) E.
Proof.
  intros Hm HE s Hs. specialize (Hm s).
  destruct (m s) as [[a|e|] s1]; simpl in *; [|apply HE..]; congruence.
Qed.

Lemma triple_lift {A} P (r : outcome A) E :
  (∀ s, P s → E s) → triple P (lift r) (λ a s, r = Ok a ∧ P s) E.
Proof. intros HE s Hs. unfold lift. destruct r; auto. Qed.

Lemma triple_assume {A} (φ : Prop) P (m : M A) (Q : A → State W → Prop) E :
  (φ → triple P m Q E) → triple (λ s, φ ∧ P s) m Q E.
Proof. intros Hm s [Hφ Hs]. by apply Hm. Qed.

Lemma triple_try_except {A} P (body : M A) (Q : A → State W → Prop) E
    classes handler E' :
  triple P body Q E' →
  (∀ e, triple E' (handler e) Q E) →
  (∀ s, E' s → E s) →
  triple P (try_except body classes handler) Q E.
Proof.
  intros Hb Hh HE s Hs. specialize (Hb s Hs). unfold try_except.
  destruct (body s) as [[a|e|] s1]; [done| |by apply HE].
  destruct (classes e); [by apply Hh|by apply HE].
Qed.

End Triples.

(** ** The names of the connectors *)

Lemma py_eq_canon a b : py_eq a b = true ↔ canon a = canon b.
Proof. unfold py_eq. apply bool_decide_eq_true. Qed.

Lemma getitem_name entry n :
  Py.getitem entry "name" = Ok n ↔ entry_name entry = Some n.
Proof.
  destruct entry as [| | | | |d]; simpl; try (split; intros; discriminate).
  destruct (Dict.get "name" d); split; intros; simplify_eq; done.
Qed.

Lemma strip_entry_cname entry entry' :
  strip_entry entry = Ok entry' → cname entry' = cname entry.
Proof.
  destruct entry as [| | | | |d]; try discriminate.
  intros [= <-]. unfold cname. simpl. by rewrite !dict_get_remove_ne.
Qed.

Lemma strip_markers_cnames l : cname <$> (strip_markers l).1 = cname <$> l.
Proof.
  induction l as [|entry l IH]; simpl; [done|].
  destruct (strip_entry entry) as [entry'| |] eqn:Hentry; [|done..].
  destruct (strip_markers l) as [l' e]. simpl in IH. simpl fst.
  rewrite !fmap_cons. f_equal; [by apply strip_entry_cname | done].
Qed.

Lemma find_connectors_spec config l i found :
  find_connectors config l i = Ok found →
  (l = [] ∧ found = []) ∨
  ∃ wanted,
    Py.getitem config "name" = Ok wanted ∧
    (∀ pos fc, (pos, fc) ∈ found →
       ∃ j, pos = (i + j)%nat ∧ l !! j = Some fc ∧ cname fc = Some (canon wanted)) ∧
    (found = [] → Forall (λ entry, cname entry ≠ Some (canon wanted)) l).
Proof.
  revert i found. induction l as [|item l IH]; intros i found; simpl.
  - intros [= <-]. by left.
  - destruct (Py.getitem item "name") as [name| |] eqn:Hname; try discriminate.
    destruct (Py.getitem config "name") as [wanted| |] eqn:Hwanted; try discriminate.
    simpl. destruct (find_connectors config l (S i)) as [rest| |] eqn:Hrest;
      try discriminate.
    simpl. intros [= <-]. right. exists wanted. split; [done|].
    apply getitem_name in Hname.
    assert (Hcname : cname item = Some (canon name)) by (unfold cname; by rewrite Hname).
    destruct (IH _ _ Hrest) as [[-> ->]|(wanted' & Hw & Hfound & Hnone)].
    + split.
      * intros pos fc Hin. destruct (py_eq name wanted) eqn:Heq;
          [|by apply elem_of_nil in Hin].
        apply list_elem_of_singleton in Hin as [= -> ->].
        exists 0%nat. split; [lia|]. split; [done|].
        rewrite Hcname. f_equal. by apply py_eq_canon.
      * destruct (py_eq name wanted) eqn:Heq; [done|].
        intros _. constructor; [|constructor].
        rewrite Hcname. intros [= Hc]. apply py_eq_canon in Hc. congruence.
    + assert (wanted' = wanted) as -> by congruence.
      split.
      * intros pos fc Hin.
        assert (Hcases : (pos, fc) = (i, item) ∧ py_eq name wanted = true
                         ∨ (pos, fc) ∈ rest).
        { destruct (py_eq name wanted); [|by right].
          apply elem_of_cons in Hin as [Hin|Hin]; [by left|by right]. }
        destruct Hcases as [[[= -> ->] Heq]|Hin'].
        -- exists 0%nat. split; [lia|]. split; [done|].
           rewrite Hcname. f_equal. by apply py_eq_canon.
        -- destruct (Hfound _ _ Hin') as (j & -> & Hj & Hc).
           exists (S j). split; [lia|]. by split.
      * destruct (py_eq name wanted) eqn:Heq; [done|].
        intros ->. constructor; [|by apply Hnone].
        rewrite Hcname. intros [= Hc]. apply py_eq_canon in Hc. congruence.
Qed.

Lemma summary_entry_name config config_file_name connector_configuration :
  summary_entry config config_file_name = Ok connector_configuration →
  ∃ wanted d,
    Py.getitem config "name" = Ok wanted ∧
    connector_configuration = JObj d ∧
    Dict.get "name" d = Some wanted ∧
    NoDup (Dict.keys d).
Proof.
  unfold summary_entry.
  destruct (Py.getitem config "name") as [wanted| |] eqn:Hwanted; try discriminate.
  simpl. destruct (Py.getitem config "type") as [type| |]; try discriminate.
  simpl. destruct config as [| | | | |c]; try discriminate. simpl.
  destruct (truthy (from_option id JNull (Dict.get "key" c)));
    [destruct (Dict.get "key" c); try discriminate|];
    simpl;
    (destruct (truthy (from_option id JNull (Dict.get "class" c)));
     [destruct (Dict.get "class" c); try discriminate|]);
    simpl; intros [= <-]; exists wanted; eexists;
    (split; [done|]); (split; [done|]); (split; [done|]); compute_done.
Qed.

Lemma updated_entry_cname found_connector connector_configuration updated wanted d :
  connector_configuration = JObj d →
  Dict.get "name" d = Some wanted →
  NoDup (Dict.keys d) →
  Py.update found_connector connector_configuration = Ok updated →
  cname updated = Some (canon wanted).
Proof.
  intros -> Hname Hnodup.
  destruct found_connector as [| | | | |d0]; try discriminate.
  intros [= <-]. unfold cname. simpl.
  by rewrite dict_get_update, Hname.
Qed.

Lemma triple_frame_pred {W A X} (f : State W → X) (Φ : X → Prop) (m : @M W A) :
  preserves f m →
  triple (λ s, Φ (f s)) m (λ _ s, Φ (f s)) (λ s, Φ (f s)).
Proof.
  intros Hm s Hs. specialize (Hm s).
  destruct (m s) as [[a|e|] s1]; simpl in *; by rewrite Hm.
Qed.

Lemma not_found_fresh config connectors v wanted :
  find_connectors config connectors 0 = Ok [] →
  Py.getitem config "name" = Ok wanted →
  v = Some (cname <$> connectors) ∨ (v = None ∧ connectors = []) →
  ∀ ns, v = Some ns → Some (canon wanted) ∉ ns.
Proof.
  intros Hfound Hwanted Hv ns ->.
  destruct Hv as [[= ->]|[[=] _]].
  destruct (find_connectors_spec _ _ _ _ Hfound)
    as [[-> _]|(wanted' & Hwanted' & _ & Hnone)]; [apply not_elem_of_nil|].
  assert (wanted' = wanted) as -> by congruence.
  specialize (Hnone eq_refl). intros Hin.
  apply list_elem_of_fmap in Hin as (entry & Hname & Hentry).
  rewrite Forall_forall in Hnone. by apply (Hnone entry).
Qed.

Lemma names_distinct_same l l' :
  cname <$> l' = cname <$> l → names_distinct l → names_distinct l'.
Proof.
  intros Hsame [Hnames Hnodup]. split; [|by rewrite Hsame].
  apply Forall_forall. intros entry Hin.
  assert (Hc : cname entry ∈ cname <$> l) by (rewrite <- Hsame; by apply list_elem_of_fmap_2).
  apply list_elem_of_fmap in Hc as (entry0 & Hc & Hin0).
  rewrite Forall_forall in Hnames. destruct (Hnames _ Hin0) as [n Hn].
  unfold cname in Hc. rewrite Hn in Hc. simpl in Hc.
  destruct (entry_name entry); [by eexists|done].
Qed.

Lemma names_distinct_one_more l l' wanted :
  Some (canon wanted) ∉ cname <$> l →
  cname <$> l' = ((cname <$> l) ++ [Some (canon wanted)])%list →
  names_distinct l → names_distinct l'.
Proof.
  intros Hfresh Hmore [Hnames Hnodup]. split.
  - apply Forall_forall. intros entry Hin.
    assert (Hc : cname entry ∈ cname <$> l') by (by apply list_elem_of_fmap_2).
    rewrite Hmore in Hc. apply elem_of_app in Hc as [Hc|Hc].
    + apply list_elem_of_fmap in Hc as (entry0 & Hc & Hin0).
      rewrite Forall_forall in Hnames. destruct (Hnames _ Hin0) as [n Hn].
      unfold cname in Hc. rewrite Hn in Hc. simpl in Hc.
      destruct (entry_name entry); [by eexists|done].
    + apply list_elem_of_singleton in Hc. unfold cname in Hc.
      destruct (entry_name entry); [by eexists|done].
  - rewrite Hmore. apply NoDup_app. split; [done|]. split.
    + intros x Hx Hx'. apply list_elem_of_singleton in Hx'. by subst x.
    + apply NoDup_singleton.
Qed.

Section ConnectorNames.

Context {W : Type} `{!Externals W}.

Implicit Types (s : State W) (v : option (list (option json))).

Lemma connectors_configuration_cnames :
  preserves (W:=W) cnames connectors_configuration.
Proof.
  intros s. unfold connectors_configuration, cnames. exec.
  destruct (Dict.get "connectors" (_config s)) as [[| | | |l|]|] eqn:Hget;
    simpl; rewrite ?Hget; try done.
  pose proof (strip_markers_cnames l) as Hl.
  destruct (strip_markers l) as [l' [e|]]; simpl in *;
    by rewrite dict_get_set_eq, Hl.
Qed.

Lemma connectors_configuration_value v :
  triple (λ s, cnames s = v) connectors_configuration
    (λ l s, cnames s = v ∧ (v = Some (cname <$> l) ∨ (v = None ∧ l = [])))
    (λ s, cnames s = v).
Proof.
  intros s Hs. pose proof (connectors_configuration_cnames s) as Hframe.
  revert Hframe. unfold connectors_configuration, cnames in *. exec.
  destruct (Dict.get "connectors" (_config s)) as [[| | | |l|]|] eqn:Hget;
    simpl; rewrite ?Hget; try done.
  - destruct (strip_markers l) as [l' [e|]]; simpl;
      rewrite dict_get_set_eq; intros Hframe; [congruence|].
    split; [congruence|]. left. congruence.
  - intros _. split; [done|]. by right.
Qed.

Lemma modify_connectors_cnames v (f : list json → list json)
    (g : list (option json) → list (option json)) :
  (∀ l, cname <$> f l = g (cname <$> l)) →
  triple (λ s, cnames s = v) (modify_connectors f)
    (λ _ s, cnames s = g <$> v) (λ _, False).
Proof.
  intros Hfg s Hs. unfold modify_connectors, cnames in *. exec.
  destruct (Dict.get "connectors" (_config s)) as [[| | | |l|]|] eqn:Hget;
    simpl; rewrite ?Hget; subst v; try done.
  rewrite dict_get_set_eq. simpl. by rewrite Hfg.
Qed.

(** Steps that keep the names of the stored connectors. *)
Ltac names_frame :=
  solve [frame_with ltac:(apply connectors_configuration_cnames)].

(** A run of such steps, up to the first step that is not one. *)
Ltac names_steps side :=
  repeat (eapply triple_bind;
          [ apply triple_frame; [names_frame | side] | intros ? ]).

Lemma add_connector_cnames config config_file_name v :
  triple (λ s, cnames s = v) (add_connector config config_file_name)
    (λ _ s, ∃ wanted, Py.getitem config "name" = Ok wanted ∧
                      cnames s = (λ ns, ns ++ [Some (canon wanted)])%list <$> v)
    (λ s, cnames s = v ∨
          ∃ wanted, Py.getitem config "name" = Ok wanted ∧
                    cnames s = (λ ns, ns ++ [Some (canon wanted)])%list <$> v).
Proof.
  unfold add_connector.
  eapply triple_bind; [apply triple_lift; intros s Hs; left; exact Hs|].
  intros connector_configuration. apply triple_assume. intros Hcc.
  destruct (summary_entry_name _ _ _ Hcc) as (wanted & d & Hwanted & -> & Hname & _).
  names_steps ltac:(by left).
  eapply triple_bind.
  { eapply triple_conseq;
      [apply (modify_connectors_cnames v _ (λ ns, ns ++ [Some (canon wanted)])%list)
      |done|intros ? s Hs; exact Hs|done].
    intros l. rewrite fmap_app. simpl. unfold cname at 2. simpl. by rewrite Hname. }
  intros ?.
  names_steps ltac:(intros s Hs; right; by exists wanted).
  apply triple_ret. intros s Hs. by exists wanted.
Qed.

Lemma update_connector_cnames config config_file_name position found_connector
    v wanted :
  Py.getitem config "name" = Ok wanted →
  (∀ ns, v = Some ns → ns !! position = Some (Some (canon wanted))) →
  triple (λ s, cnames s = v)
    (update_connector config config_file_name position found_connector)
    (λ _ s, cnames s = v) (λ s, cnames s = v).
Proof.
  intros Hwanted Hposition. unfold update_connector.
  eapply triple_bind; [apply triple_frame; [names_frame|done]|]. intros changed.
  eapply triple_bind; [apply triple_frame; [names_frame|done]|]. intros differs.
  eapply triple_bind with (Q := λ _ s, cnames s = v).
  { destruct differs; [|by apply triple_ret].
    eapply triple_bind; [apply triple_lift; intros s Hs; exact Hs|].
    intros connector_configuration. apply triple_assume. intros Hcc.
    destruct (summary_entry_name _ _ _ Hcc) as (wanted' & d & Hwanted' & -> & Hname & Hd).
    assert (wanted' = wanted) as -> by congruence.
    eapply triple_bind; [apply triple_lift; intros s Hs; exact Hs|].
    intros updated. apply triple_assume. intros Hupdated.
    pose proof (updated_entry_cname _ _ _ _ _ eq_refl Hname Hd Hupdated) as Hcname.
    eapply triple_bind.
    { eapply triple_conseq;
        [apply (modify_connectors_cnames v _ (λ ns, <[position := Some (canon wanted)]> ns))
        |done|intros ? s Hs; exact Hs|done].
      intros l. by rewrite list_fmap_insert, Hcname. }
    intros ?. apply triple_ret. intros s ->.
    destruct v as [ns|]; [|done]. simpl. f_equal.
    apply list_insert_id. by apply Hposition. }
  intros updated.
  destruct (changed || differs); [|by apply triple_ret].
  names_steps ltac:(done).
  by apply triple_ret.
Qed.

Lemma _handle_connector_configuration_update_cnames config v :
  triple (λ s, cnames s = v) (_handle_connector_configuration_update config)
    (λ _ s, same_or_one_more v (cnames s))
    (λ s, same_or_one_more v (cnames s)).
Proof.
  unfold _handle_connector_configuration_update.
  eapply triple_bind; [apply triple_frame; [names_frame|by left]|].
  intros ?.
  eapply triple_try_except with (E' := λ s, same_or_one_more v (cnames s));
    [| |done].
  2:{ intros e. apply (triple_frame_pred cnames (same_or_one_more v)). names_frame. }
  eapply triple_bind; [apply triple_frame; [names_frame|by left]|].
  intros config_file_name.
  eapply triple_bind;
    [eapply triple_conseq;
       [apply (connectors_configuration_value v)
       |intros s Hs; exact Hs|intros ? ? Hs; exact Hs|intros s Hs; by left]|].
  intros connectors. simpl.
  eapply triple_bind;
    [apply triple_lift; intros s [Hs _]; by left|].
  intros found_connectors. apply triple_assume. intros Hfound.
  eapply triple_bind with (Q := λ _ s, same_or_one_more v (cnames s)).
  2:{ intros config'.
      apply (triple_frame_pred cnames (same_or_one_more v)). names_frame. }
  eapply triple_conseq with
    (P := λ s, (v = Some (cname <$> connectors) ∨ (v = None ∧ connectors = []))
               ∧ cnames s = v);
    [|by intros s [Hs Hv]|intros ? s Hs; exact Hs|intros s Hs; exact Hs].
  apply triple_assume. intros Hv.
  destruct found_connectors as [|[position found_connector] rest].
  - eapply triple_conseq; [apply (add_connector_cnames _ _ v)|done| |].
    + intros ? s (wanted & Hwanted & Hs).
      destruct v as [ns|]; [|by left].
      right. exists ns, wanted. split; [done|]. split; [|done].
      by apply (not_found_fresh _ _ _ _ Hfound Hwanted Hv).
    + intros s [Hs|(wanted & Hwanted & Hs)]; [by left|].
      destruct v as [ns|]; [|by left].
      right. exists ns, wanted. split; [done|]. split; [|done].
      by apply (not_found_fresh _ _ _ _ Hfound Hwanted Hv).
  - destruct (find_connectors_spec _ _ _ _ Hfound)
      as [[_ [=]]|(wanted & Hwanted & Hin & _)].
    destruct (Hin position found_connector) as (j & -> & Hj & Hcname);
      [by left|].
    eapply triple_conseq;
      [apply (update_connector_cnames _ _ _ _ v wanted Hwanted)
      |done|intros ? s Hs; by left|intros s Hs; by left].
    intros ns ->. destruct Hv as [[= ->]|[[=] _]].
    simpl. by rewrite list_lookup_fmap, Hj, <- Hcname.
Qed.

(** One update keeps the names of the stored connectors distinct. *)
Lemma connector_update_keeps_names_distinct config s :
  connectors_distinct (_config s) →
  connectors_distinct (_config (_handle_connector_configuration_update config s).2).
Proof.
  intros Hs.
  pose proof (_handle_connector_configuration_update_cnames config (cnames s) s eq_refl)
    as Hrun.
  assert (Hafter : same_or_one_more (cnames s)
                     (cnames (_handle_connector_configuration_update config s).2)).
  { by destruct (_handle_connector_configuration_update config s) as [[?|?|] s']. }
  clear Hrun. revert Hs Hafter.
  generalize (_handle_connector_configuration_update config s).2. intros s'.
  unfold connectors_distinct, cnames.
  destruct (Dict.get "connectors" (_config s)) as [[| | | |l|]|];
    destruct (Dict.get "connectors" (_config s')) as [[| | | |l'|]|];
    try done;
    intros Hs [Hsame|(ns & wanted & Hv & Hfresh & Hnow)]; try done.
  - injection Hsame as Hsame. by apply (names_distinct_same l).
  - injection Hv as <-. injection Hnow as Hnow.
    by apply (names_distinct_one_more l _ wanted).
Qed.

(** C9.  From a list of connectors in which every entry has a name
    and no two names are equal, no sequence of connector updates
    reaches a list in which two entries share a name: an update of an
    entry keeps its name, and an entry is added only under a name no
    entry has. *)
Theorem connector_names_stay_distinct payloads s :
  connectors_distinct (_config s) →
  connectors_distinct
    (_config (for_each _handle_connector_configuration_update payloads s).2).
Proof.
  revert s. induction payloads as [|config payloads IH]; intros s Hs; [done|].
  simpl. unfold mbind, M_bind.
  pose proof (connector_update_keeps_names_distinct config s Hs) as Hstep.
  destruct (_handle_connector_configuration_update config s) as [[[]|e|] s'];
    simpl in *; auto.
Qed.

End ConnectorNames.

(** ** Backups of connector configuration files *)



Lemma find_connectors_total config l i wanted :
  Forall stored_entry_ok l →
  Py.getitem config "name" = Ok wanted →
  ∃ found,
    find_connectors config l i = Ok found ∧
    Forall (λ item, stored_entry_ok item.2) found ∧
    (Exists (λ entry, cname entry = Some (canon wanted)) l → found ≠ []).
Proof.
  intros Hl Hwanted. revert i.
  induction Hl as [|entry l (d & -> & [n Hn] & Hcj) _ IH]; intros i; simpl.
  - exists []. split; [done|]. split; [done|]. by intros ?%Exists_nil.
  - rewrite Hn, Hwanted. simpl.
    destruct (IH (S i)) as (found & -> & Hfound & Hsome). simpl.
    eexists. split; [reflexivity|].
    assert (Hentry : stored_entry_ok (JObj d)).
    { eexists. split; [reflexivity|]. split; [by eexists|done]. }
    destruct (py_eq n wanted) eqn:Heq.
    + split; [by constructor|]. done.
    + split; [done|]. intros [Hhere|Hlater]%Exists_cons; [|by apply Hsome].
      unfold cname in Hhere. simpl in Hhere. rewrite Hn in Hhere.
      injection Hhere as Hhere. apply py_eq_canon in Hhere. congruence.
Qed.

Section Backups.

Context {W : Type} `{!Externals W}.

Implicit Types (s : State W).

Lemma create_configuration_file_backup_run config_data config_file_name s :
  ∃ before backup_file_path s1,
    create_configuration_file_backup config_data (JStr config_file_name) s
    = (Ok tt, s1) ∧
    trace s1
    = (trace s ++ before ++ [EvBackup backup_file_path (dumps config_data)])%list ∧
    backups before = 0%nat ∧
    _config s1 = _config s ∧
    config_path (_gateway s1) = config_path (_gateway s).
Proof.
  unfold create_configuration_file_backup, path_exists, mkdir. exec.
  destruct (bool_decide _ || bool_decide _); simpl;
    repeat (match goal with
            | |- context [clock_ms ?w] => destruct (clock_ms w); simpl
            end);
    match goal with
    | |- context [EvBackup ?path _] =>
        match goal with
        | |- context [EvMkdir ?folder] =>
            exists [EvMkdir folder; EvOpenW path;
                    EvLog DEBUG "Backup file created for configuration file %s in %s"]
        | _ =>
            exists [EvOpenW path;
                    EvLog DEBUG "Backup file created for configuration file %s in %s"]
        end;
        exists path
    end;
    eexists; (split; [reflexivity|]);
    (split; [cbn [trace set_trace]; by rewrite <- !app_assoc|]);
    by repeat split.
Qed.

Lemma backup_if_content_differs_run d config_file_name configuration_json
    f connector_config_data s :
  Dict.get "configurationJson" d = Some (JObj configuration_json) →
  files s !! (config_path (_gateway s) ++ config_file_name) = Some f →
  loads (content f) = Ok connector_config_data →
  if Z.eqb (py_hash (py_str connector_config_data))
           (py_hash (py_str (JObj configuration_json)))
  then backup_if_content_differs (JObj d) (JStr config_file_name) s = (Ok false, s)
  else
    ∃ before backup_file_path s1,
      backup_if_content_differs (JObj d) (JStr config_file_name) s = (Ok true, s1) ∧
      trace s1
      = (trace s ++ before ++
         [EvBackup backup_file_path (dumps connector_config_data)])%list ∧
      backups before = 0%nat ∧
      _config s1 = _config s ∧
      config_path (_gateway s1) = config_path (_gateway s).
Proof.
  intros Hcj Hf Hloads.
  unfold backup_if_content_differs, path_exists, load_file. exec.
  rewrite Hf.
  replace (bool_decide (is_Some (Some f))) with true
    by (symmetry; apply bool_decide_eq_true; by eexists).
  cbn [orb]. cbv beta. rewrite Hf, Hloads, Hcj.
  destruct (Z.eqb _ _); cbn [negb]; [done|].
  destruct (create_configuration_file_backup_run connector_config_data
              config_file_name s)
    as (before & backup_file_path & s1 & -> & Htrace & Hbefore & Hconfig & Hpath).
  simpl. by exists before, backup_file_path, s1.
Qed.











End Backups.

(** ** The dispatcher, once more *)

Section Routing.

Context {W : Type} `{!Externals W}.

Implicit Types (s : State W) (handlers : @handler_table W).

(** X1.  The table of handlers is searched in the order it is written
    and the first key that matches wins: each of the six plain words
    goes to its own handler, every other name without a line break
    goes to the handler of connector configurations, and a name with a
    line break matches no key, so that nothing is done for it. *)
Theorem connector_handler_is_the_catch_all fuel attr_name request_config :
  (∀ word func, (Literal word, func) ∈ _handlers fuel →
     dispatch (_handlers fuel) word request_config = func request_config) ∧
  (attr_name ∉ reserved_names → contains newline attr_name = false →
     dispatch (_handlers fuel) attr_name request_config
     = _handle_connector_configuration_update request_config) ∧
  (contains newline attr_name = true →
     dispatch (_handlers fuel) attr_name request_config = mret tt).
Proof.
  split; [|split].
  - intros word func Hin. unfold _handlers in Hin.
    repeat (apply elem_of_cons in Hin as [Hin|Hin];
            [first [by injection Hin as -> -> | discriminate Hin]|]).
    by apply elem_of_nil in Hin.
  - intros Hfree Hline. unfold reserved_names in Hfree.
    unfold _handlers. cbn [dispatch]. unfold fullmatch. rewrite Hline.
    repeat match goal with
    | |- context [String.eqb ?word attr_name] =>
        destruct (String.eqb_spec word attr_name) as [<-|_];
          [exfalso; apply Hfree; set_solver|]
    end.
    done.
  - intros Hline. unfold _handlers. cbn [dispatch]. unfold fullmatch.
    rewrite Hline.
    repeat match goal with
    | |- context [String.eqb ?word attr_name] =>
        destruct (String.eqb_spec word attr_name) as [<-|_];
          [by vm_compute in Hline|]
    end.
    done.
Qed.

Lemma for_each_looked_at handlers config s :
  for_each (process_key handlers) config s
  = for_each (process_key handlers) (List.filter looked_at config) s.
Proof.
  revert s. induction config as [|item config IH]; intros s; [done|].
  cbn [List.filter for_each]. unfold looked_at at 1.
  destruct (contains "deleted" item.1) eqn:Hdeleted; cbn [negb for_each].
  - rewrite (bind_ok _ _ s tt s); [apply IH|].
    unfold process_key. cbv zeta. by rewrite Hdeleted.
  - unfold mbind, M_bind.
    destruct (process_key handlers item s) as [[[]|e|] s1]; [apply IH|done..].
Qed.

(** X2.  The keys of a batch whose name contains [deleted] count for
    nothing: the request does what it does on the batch without them,
    whatever their payloads and the handlers are. *)
Theorem deleted_keys_are_left_out handlers config s :
  process_config_request_with handlers config s
  = process_config_request_with handlers (List.filter looked_at config) s.
Proof.
  unfold process_config_request_with, mbind, M_bind, gets.
  destruct (negb (in_process s)); [|done].
  unfold log, emit, modify, try_finally, try_except.
  by rewrite for_each_looked_at.
Qed.

(** X3.  A timestamp that is not a number is no [KeyError] and no
    [AttributeError]: when the file of the attribute exists, the
    comparison of [_is_modified] raises a [TypeError], which
    [process_config_request] lets through to its caller; the handler
    of the key is not invoked, the rest of the batch is dropped, and
    the flag is released. *)
Theorem timestamp_that_is_no_number_raises handlers attr_name d p f rest s :
  in_process s = false →
  contains "deleted" attr_name = false →
  resolved_file attr_name (JObj d) = JStr p →
  files s !! (config_path (_gateway s) ++ p) = Some f →
  payload_ts (JObj d) = None →
  _is_modified attr_name (JObj d) s = (Raise TypeError, s) ∧
  process_config_request_with handlers ((attr_name, JObj d) :: rest) s
  = (Raise TypeError, set_in_process false (entered s)).
Proof.
  intros Hflag Hdeleted Hp Hf Hts.
  assert (Hrun : ∀ s0, files s0 = files s → _gateway s0 = _gateway s →
            _is_modified attr_name (JObj d) s0 = (Raise TypeError, s0)).
  { intros s0 Hfiles Hgateway. unfold _is_modified.
    rewrite (bind_ok _ _ _ _ _ (resolve_file_path_eq _ _ _)), Hp.
    unfold try_except, mbind, M_bind, lift, get_config_path, gets, getmtime_ms.
    simpl. rewrite Hfiles, Hgateway, Hf. unfold Py.le_int.
    simpl in Hts. by rewrite Hts. }
  split; [by apply Hrun|].
  assert (Hkey : process_key handlers (attr_name, JObj d) (entered s)
                 = (Raise TypeError, entered s)).
  { unfold process_key. cbv zeta. cbn [fst snd]. rewrite Hdeleted.
    by rewrite (bind_raise _ _ _ _ _ (Hrun (entered s) eq_refl eq_refl)). }
  unfold process_config_request_with, mbind at 1, M_bind at 1, gets.
  rewrite Hflag. cbn [negb].
  unfold mbind at 1, M_bind at 1, log, emit, modify.
  unfold mbind at 1, M_bind at 1.
  unfold try_finally, try_except. cbn [for_each].
  fold (entered s). by rewrite (bind_raise _ _ _ _ _ Hkey).
Qed.

End Routing.

(** ** Handlers that keep their errors to themselves *)

Section Guarded.

Context {W : Type} `{!Externals W}.

Implicit Types (s : State W).

Lemma try_except_guarded {A} (body : M A) (handler : exn → M A) s :
  (∀ e s1, raised (handler e s1).1 = false) →
  raised (try_except body is_Exception handler s).1 = false.
Proof.
  intros Hhandler. unfold try_except.
  destruct (body s) as [[a|e|] s1]; simpl; [done| |done].
  apply Hhandler.
Qed.

(** X4.  The handler of logs configurations and the handler of
    connector configurations catch every exception: whatever the
    payload and the gateway do, neither ends with an exception, so
    that neither ends a batch. *)
Theorem guarded_handlers_never_raise config s :
  raised (_handle_logs_configuration_update config s).1 = false ∧
  raised (_handle_connector_configuration_update config s).1 = false.
Proof.
  split.
  - unfold _handle_logs_configuration_update.
    rewrite (bind_ok (log DEBUG _) _ s tt _ eq_refl).
    apply try_except_guarded. intros e s1. by exec.
  - unfold _handle_connector_configuration_update.
    rewrite (bind_ok (log DEBUG _) _ s tt _ eq_refl).
    apply try_except_guarded. intros e s1. by exec.
Qed.

(** X5.  A logs configuration that the logging set-up refuses
    ([dictConfig] or the installation of the remote handler raises) is
    dropped: the handler returns after logging the error, [logs.json]
    and every other file are as before, and nothing is sent. *)
Theorem refused_logs_configuration_is_dropped config s e g :
  dictConfig config (_gateway s) = (Raise e, g) ∨
  (∃ g0, dictConfig config (_gateway s) = (Ok tt, g0) ∧
         install_remote_handler g0 = (Raise e, g)) →
  ∃ s',
    _handle_logs_configuration_update config s = (Ok tt, s') ∧
    files s' = files s ∧
    _config s' = _config s ∧
    _gateway s' = g ∧
    trace s'
    = (trace s ++
       [EvLog DEBUG "Processing logs configuration update...";
        EvLog ERROR "Remote logging configuration is wrong!";
        EvLogExc e])%list.
Proof.
  intros Hrefused.
  unfold _handle_logs_configuration_update, try_except, call. exec.
  destruct Hrefused as [Hconfig|(g0 & Hconfig & Hhandler)].
  - rewrite Hconfig. simpl. eexists. split; [reflexivity|]. simpl.
    by rewrite <- !app_assoc.
  - rewrite Hconfig. simpl. rewrite Hhandler. simpl.
    eexists. split; [reflexivity|]. simpl. by rewrite <- !app_assoc.
Qed.

(** X6.  A logs configuration that the logging set-up accepts is
    written to [logs.json] and sent back.  The file gets the time of
    the writing: from then on a [logs_configuration] payload with a
    timestamp up to that time (the echo of the one just applied, for
    one) is not looked at. *)
Theorem applied_logs_configuration_is_not_replayed config s g0 g :
  dictConfig config (_gateway s) = (Ok tt, g0) →
  install_remote_handler g0 = (Ok tt, g) →
  config_path g = config_path (_gateway s) →
  let path := config_path (_gateway s) ++ "logs.json" in
  let t := (clock_ms (clock_ms (world g)).2).1 in
  ∃ s',
    _handle_logs_configuration_update config s = (Ok tt, s') ∧
    files s' = <[path := {| content := dumps config; mtime := t |}]> (files s) ∧
    trace s'
    = (trace s ++
       [EvLog DEBUG "Processing logs configuration update...";
        EvOpenW path; EvWrite path (dumps config);
        EvLog DEBUG "Logs configuration has been updated.";
        EvSend "logs_configuration" config])%list ∧
    ∀ handlers d ts,
      resolved_file "logs_configuration" (JObj d) = JStr "logs.json" →
      payload_ts (JObj d) = Some ts → (ts ≤ t)%Z →
      process_key handlers ("logs_configuration", JObj d) s' = (Ok tt, s').
Proof.
  intros Hconfig Hhandler Hpath path t.
  unfold _handle_logs_configuration_update, try_except, call. exec.
  rewrite Hconfig. simpl. rewrite Hhandler. simpl.
  subst t. destruct (clock_ms (world g)) as [t0 w0]. simpl.
  destruct (clock_ms w0) as [t w1]. simpl.
  eexists. split; [reflexivity|]. simpl. fold path.
  split; [by rewrite insert_insert_eq|].
  split; [by rewrite <- !app_assoc|].
  intros handlers d ts Hfile Hts Hle.
  match goal with |- process_key _ _ ?s0 = _ => set (s' := s0) end.
  assert (Hcurrent : file_is_current "logs_configuration" (JObj d) s').
  { exists "logs.json", {| content := dumps config; mtime := t |}, ts.
    split; [done|]. split; [|done].
    subst s'. simpl. rewrite Hpath. fold path. apply lookup_insert_eq. }
  unfold process_key. cbv zeta. cbn [fst snd].
  replace (contains "deleted" "logs_configuration") with false by reflexivity.
  by rewrite (bind_ok _ _ _ _ _ (_is_modified_current _ _ _ Hcurrent)).
Qed.

(** X7.  On a store without a [storage] section the storage handler
    fails half-way: the new storage is built and installed, then the
    setter raises a [KeyError], outside the [try] statement, so that
    the storage is not put back; the configuration file is not
    rewritten and nothing is sent. *)
Theorem storage_update_without_a_section config s s1 :
  let s0 :=
    set_trace
      (trace s ++ [EvLog DEBUG "Processing storage configuration update..."])%list s in
  install_event_storage config s0 = (Ok tt, s1) →
  Dict.get "storage" (_config s) = None →
  _handle_storage_configuration_update config s = (Raise KeyError, s1) ∧
  (∃ storage_class,
     _event_storage (_gateway s1)
     = {| storage_type := storage_class; storage_config := config |}) ∧
  _config s1 = _config s ∧ files s1 = files s ∧ trace s1 = trace s0.
Proof.
  intros s0 Hrun Hnone.
  pose proof (install_event_storage_config config s0) as Hc.
  pose proof (install_event_storage_files config s0) as Hf.
  pose proof (install_event_storage_trace config s0) as Ht.
  rewrite Hrun in Hc, Hf, Ht. simpl in Hc, Hf, Ht.
  destruct (install_event_storage_ok _ _ _ Hrun) as (new & storage_class & -> & Hty & Hst).
  split; [|split; [by exists storage_class|done]].
  unfold _handle_storage_configuration_update, try_except_else. exec.
  fold s0. rewrite Hrun. simpl.
  unfold set_storage_configuration, update_section. exec.
  by rewrite Hc, Hnone.
Qed.

End Guarded.

(** ** The connection protocol never raises *)

Section ConnectionErrors.

Context {W : Type} `{!Externals W}.

Implicit Types (s : State W).

(** A call of a collaborator, by the way it ends. *)
Ltac by_call :=
  match goal with
  | |- context [let (_, _) := ?x in _] =>
      lazymatch type of x with
      | (outcome _ * Gateway _)%type => destruct x as [[?|?|] ?]; simpl
      end
  end.

Lemma _revert_connection_guarded s : raised (_revert_connection s).1 = false.
Proof.
  unfold _revert_connection. apply try_except_guarded. intros e s1. by exec.
Qed.

Lemma _revert_connection_announced s :
  ∃ rest,
    trace (_revert_connection s).2
    = (trace s ++
       EvLog INFO "Remote general configuration will be restored." :: rest)%list.
Proof.
  unfold _revert_connection, try_except, general_configuration, call. exec.
  repeat by_call;
    eexists; rewrite <- ?app_assoc; simpl; reflexivity.
Qed.

Lemma use_client_true client s : (use_client client s).1 ≠ Ok false.
Proof. unfold use_client, call. exec. by by_call. Qed.

Lemma try_clients_not_false fuel new_tb_client old_tb_client apply_start s :
  (try_clients fuel new_tb_client old_tb_client apply_start s).1 ≠ Ok false.
Proof.
  revert s. induction fuel as [|fuel IH]; intros s; [done|].
  simpl. unfold mbind at 1, M_bind at 1, call.
  destruct (client_connect new_tb_client (_gateway s)) as [[[]|?|] g]; [|done..].
  unfold mbind at 1, M_bind at 1.
  destruct (poll_connection fuel new_tb_client apply_start false _)
    as [[[|]|?|] s1]; [apply use_client_true| |done..].
  unfold mbind at 1, M_bind at 1, call.
  destruct (client_connect old_tb_client (_gateway s1)) as [[[]|?|] g']; [|done..].
  unfold mbind at 1, M_bind at 1.
  destruct (poll_connection fuel old_tb_client apply_start false _)
    as [[[|]|?|] s2]; [apply use_client_true|apply IH|done..].
Qed.

(** X8.  The connection protocol keeps its errors to itself:
    [_revert_connection] and [_apply_connection_config] never end with
    an exception, whatever the clients do.  [_apply_connection_config]
    reports a failure only from its [except] clause: the exception has
    been logged and the restoration of the old connection announced. *)
Theorem connection_errors_never_escape fuel config s :
  raised (_revert_connection s).1 = false ∧
  raised (_apply_connection_config fuel config s).1 = false ∧
  (∀ s', _apply_connection_config fuel config s = (Ok false, s') →
         ∃ e rest,
           trace s'
           = (trace s ++
              EvLogExc e
              :: EvLog INFO "Remote general configuration will be restored."
              :: rest)%list).
Proof.
  split; [apply _revert_connection_guarded|]. split.
  - unfold _apply_connection_config.
    unfold mbind at 1, M_bind at 1, time_ms.
    destruct (clock_ms (world (_gateway s))) as [apply_start w].
    unfold mbind at 1, M_bind at 1, gets.
    apply try_except_guarded. intros e s1.
    unfold mbind at 1, M_bind at 1, log_exception, emit, modify.
    pose proof (_revert_connection_guarded
                  (set_trace (trace s1 ++ [EvLogExc e]) s1)) as Hrevert.
    unfold mbind, M_bind.
    by destruct (_revert_connection _) as [[[]|?|] s2].
  - intros s'. unfold _apply_connection_config.
    unfold mbind at 1, M_bind at 1, time_ms.
    destruct (clock_ms (world (_gateway s))) as [apply_start w].
    unfold mbind at 1, M_bind at 1, gets. cbn [_gateway set_gateway tb_client set_world].
    set (s0 := set_gateway _ s).
    set (body := (call (client_disconnect _) ;; _) : M bool).
    assert (Htrace : preserves trace body).
    { subst body.
      frame_with ltac:(by apply preserves_try_clients). }
    assert (Hresult : (body s0).1 ≠ Ok false).
    { subst body. unfold mbind at 1, M_bind at 1, call.
      destruct (client_disconnect _ _) as [[[]|?|] g]; [|done..].
      unfold mbind at 1, M_bind at 1.
      destruct (client_init _ _ _) as [[[]|?|] g']; [|done..].
      apply try_clients_not_false. }
    specialize (Htrace s0). unfold try_except.
    destruct (body s0) as [[[|]|e|] s1]; simpl in *; try done.
    unfold mbind at 1, M_bind at 1, log_exception, emit, modify.
    destruct (_revert_connection_announced
                (set_trace (trace s1 ++ [EvLogExc e]) s1)) as (rest & Hrest).
    unfold mbind, M_bind.
    destruct (_revert_connection _) as [[[]|?|] s2]; try done.
    simpl in Hrest. intros [= <-]. exists e, rest.
    by rewrite Hrest, Htrace, <- app_assoc.
Qed.

End ConnectionErrors.

(** ** The general configuration handler, once more *)

Section GeneralEdges.

Context {W : Type} `{!Externals W}.

Implicit Types (s : State W).


End GeneralEdges.

(** ** Invariants: what a piece of code keeps true *)

Section Invariants.

Context {W : Type} `{!Externals W} (P : State W → Prop).

Lemma keeps_ret {A} (a : A) : keeps P (mret a).
Proof. by intros s. Qed.

Lemma keeps_bind {A B} (m : M A) (k : A → M B) :
  keeps P m → (∀ a, keeps P (k a)) → keeps P (m ≫= k).
Proof.
  intros Hm Hk s Hs. unfold mbind, M_bind. specialize (Hm s Hs).
  destruct (m s) as [[a|e|] s1]; simpl in *; [|done..].
  by apply Hk.
Qed.

Lemma keeps_try_except {A} (body : M A) classes handler :
  keeps P body → (∀ e, keeps P (handler e)) →
  keeps P (try_except body classes handler).
Proof.
  intros Hb Hh s Hs. unfold try_except. specialize (Hb s Hs).
  destruct (body s) as [[a|e|] s1]; simpl in *; [done| |done].
  destruct (classes e); [by apply Hh|done].
Qed.

Lemma keeps_try_except_else {A B} (body : M A) classes
    (handler : exn → M B) orelse :
  keeps P body → (∀ e, keeps P (handler e)) → (∀ a, keeps P (orelse a)) →
  keeps P (try_except_else body classes handler orelse).
Proof.
  intros Hb Hh Ho s Hs. unfold try_except_else. specialize (Hb s Hs).
  destruct (body s) as [[a|e|] s1]; simpl in *; [by apply Ho| |done].
  destruct (classes e); [by apply Hh|done].
Qed.

Lemma keeps_for_each {A} (body : A → M unit) l :
  (∀ x, keeps P (body x)) → keeps P (for_each body l).
Proof.
  intros Hb. induction l; simpl; [apply keeps_ret|].
  apply keeps_bind; auto.
Qed.

End Invariants.

Lemma keeps_preserves {W A X} (f : State W → X) (Φ : X → Prop) (m : @M W A) :
  preserves f m → keeps (λ s, Φ (f s)) m.
Proof. intros Hm s Hs. by rewrite Hm. Qed.

(** ** The GRPC handler *)

Lemma insert_by_key_not_nil kv (d : dict) : insert_by_key kv d ≠ [].
Proof. destruct d as [|kv' d]; simpl; [done|]. by destruct (String.leb _ _). Qed.

Lemma py_ne_empty (d : dict) : d ≠ [] → py_ne (JObj d) (JObj []) = true.
Proof.
  destruct d as [|[k v] d]; [done|]. intros _.
  unfold py_ne, py_eq. apply negb_true_iff, bool_decide_eq_false.
  cbn [canon]. unfold sort_by_key. cbn [foldr]. intros [= Hnil].
  by apply insert_by_key_not_nil in Hnil.
Qed.

Section Grpc.

Context {W : Type} `{!Externals W}.

Implicit Types (s : State W).

Lemma connectors_configuration_section k :
  k ≠ "connectors" →
  preserves (W:=W) (λ s, Dict.get k (_config s)) connectors_configuration.
Proof.
  intros Hk s. unfold connectors_configuration. exec.
  destruct (Dict.get "connectors" (_config s)) as [[| | | |l|]|]; simpl; try done.
  destruct (strip_markers l) as [l' [e|]]; simpl; by rewrite dict_get_set_ne.
Qed.

Lemma connectors_configuration_well_formed :
  keeps (W:=W) (λ s, connectors_well_formed (_config s)) connectors_configuration.
Proof.
  intros s Hs.
  destruct (connectors_configuration_run s Hs) as (l & s' & -> & _ & Hsame & _).
  by destruct Hsame as (_ & _ & _ & _ & Hwf & _).
Qed.

Lemma restart_connectors_files : preserves (W:=W) files restart_connectors.
Proof. frame. Qed.

Lemma restart_connectors_trace : preserves (W:=W) trace restart_connectors.
Proof. frame. Qed.

Lemma restart_connectors_section k :
  k ≠ "connectors" →
  preserves (W:=W) (λ s, Dict.get k (_config s)) restart_connectors.
Proof.
  intros Hk. frame_with ltac:(by apply connectors_configuration_section).
Qed.

Lemma restart_connectors_well_formed :
  keeps (W:=W) (λ s, connectors_well_formed (_config s)) restart_connectors.
Proof.
  unfold restart_connectors, _get_general_config_in_local_format.
  repeat first
    [ progress intros
    | apply connectors_configuration_well_formed
    | apply (keeps_preserves _config connectors_well_formed); solve [frame]
    | apply keeps_bind ].
Qed.

(** X10.  A GRPC configuration equal to the stored one (as Python
    compares dictionaries) is not applied at all, and not acknowledged
    either.  One that cannot be applied (the service or the restart of
    the connectors raises) leaves the stored section and the files as
    they are and sends nothing: after logging the error the handler
    starts the service again with the stored configuration and
    restarts the connectors. *)
Theorem grpc_update_is_applied_or_undone config s :
  let s0 :=
    set_trace (trace s ++ [EvLog DEBUG "Processing GRPC configuration update..."])%list s in
  let current := from_option id (JObj []) (Dict.get "grpc" (_config s)) in
  (py_eq config current = true →
   _handle_grpc_configuration_update config s = (Ok tt, s0)) ∧
  (∀ e s1,
     py_eq config current = false →
     (call (init_grpc_service config) ;; restart_connectors) s0 = (Raise e, s1) →
     let undo :=
       (call (init_grpc_service current) ;; restart_connectors)
         (set_trace
            (trace s0 ++
             [EvLog ERROR "Something went wrong with applying the new GRPC configuration. Reverting...";
              EvLogExc e])%list s1) in
     _handle_grpc_configuration_update config s = undo ∧
     Dict.get "grpc" (_config undo.2) = Dict.get "grpc" (_config s) ∧
     files undo.2 = files s ∧
     trace undo.2
     = (trace s0 ++
        [EvLog ERROR "Something went wrong with applying the new GRPC configuration. Reverting...";
         EvLogExc e])%list).
Proof.
  intros s0 current. split.
  - intros Hsame. unfold _handle_grpc_configuration_update.
    rewrite (bind_ok (log DEBUG _) _ s tt s0 eq_refl).
    unfold mbind at 1, M_bind at 1, grpc_configuration, gets.
    change (_config s0) with (_config s). fold current.
    unfold py_ne. by rewrite Hsame.
  - intros e s1 Hnew Hrun undo.
    set (body := (call (init_grpc_service config) ;; restart_connectors) : M unit) in *.
    assert (Hbody : ∀ {X} (f : State W → X),
              (∀ g s, f (set_gateway g s) = f s) →
              preserves f restart_connectors → f s1 = f s0).
    { intros X f Hgateway Hrestart.
      assert (Hframe : preserves f body).
      { subst body. apply preserves_bind; [by apply preserves_call|done]. }
      specialize (Hframe s0). by rewrite Hrun in Hframe. }
    pose proof (Hbody _ (λ s, Dict.get "grpc" (_config s)) ltac:(done)
                  (restart_connectors_section "grpc" ltac:(done))) as Hsection.
    pose proof (Hbody _ files ltac:(done) restart_connectors_files) as Hfiles.
    pose proof (Hbody _ trace ltac:(done) restart_connectors_trace) as Htrace.
    simpl in Hsection, Hfiles, Htrace.
    assert (Hundo : ∀ {X} (f : State W → X) s2,
              (∀ g s, f (set_gateway g s) = f s) →
              preserves f restart_connectors →
              f ((call (init_grpc_service current) ;; restart_connectors) s2).2 = f s2).
    { intros X f s2 Hgateway Hrestart.
      apply (preserves_bind f); [by apply preserves_call|done]. }
    split.
    + unfold _handle_grpc_configuration_update.
      rewrite (bind_ok (log DEBUG _) _ s tt s0 eq_refl).
      unfold mbind at 1, M_bind at 1, grpc_configuration, gets.
      change (_config s0) with (_config s). fold current.
      unfold py_ne. rewrite Hnew. cbn [negb].
      unfold try_except_else. fold body. rewrite Hrun. cbn [is_Exception].
      unfold mbind at 1, M_bind at 1, log, emit, modify.
      unfold mbind at 1, M_bind at 1, log_exception, emit, modify.
      unfold mbind at 1, M_bind at 1, gets.
      cbn [_config set_trace trace]. rewrite Htrace, Hsection. fold current.
      subst undo. f_equal. unfold set_trace. simpl. f_equal.
      by rewrite <- !app_assoc.
    + subst undo.
      rewrite (Hundo _ (λ s, Dict.get "grpc" (_config s)) _ ltac:(done)
                 (restart_connectors_section "grpc" ltac:(done))).
      rewrite (Hundo _ files _ ltac:(done) restart_connectors_files).
      rewrite (Hundo _ trace _ ltac:(done) restart_connectors_trace).
      simpl. by rewrite Hsection, Hfiles.
Qed.

Lemma set_grpc_configuration_absent config :
  keeps (W:=W) (λ s, Dict.get "grpc" (_config s) = None)
    (set_grpc_configuration config).
Proof.
  intros s Hs. unfold set_grpc_configuration.
  unfold mbind at 1, M_bind at 1, gets. rewrite Hs.
  unfold mbind, M_bind, lift. by destruct (Py.update (JObj []) config).
Qed.

(** X11.  The setter of the GRPC section updates the dictionary the
    getter gives, which is a fresh one when the store has no [grpc]
    section: the handler never creates the section.  An update that is
    applied on such a store is lost: the configuration file is
    rewritten with an empty section and the acknowledgement carries
    the empty dictionary, not the payload. *)
Theorem grpc_section_is_never_created config s :
  Dict.get "grpc" (_config s) = None →
  Dict.get "grpc" (_config (_handle_grpc_configuration_update config s).2) = None ∧
  (∀ d s1,
     let s0 :=
       set_trace (trace s ++ [EvLog DEBUG "Processing GRPC configuration update..."])%list s in
     config = JObj d → d ≠ [] →
     (call (init_grpc_service config) ;; restart_connectors) s0 = (Ok tt, s1) →
     connectors_well_formed (_config s) →
     ∃ summaries s',
       let path := config_path (_gateway s1) ++ "tb_gateway.json" in
       let text :=
         dumps (JObj [("thingsboard",
                       from_option id (JObj []) (Dict.get "thingsboard" (_config s)));
                      ("storage",
                       from_option id (JObj []) (Dict.get "storage" (_config s)));
                      ("grpc", JObj []);
                      ("connectors", JList summaries)]) in
       _handle_grpc_configuration_update config s = (Ok tt, s') ∧
       trace s'
       = (trace s0 ++
          [EvOpenW path; EvWrite path text;
           EvSend "grpc_configuration" (JObj []);
           EvLog INFO "Processed GRPC configuration update successfully"])%list).
Proof.
  intros Hnone. split.
  - assert (Hkeeps : keeps (W:=W) (λ s, Dict.get "grpc" (_config s) = None)
                       (_handle_grpc_configuration_update config)).
    { unfold _handle_grpc_configuration_update, write_general_configuration_file.
      repeat first
        [ progress intros
        | apply set_grpc_configuration_absent
        | apply (keeps_preserves (λ s, Dict.get "grpc" (_config s)) (λ x, x = None));
          solve [frame_with ltac:(first [ by apply connectors_configuration_section
                                        | by apply restart_connectors_section ])]
        | apply keeps_ret
        | apply keeps_bind
        | apply keeps_try_except_else
        | match goal with |- keeps _ (if ?b then _ else _) => destruct b end ]. }
    by apply Hkeeps.
  - intros d s1 s0 -> Hd Hrun Hwf.
    set (body := (call (init_grpc_service (JObj d)) ;; restart_connectors) : M unit) in *.
    assert (Hbody : ∀ {X} (f : State W → X),
              (∀ g s, f (set_gateway g s) = f s) →
              preserves f restart_connectors → f s1 = f s0).
    { intros X f Hgateway Hrestart.
      assert (Hframe : preserves f body).
      { subst body. apply preserves_bind; [by apply preserves_call|done]. }
      specialize (Hframe s0). by rewrite Hrun in Hframe. }
    assert (Hsections : ∀ k, k ≠ "connectors" →
              Dict.get k (_config s1) = Dict.get k (_config s)).
    { intros k Hk.
      apply (Hbody _ (λ s, Dict.get k (_config s)) ltac:(done)
               (restart_connectors_section k Hk)). }
    pose proof (Hbody _ trace ltac:(done) restart_connectors_trace) as Htrace.
    assert (Hwf1 : connectors_well_formed (_config s1)).
    { assert (Hkeeps : keeps (λ s, connectors_well_formed (_config s)) body).
      { subst body. apply keeps_bind;
          [apply (keeps_preserves _config connectors_well_formed); frame
          |intros; apply restart_connectors_well_formed]. }
      specialize (Hkeeps s0 Hwf). by rewrite Hrun in Hkeeps. }
    destruct (write_general_configuration_file_run s1 Hwf1)
      as (summaries & t & s2 & Hwrite & Hsame & Htrace2 & _).
    exists summaries, (set_trace
      (trace s2 ++ [EvSend "grpc_configuration" (JObj []);
                    EvLog INFO "Processed GRPC configuration update successfully"])%list s2).
    cbv zeta. split.
    + unfold _handle_grpc_configuration_update.
      rewrite (bind_ok (log DEBUG _) _ s tt s0 eq_refl).
      unfold mbind at 1, M_bind at 1, grpc_configuration, gets.
      change (_config s0) with (_config s). rewrite Hnone. cbn [from_option].
      rewrite (py_ne_empty d Hd).
      unfold try_except_else. fold body. rewrite Hrun.
      unfold set_grpc_configuration.
      unfold mbind at 1, M_bind at 1.
      unfold mbind at 1, M_bind at 1, gets.
      rewrite (Hsections "grpc") by done. rewrite Hnone.
      unfold mbind at 1, M_bind at 1, lift, Py.update.
      cbn [mret M_ret].
      rewrite (bind_ok _ _ _ _ _ Hwrite).
      destruct Hsame as (_ & _ & _ & Hkeys & _).
      unfold mbind at 1, M_bind at 1, gets.
      rewrite (Hkeys "grpc"), (Hsections "grpc"), Hnone by done.
      cbn [from_option]. exec. by rewrite <- app_assoc.
    + simpl. rewrite Htrace2, Htrace.
      unfold local_format_of.
      rewrite !Hsections by done. rewrite Hnone. by rewrite <- app_assoc.
Qed.

End Grpc.

(** ** The list of active connectors *)

Lemma dict_set_set k v v' (d : dict) :
  Dict.set k v (Dict.set k v' d) = Dict.set k v d.
Proof.
  induction d as [|[k0 v0] d IH]; simpl.
  - by rewrite String.eqb_refl.
  - destruct (String.eqb k0 k) eqn:E; simpl; rewrite E; [done|by rewrite IH].
Qed.

Lemma dict_remove_absent k (d : dict) : k ∉ Dict.keys d → Dict.remove k d = d.
Proof.
  induction d as [|[k0 v0] d IH]; simpl; [done|].
  intros Hk. apply not_elem_of_cons in Hk as [Hne Hk].
  destruct (String.eqb k0 k) eqn:E; [|by rewrite IH].
  apply String.eqb_eq in E. congruence.
Qed.

Lemma dict_keys_remove_subseteq k k' (d : dict) :
  k' ∈ Dict.keys (Dict.remove k d) → k' ∈ Dict.keys d.
Proof.
  induction d as [|[k0 v0] d IH]; simpl; [done|].
  destruct (String.eqb k0 k); simpl.
  - intros Hin. by apply elem_of_cons; right.
  - intros [->|Hin]%elem_of_cons; apply elem_of_cons; [by left|right; by apply IH].
Qed.

Lemma dict_keys_remove k (d : dict) :
  NoDup (Dict.keys d) →
  (k ∉ Dict.keys (Dict.remove k d)) ∧ NoDup (Dict.keys (Dict.remove k d)).
Proof.
  induction d as [|[k0 v0] d IH]; simpl.
  { intros _. split; [apply not_elem_of_nil|constructor]. }
  intros [Hk0 Hd]%NoDup_cons. simpl in Hk0.
  destruct (String.eqb k0 k) eqn:E; simpl.
  - apply String.eqb_eq in E. subst k0. by split.
  - destruct (IH Hd) as [Hk Hnodup]. split.
    + apply not_elem_of_cons. split; [|done].
      intros ->. by rewrite String.eqb_refl in E.
    + apply NoDup_cons. split; [|done].
      intros Hin. by apply dict_keys_remove_subseteq in Hin.
Qed.

Lemma stripped_stripped entry :
  entry_is_dict entry → stripped (stripped entry) = stripped entry.
Proof.
  intros (d & -> & Hd). simpl. f_equal.
  destruct (dict_keys_remove "config_updated" d Hd) as [Hupdated Hd1].
  destruct (dict_keys_remove "config_file_path" _ Hd1) as [Hpath Hd2].
  rewrite (dict_remove_absent "config_updated").
  - by apply dict_remove_absent.
  - intros Hin. by apply dict_keys_remove_subseteq in Hin.
Qed.


Lemma stripped_name entry : entry_name (stripped entry) = entry_name entry.
Proof. destruct entry; try done. simpl. by rewrite !dict_get_remove_ne. Qed.

Lemma stripped_entry_ok entry : connector_entry_ok entry → connector_entry_ok (stripped entry).
Proof.
  intros (d & -> & Ht & Hn & Hc). eexists. split; [reflexivity|].
  by rewrite !dict_get_remove_ne.
Qed.

Lemma strip_markers_stripped l :
  Forall (λ entry, ∃ d, entry = JObj d) l →
  strip_markers l = (stripped <$> l, None).
Proof.
  induction 1 as [|entry l [d ->] _ IH]; [done|].
  simpl. by rewrite IH.
Qed.

Lemma filter_listed_spec l connectors :
  Forall (λ entry, is_Some (entry_name entry)) connectors →
  filter_listed (JList l) connectors = Ok (List.filter (entry_listed l) connectors).
Proof.
  induction 1 as [|entry connectors [name Hname] _ IH]; [done|].
  simpl. rewrite (proj2 (getitem_name _ _) Hname). simpl.
  rewrite IH. simpl.
  replace (entry_listed l entry) with (existsb (py_eq name) l)
    by (unfold entry_listed; by rewrite Hname).
  by destruct (existsb _ _).
Qed.

Section ActiveConnectors.

Context {W : Type} `{!Externals W}.

Implicit Types (s : State W).

Lemma connectors_configuration_strips s :
  _config (connectors_configuration s).2 = strip_config (_config s).
Proof.
  unfold connectors_configuration, strip_config. exec.
  destruct (Dict.get "connectors" (_config s)) as [[| | | |l|]|]; simpl; try done.
  by destruct (strip_markers l) as [l' [e|]].
Qed.

Lemma bind_config {A B} (m : M A) (k : A → M B) s :
  (∀ a, preserves _config (k a)) →
  _config ((m ≫= k) s).2 = _config (m s).2.
Proof.
  intros Hk. unfold mbind, M_bind.
  destruct (m s) as [[a|e|] s1]; [apply Hk|done..].
Qed.

Lemma write_general_configuration_file_strips s :
  _config (write_general_configuration_file s).2 = strip_config (_config s).
Proof.
  unfold write_general_configuration_file.
  rewrite (bind_ok get_config_path _ s _ s eq_refl).
  assert (Hopen : ∃ s1, open_w (config_path (_gateway s) ++ "tb_gateway.json") s
                        = (Ok tt, s1) ∧ _config s1 = _config s).
  { unfold open_w. exec. destruct (clock_ms _). by eexists. }
  destruct Hopen as (s1 & Hopen & Hconfig).
  rewrite (bind_ok _ _ _ _ _ Hopen).
  rewrite bind_config by (intros; frame).
  unfold _get_general_config_in_local_format.
  rewrite bind_config by (intros; frame).
  by rewrite connectors_configuration_strips, Hconfig.
Qed.

(** The first loop when no connector gets closed. *)
Lemma close_inactive_nothing (stuck : Gateway W → Prop) l names for_deletion s :
  Forall (λ name, listed l name = true
                  ∨ ∀ g, stuck g →
                         ∃ e g', connector_close name g = (Raise e, g') ∧ stuck g')
         names →
  stuck (_gateway s) →
  ∃ g excs,
    close_inactive (JList l) names for_deletion s
    = (Ok for_deletion, set_trace (trace s ++ excs) (set_gateway g s)) ∧
    forallb is_exception_log excs = true ∧
    (Forall (λ name, listed l name = true) names →
     g = _gateway s ∧ excs = []).
Proof.
  intros Hnames. revert s.
  induction Hnames as [|name names Hname _ IH]; intros s Hs.
  - exists (_gateway s), []. split; [|done].
    simpl. unfold mret, M_ret. f_equal. destruct s. simpl. by rewrite app_nil_r.
  - simpl. unfold mbind at 1, M_bind at 1, lift. cbn [Py.contains].
    fold (listed l name).
    destruct (listed l name) eqn:Hlisted; cbn [negb].
    + destruct (IH s Hs) as (g & excs & -> & Hexcs & Hsame).
      exists g, excs. split; [done|]. split; [done|].
      intros Hall. apply Hsame. by apply Forall_cons in Hall as [_ Hall].
    + destruct Hname as [Hname|Hraises]; [congruence|].
      destruct (Hraises (_gateway s) Hs) as (e & g1 & Hclose & Hg1).
      unfold mbind at 1, M_bind at 1, try_except.
      unfold mbind at 1, M_bind at 1, call. rewrite Hclose.
      cbn [is_Exception].
      unfold mbind at 1, M_bind at 1, log_exception, emit, modify.
      cbn [mret M_ret].
      destruct (IH (set_trace (trace (set_gateway g1 s) ++ [EvLogExc e])
                      (set_gateway g1 s)) Hg1) as (g & excs & -> & Hexcs & _).
      exists g, (EvLogExc e :: excs). split; [|split].
      * f_equal. unfold set_trace, set_gateway. simpl. f_equal.
        by rewrite <- app_assoc.
      * done.
      * intros Hall. apply Forall_cons in Hall as [Hall _]. congruence.
Qed.

(** X12.  When every available connector is named by the new list of
    active connectors, the handler only sends the list back.  More
    generally, when no connector gets closed (each one is named by the
    list, or its [close] raises), nothing is deleted: the exceptions
    are logged, the store, the files and [_active_connectors] are
    as before, and the list is sent back. *)
Theorem active_connectors_that_stay (stuck : Gateway W → Prop) l s :
  let names := available_connectors (_gateway s) in
  (Forall (λ name, listed l name = true) names →
   _handle_active_connectors_update (JList l) s
   = (Ok tt,
      set_trace
        (trace s ++
         [EvLog DEBUG "Processing active connectors configuration update...";
          EvSend "active_connectors" (JList l)])%list s)) ∧
  (Forall (λ name, listed l name = true
                   ∨ ∀ g, stuck g →
                          ∃ e g', connector_close name g = (Raise e, g') ∧ stuck g')
          names →
   stuck (_gateway s) →
   ∃ g excs,
     _handle_active_connectors_update (JList l) s
     = (Ok tt,
        set_trace
          (trace s ++
           [EvLog DEBUG "Processing active connectors configuration update..."] ++
           excs ++ [EvSend "active_connectors" (JList l)])%list
          (set_gateway g s)) ∧
     forallb is_exception_log excs = true).
Proof.
  intros names.
  assert (Hgeneral : ∀ (stuck : Gateway W → Prop),
    Forall (λ name, listed l name = true
                    ∨ ∀ g, stuck g →
                           ∃ e g', connector_close name g = (Raise e, g') ∧ stuck g')
           names →
    stuck (_gateway s) →
    ∃ g excs,
      _handle_active_connectors_update (JList l) s
      = (Ok tt,
         set_trace
           (trace s ++
            [EvLog DEBUG "Processing active connectors configuration update..."] ++
            excs ++ [EvSend "active_connectors" (JList l)])%list
           (set_gateway g s)) ∧
      forallb is_exception_log excs = true ∧
      (Forall (λ name, listed l name = true) names → g = _gateway s ∧ excs = [])).
  { intros stuck' Hnames Hs.
    set (s0 := set_trace
                 (trace s ++ [EvLog DEBUG "Processing active connectors configuration update..."])%list s).
    destruct (close_inactive_nothing stuck' l names [] s0 Hnames Hs)
      as (g & excs & Hclose & Hexcs & Hsame).
    exists g, excs. split; [|done].
    unfold _handle_active_connectors_update.
    rewrite (bind_ok (log DEBUG _) _ s tt s0 eq_refl).
    unfold mbind at 1, M_bind at 1, gets.
    change (available_connectors (_gateway s0)) with names.
    rewrite (bind_ok _ _ _ _ _ Hclose).
    cbn [bool_decide decide_rel]. exec. f_equal.
    unfold set_trace, set_gateway. simpl. f_equal.
    by rewrite <- !app_assoc. }
  split.
  - intros Hall.
    assert (Hweak : Forall (λ name, listed l name = true
                       ∨ ∀ g, True →
                              ∃ e g', connector_close name g = (Raise e, g') ∧ True)
                      names).
    { eapply Forall_impl; [exact Hall|]. intros name Hname. by left. }
    destruct (Hgeneral (λ _, True) Hweak I) as (g & excs & -> & _ & Hsame).
    by destruct (Hsame Hall) as [-> ->].
  - intros Hnames Hs.
    destruct (Hgeneral stuck Hnames Hs) as (g & excs & Hrun & Hexcs & _).
    by exists g, excs.
Qed.

(** The first loop when every [close] returns. *)
Lemma close_inactive_closes (sound : Gateway W → Prop) l names for_deletion s :
  (∀ name g, sound g →
             ∃ g', connector_close name g = (Ok tt, g') ∧
                   available_connectors g' = available_connectors g ∧ sound g') →
  sound (_gateway s) →
  ∃ g,
    close_inactive (JList l) names for_deletion s
    = (Ok (for_deletion ++ List.filter (λ name, negb (listed l name)) names)%list,
       set_gateway g s) ∧
    available_connectors g = available_connectors (_gateway s).
Proof.
  intros Hcloses. revert for_deletion s.
  induction names as [|name names IH]; intros for_deletion s Hs.
  - exists (_gateway s). split; [|done].
    simpl. rewrite app_nil_r. unfold mret, M_ret. f_equal. by destruct s.
  - simpl. unfold mbind at 1, M_bind at 1, lift. cbn [Py.contains].
    fold (listed l name).
    destruct (listed l name) eqn:Hlisted; cbn [negb].
    + by apply IH.
    + destruct (Hcloses name (_gateway s) Hs) as (g1 & Hclose & Havailable & Hg1).
      unfold mbind at 1, M_bind at 1, try_except.
      unfold mbind at 1, M_bind at 1, call. rewrite Hclose.
      cbn [mret M_ret].
      destruct (IH (for_deletion ++ [name])%list (set_gateway g1 s) Hg1)
        as (g & -> & Hg).
      exists g. rewrite <- app_assoc. split; [done|].
      by rewrite Hg.
Qed.

(** The second loop: the connectors that were closed leave the table
    of the available ones. *)
Lemma pop_all for_deletion s :
  NoDup for_deletion →
  Forall (λ name, name ∈ available_connectors (_gateway s)) for_deletion →
  ∃ g,
    for_each pop_available_connector for_deletion s = (Ok tt, set_gateway g s) ∧
    available_connectors g
    = filter (λ name, name ∉ for_deletion) (available_connectors (_gateway s)).
Proof.
  intros Hnodup. revert s.
  induction Hnodup as [|name for_deletion Hfresh Hnodup IH]; intros s Hin.
  - exists (_gateway s). split; [by destruct s|].
    clear Hin.
    induction (available_connectors (_gateway s)) as [|name names IH]; [done|].
    rewrite filter_cons_True by apply not_elem_of_nil. by f_equal.
  - apply Forall_cons in Hin as [Hname Hin].
    cbn [for_each]. unfold mbind at 1, M_bind at 1.
    unfold pop_available_connector at 1.
    unfold mbind at 1, M_bind at 1, gets.
    rewrite (bool_decide_eq_true_2 _ Hname).
    unfold modify_gateway, modify.
    match goal with |- context [for_each _ _ ?s0] => set (s1 := s0) end.
    destruct (IH s1) as (g & -> & Hg).
    { subst s1. simpl. apply Forall_forall. intros other Hother.
      rewrite Forall_forall in Hin. apply list_elem_of_filter.
      split; [by intros ->|by apply Hin]. }
    exists g. split; [done|].
    rewrite Hg. subst s1. simpl. rewrite list_filter_filter.
    apply list_filter_iff. intros other. rewrite not_elem_of_cons. tauto.
Qed.

(** X13.  When the gateway closes the connectors it is asked to close,
    the connectors that the new list of active connectors does not
    name are closed and leave the table of the available connectors,
    their entries leave the stored configuration, the general
    configuration file is rewritten without them, the list is kept in
    [_active_connectors] and sent back. *)
Theorem active_connectors_that_go (sound : Gateway W → Prop) l entries s :
  let names := available_connectors (_gateway s) in
  (∀ name g, sound g →
             ∃ g', connector_close name g = (Ok tt, g') ∧
                   available_connectors g' = available_connectors g ∧ sound g') →
  sound (_gateway s) →
  NoDup names →
  Exists (λ name, listed l name = false) names →
  Dict.get "connectors" (_config s) = Some (JList entries) →
  Forall connector_entry_ok entries →
  Forall entry_is_dict entries →
  ∃ summaries s',
    let path := config_path (_gateway s') ++ "tb_gateway.json" in
    let text := dumps (local_format_of (_config s) summaries) in
    _handle_active_connectors_update (JList l) s = (Ok tt, s') ∧
    (∀ name, name ∈ available_connectors (_gateway s')
             ↔ name ∈ names ∧ listed l name = true) ∧
    Dict.get "connectors" (_config s')
    = Some (JList (List.filter (entry_listed l) (stripped <$> entries))) ∧
    (∀ k, k ≠ "connectors" → Dict.get k (_config s') = Dict.get k (_config s)) ∧
    _active_connectors s' = JList l ∧
    trace s'
    = (trace s ++
       [EvLog DEBUG "Processing active connectors configuration update...";
        EvOpenW path; EvWrite path text;
        EvSend "active_connectors" (JList l)])%list.
Proof.
  intros names Hcloses Hsound Hnodup Hsome Hentries Hok Hdicts.
  set (s0 := set_trace
               (trace s ++ [EvLog DEBUG "Processing active connectors configuration update..."])%list s).
  destruct (close_inactive_closes sound l names [] s0 Hcloses Hsound)
    as (g1 & Hclose & Hg1).
  set (for_deletion := List.filter (λ name, negb (listed l name)) names) in *.
  assert (Hfor : ∀ name, name ∈ for_deletion ↔ name ∈ names ∧ listed l name = false).
  { intros name. subst for_deletion. rewrite !list_elem_of_In, filter_In.
    rewrite negb_true_iff. tauto. }
  assert (Hne : for_deletion ≠ []).
  { apply Exists_exists in Hsome as (name & Hin & Hname).
    intros Hnil.
    assert (Hmember : name ∈ for_deletion) by (by apply Hfor).
    rewrite Hnil in Hmember. by apply elem_of_nil in Hmember. }
  destruct (pop_all for_deletion (set_gateway g1 s0)) as (g2 & Hpop & Hg2).
  { subst for_deletion. apply NoDup_ListNoDup, List.NoDup_filter.
    by apply NoDup_ListNoDup. }
  { apply Forall_forall. intros name Hin. simpl. rewrite Hg1.
    by apply Hfor in Hin as [Hin _]. }
  set (s2 := set_gateway g2 (set_gateway g1 s0)) in *.
  (* the entries that stay *)
  set (kept := List.filter (entry_listed l) (stripped <$> entries)).
  assert (Hstrip : strip_markers entries = (stripped <$> entries, None)).
  { apply strip_markers_stripped. eapply Forall_impl; [exact Hdicts|].
    intros entry (d & -> & _). by eexists. }
  assert (Hdelete :
    _delete_connectors_from_config (JList l) s2
    = (Ok tt, set_config (Dict.set "connectors" (JList kept) (_config s)) s2)).
  { unfold _delete_connectors_from_config, connectors_configuration. exec.
    rewrite Hentries, Hstrip. simpl.
    rewrite filter_listed_spec.
    - simpl. by rewrite dict_set_set.
    - apply Forall_fmap. eapply Forall_impl; [exact Hok|].
      intros entry (d & -> & _ & Hname & _). simpl.
      by rewrite !dict_get_remove_ne. }
  set (s3 := set_config (Dict.set "connectors" (JList kept) (_config s)) s2) in *.
  assert (Hkept_ok : Forall connector_entry_ok kept).
  { subst kept. apply Forall_forall. intros entry Hin.
    apply list_elem_of_In, filter_In in Hin as [Hin _].
    apply list_elem_of_In, list_elem_of_fmap in Hin as (entry0 & -> & Hin).
    apply stripped_entry_ok. rewrite Forall_forall in Hok. by apply Hok. }
  assert (Hkept_strip : strip_markers kept = (kept, None)).
  { rewrite strip_markers_stripped.
    - f_equal. apply list_eq. intros i. rewrite list_lookup_fmap.
      destruct (kept !! i) as [entry|] eqn:Hentry; [|done]. simpl. f_equal.
      apply list_elem_of_lookup_2 in Hentry. subst kept.
      apply list_elem_of_In, filter_In in Hentry as [Hentry _].
      apply list_elem_of_In, list_elem_of_fmap in Hentry as (entry0 & -> & Hin).
      apply stripped_stripped.
      rewrite Forall_forall in Hdicts. by apply Hdicts.
    - eapply Forall_impl; [exact Hkept_ok|]. intros entry (d & -> & _). by eexists. }
  assert (Hwf3 : connectors_well_formed (_config s3)).
  { unfold connectors_well_formed. subst s3. simpl. by rewrite dict_get_set_eq. }
  destruct (write_general_configuration_file_run s3 Hwf3)
    as (summaries & t & s4 & Hwrite & Hsame & Htrace4 & _).
  pose proof (write_general_configuration_file_strips s3) as Hconfig4.
  rewrite Hwrite in Hconfig4. simpl in Hconfig4.
  unfold strip_config in Hconfig4. rewrite dict_get_set_eq in Hconfig4.
  rewrite Hkept_strip, dict_set_set in Hconfig4. simpl in Hconfig4.
  destruct Hsame as (_ & _ & [w Hgateway4] & Hkeys & _).
  exists summaries,
    (set_trace (trace s4 ++ [EvSend "active_connectors" (JList l)])%list
       (set_active_connectors (JList l) s4)).
  cbv zeta. split; [|split; [|split; [|split; [|split]]]].
  - unfold _handle_active_connectors_update.
    rewrite (bind_ok (log DEBUG _) _ s tt s0 eq_refl).
    unfold mbind at 1, M_bind at 1, gets.
    change (available_connectors (_gateway s0)) with names.
    rewrite (bind_ok _ _ _ _ _ Hclose).
    rewrite app_nil_l. fold for_deletion.
    rewrite (bool_decide_eq_true_2 _ Hne).
    unfold mbind at 1, M_bind at 1.
    rewrite (bind_ok _ _ _ _ _ Hpop).
    rewrite (bind_ok _ _ _ _ _ Hdelete).
    rewrite (bind_ok _ _ _ _ _ Hwrite).
    by exec.
  - intros name. simpl. rewrite Hgateway4. simpl. rewrite Hg2. simpl. rewrite Hg1.
    rewrite list_elem_of_filter. fold names. rewrite Hfor.
    destruct (listed l name); split; intros [? ?]; split; try done.
    + intros [_ ?]. done.
    + tauto.
  - simpl. rewrite Hconfig4. apply dict_get_set_eq.
  - intros k Hk. simpl. rewrite Hconfig4. by rewrite dict_get_set_ne.
  - done.
  - simpl. rewrite Htrace4. subst s3 s2 s0. simpl.
    rewrite Hgateway4. simpl.
    unfold local_format_of. rewrite !dict_get_set_ne by done.
    by rewrite <- !app_assoc.
Qed.

End ActiveConnectors.

(** ** Backups, once more *)

Section BackupFiles.

Context {W : Type} `{!Externals W}.

Implicit Types (s : State W).



End BackupFiles.

(** ** The statistics *)

Lemma py_eq_refl v : py_eq v v = true.
Proof. by apply bool_decide_eq_true_2. Qed.

Lemma py_ne_refl v : py_ne v v = false.
Proof. unfold py_ne. by rewrite py_eq_refl. Qed.

Section Statistics.

Context {W : Type} `{!Externals W}.

Implicit Types (s : State W).

(** X15.  Statistics that have been applied are current: when
    [_apply_statistics_config] returns [True] for statistics with
    commands, it has written the commands to the statistics file and
    put the statistics in memory, and
    [_check_statistics_configuration_changes] finds nothing changed
    when it is given the same statistics again (the text of the
    commands is read back as the commands). *)
Theorem applied_statistics_are_current d commands g st name config' s s' :
  Dict.get "commands" d = Some commands →
  truthy commands = true →
  is_Some (Dict.get "enable" d) →
  is_Some (Dict.get "statsSendPeriodInSeconds" d) →
  Dict.get "thingsboard" (_config s) = Some (JObj g) →
  Dict.get "statistics" g = Some (JObj st) →
  statistics_file st = JStr name →
  name ≠ "" →
  loads (dumps commands) = Ok commands →
  _apply_statistics_config (JObj d) s = (Ok (true, config'), s') →
  config_path (_gateway s') = config_path (_gateway s) →
  config' = JObj (Dict.set "configuration" (JStr name) d) ∧
  (∃ t, files s' !! (config_path (_gateway s) ++ name)
        = Some {| content := dumps commands; mtime := t |}) ∧
  Dict.get "thingsboard" (_config s')
  = Some (JObj (Dict.set "statistics" config' g)) ∧
  _check_statistics_configuration_changes config' s' = (Ok false, s').
Proof.
  intros Hcommands Htruthy [enable Henable] [period Hperiod] Hg Hst Hname Hne
    Hloads Hrun Hpath.
  assert (Hshape :
    config' = JObj (Dict.set "configuration" (JStr name) d) ∧
    (∃ t, files s' !! (config_path (_gateway s) ++ name)
          = Some {| content := dumps commands; mtime := t |}) ∧
    _config s' = Dict.set "thingsboard" (JObj (Dict.set "statistics" config' g)) (_config s)).
  { revert Hrun.
    unfold _apply_statistics_config, try_except_else, try_except,
      restore_statistics_service, general_configuration_setitem,
      general_configuration, call.
    exec. rewrite Hcommands. simpl. rewrite Htruthy, Hg. simpl.
    rewrite Hst. simpl. fold (statistics_file st). rewrite Hname. simpl.
    destruct (clock_ms (world (_gateway s))) as [t0 w0]. simpl.
    destruct (clock_ms w0) as [t w1]. simpl.
    destruct (init_statistics_service _ _) as [[[]|e|] g1]; simpl.
    - rewrite Hg. simpl. intros [= <- <-]. simpl.
      split; [done|]. split; [|done].
      exists t. apply lookup_insert_eq.
    - rewrite Hg. simpl.
      destruct (init_statistics_service _ _) as [[[]|e'|] g2]; simpl; by inversion 1.
    - by inversion 1. }
  destruct Hshape as (-> & Hfile & Hconfig).
  split; [done|]. split; [done|].
  split; [by rewrite Hconfig, dict_get_set_eq|].
  destruct Hfile as [t Hfile].
  unfold _check_statistics_configuration_changes, general_configuration, or_else,
    load_file.
  exec. rewrite Hconfig, dict_get_set_eq. simpl. rewrite dict_get_set_eq. simpl.
  rewrite !dict_get_set_ne by done. rewrite Henable, Hperiod. simpl.
  rewrite !py_ne_refl. simpl. rewrite dict_get_set_eq. simpl.
  replace (negb (String.eqb name "")) with true
    by (symmetry; apply negb_true_iff, String.eqb_neq, Hne).
  rewrite Hpath, Hfile. simpl. rewrite Hloads.
  rewrite dict_get_set_ne by done. rewrite Hcommands. simpl.
  by rewrite py_ne_refl.
Qed.

End Statistics.

(** ** A general configuration that changes the tunables only *)

Section Tunables.

Context {W : Type} `{!Externals W}.

Implicit Types (s : State W).











End Tunables.

(** ** Reading the configuration back *)

Lemma dict_get_removed k (d : dict) :
  NoDup (Dict.keys d) → Dict.get k (Dict.remove k d) = None.
Proof. intros Hd. by apply dict_get_absent, dict_keys_remove. Qed.

Section ReadingBack.

Context {W : Type} `{!Externals W}.

Implicit Types (s : State W).

(** X17.  The remote format is built in the stored general
    configuration itself: the call leaves the statistics in memory
    replaced by the four entries it sends, the commands read from the
    statistics file among them, and [_cleanup] then takes the commands
    out again.  Without a [statistics] section there is nothing to
    read the entries from: the call raises a [KeyError] and changes
    nothing. *)
Theorem remote_format_is_built_in_the_store g s :
  Dict.get "thingsboard" (_config s) = Some (JObj g) →
  (∀ st enable period commands,
     Dict.get "statistics" g = Some (JObj st) →
     Dict.get "enable" st = Some enable →
     Dict.get "statsSendPeriodInSeconds" st = Some period →
     let configuration := from_option id JNull (Dict.get "configuration" st) in
     (if truthy configuration
      then ∃ name f, configuration = JStr name ∧
                     files s !! (config_path (_gateway s) ++ name) = Some f ∧
                     loads (content f) = Ok commands
      else commands = JList []) →
     let sent :=
       Dict.set "statistics"
         (JObj [("enable", enable); ("statsSendPeriodInSeconds", period);
                ("configuration", configuration); ("commands", commands)]) g in
     let kept :=
       Dict.set "statistics"
         (JObj [("enable", enable); ("statsSendPeriodInSeconds", period);
                ("configuration", configuration)]) g in
     _get_general_config_in_remote_format s
     = (Ok (JObj sent), set_config (Dict.set "thingsboard" (JObj sent) (_config s)) s) ∧
     (_get_general_config_in_remote_format ;; _cleanup) s
     = (Ok tt, set_config (Dict.set "thingsboard" (JObj kept) (_config s)) s)) ∧
  (Dict.get "statistics" g = None →
   _get_general_config_in_remote_format s = (Raise KeyError, s)).
Proof.
  intros Hg. split.
  - intros st enable period commands Hst Henable Hperiod configuration Hcommands
      sent kept.
    assert (Hrun : _get_general_config_in_remote_format s
                   = (Ok (JObj sent),
                      set_config (Dict.set "thingsboard" (JObj sent) (_config s)) s)).
    { assert (Hconfiguration : statistics_configuration s = (Ok configuration, s)).
      { unfold statistics_configuration, general_configuration. exec.
        rewrite Hg. simpl. by rewrite Hst. }
      assert (Hitem : ∀ k v, Dict.get k st = Some v → statistics_item k s = (Ok v, s)).
      { intros k v Hv. unfold statistics_item, general_configuration. exec.
        rewrite Hg. simpl. rewrite Hst. simpl. by rewrite Hv. }
      unfold _get_general_config_in_remote_format.
      rewrite (bind_ok _ _ _ _ _ Hconfiguration).
      rewrite (bind_ok _ _ s commands s).
      - rewrite (bind_ok general_configuration _ s (JObj g) s)
          by (unfold general_configuration, gets; by rewrite Hg).
        rewrite (bind_ok (lift _) _ s tt s eq_refl).
        rewrite (bind_ok _ _ _ _ _ (Hitem _ _ Henable)).
        rewrite (bind_ok _ _ _ _ _ (Hitem _ _ Hperiod)).
        rewrite (bind_ok _ _ _ _ _ Hconfiguration).
        unfold general_configuration_update. exec. by rewrite Hg.
      - destruct (truthy configuration); [|by subst commands].
        destruct Hcommands as (name & f & -> & Hf & Hloads).
        unfold load_file. exec. by rewrite Hf, Hloads. }
    split; [done|].
    rewrite (bind_ok _ _ _ _ _ Hrun).
    unfold _cleanup, general_configuration, general_configuration_setitem. exec.
    rewrite !dict_get_set_eq. simpl. subst sent. rewrite !dict_get_set_eq. simpl.
    by rewrite !dict_set_set.
  - intros Hnone.
    unfold _get_general_config_in_remote_format, statistics_configuration,
      general_configuration.
    exec. rewrite Hg. simpl. by rewrite Hnone.
Qed.

(** X18.  [_load_logs_configuration] never raises: it gives the
    document read from [logs.json], or the empty dictionary, with the
    exception logged, when the file is missing or cannot be read as a
    document. *)
Theorem logs_configuration_is_read_or_empty s :
  let path := config_path (_gateway s) ++ "logs.json" in
  _load_logs_configuration s
  = match files s !! path with
    | Some f =>
        match loads (content f) with
        | Ok document => (Ok document, s)
        | Raise e => (Ok (JObj []), set_trace (trace s ++ [EvLogExc e]) s)
        | Diverge => (Diverge, s)
        end
    | None => (Ok (JObj []), set_trace (trace s ++ [EvLogExc OSError]) s)
    end.
Proof.
  unfold _load_logs_configuration, try_except, load_file. exec.
  destruct (files s !! _) as [f|]; [|done].
  by destruct (loads (content f)).
Qed.

Lemma connectors_getter_strips entries s :
  Dict.get "connectors" (_config s) = Some (JList entries) →
  Forall entry_is_dict entries →
  let s' :=
    set_config (Dict.set "connectors" (JList (stripped <$> entries)) (_config s)) s in
  connectors_configuration s = (Ok (stripped <$> entries), s') ∧
  connectors_configuration s' = (Ok (stripped <$> entries), s').
Proof.
  intros Hentries Hdicts s'.
  assert (Hjust_dicts : Forall (λ entry, ∃ d, entry = JObj d) entries).
  { eapply Forall_impl; [exact Hdicts|]. intros entry (d & -> & _). by eexists. }
  split.
  - unfold connectors_configuration. exec. rewrite Hentries.
    by rewrite (strip_markers_stripped _ Hjust_dicts).
  - unfold connectors_configuration. exec. rewrite dict_get_set_eq.
    assert (Hagain : stripped <$> (stripped <$> entries) = stripped <$> entries).
    { rewrite <- list_fmap_compose. apply Forall_fmap_ext_1.
      eapply Forall_impl; [exact Hdicts|]. intros entry Hentry. simpl.
      by apply stripped_stripped. }
    rewrite strip_markers_stripped.
    + simpl. rewrite Hagain. subst s'. by rewrite dict_set_set.
    + apply Forall_fmap. eapply Forall_impl; [exact Hdicts|].
      intros entry (d & -> & _). by eexists.
Qed.

(** X19.  The getter of the connectors takes the marks
    [config_updated] and [config_file_path] out of the stored entries
    themselves: the list it gives is the stored list, no entry of it
    has a mark, every other field is as it was, and asking again gives
    the same list and changes nothing. *)
Theorem connectors_getter_takes_the_marks_out entries s :
  Dict.get "connectors" (_config s) = Some (JList entries) →
  Forall entry_is_dict entries →
  let s' :=
    set_config (Dict.set "connectors" (JList (stripped <$> entries)) (_config s)) s in
  connectors_configuration s = (Ok (stripped <$> entries), s') ∧
  Forall (λ entry, ∃ d, entry = JObj d ∧
                        Dict.get "config_updated" d = None ∧
                        Dict.get "config_file_path" d = None)
         (stripped <$> entries) ∧
  (∀ d k, JObj d ∈ entries → k ≠ "config_updated" → k ≠ "config_file_path" →
          ∃ d', stripped (JObj d) = JObj d' ∧ Dict.get k d' = Dict.get k d) ∧
  connectors_configuration s' = (Ok (stripped <$> entries), s').
Proof.
  intros Hentries Hdicts s'.
  destruct (connectors_getter_strips entries s Hentries Hdicts) as (Hget & Hagain).
  split; [done|]. split; [|split; [|done]].
  - apply Forall_fmap. eapply Forall_impl; [exact Hdicts|].
    intros entry (d & -> & Hd). eexists. split; [reflexivity|].
    destruct (dict_keys_remove "config_updated" d Hd) as [Hupdated Hd1].
    split.
    + rewrite dict_get_remove_ne by done. by apply dict_get_absent.
    + by apply dict_get_removed.
  - intros d k _ Hupdated Hpath. eexists. split; [reflexivity|].
    by rewrite !dict_get_remove_ne.
Qed.

Lemma names_of_entries entries :
  Forall connector_entry_ok entries →
  ∃ names,
    map_outcome (λ connector, Py.getitem connector "name") entries = Ok names ∧
    Forall2 (λ entry name, entry_name entry = Some name) entries names.
Proof.
  induction 1 as [|entry entries (d & -> & _ & [name Hname] & _) _ (names & Hnames & Hall)].
  - by exists [].
  - exists (name :: names). simpl. rewrite Hname. simpl. rewrite Hnames.
    split; [done|]. by constructor.
Qed.

(** X20.  [_get_active_connectors] gives the names of the stored
    connectors, in the order of the store, and
    [_delete_connectors_from_config] keeps the entries whose name it
    is given: deleting with the names of the active connectors
    deletes nothing. *)
Theorem deleting_with_the_active_names_deletes_nothing entries s :
  Dict.get "connectors" (_config s) = Some (JList entries) →
  Forall connector_entry_ok entries →
  Forall entry_is_dict entries →
  let s' :=
    set_config (Dict.set "connectors" (JList (stripped <$> entries)) (_config s)) s in
  ∃ names,
    _get_active_connectors s = (Ok names, s') ∧
    Forall2 (λ entry name, entry_name entry = Some name) entries names ∧
    _delete_connectors_from_config (JList names) s' = (Ok tt, s').
Proof.
  intros Hentries Hok Hdicts s'.
  destruct (connectors_getter_strips entries s Hentries Hdicts) as (Hget & Hagain).
  fold s' in Hget, Hagain.
  assert (Hstripped_ok : Forall connector_entry_ok (stripped <$> entries)).
  { apply Forall_fmap. eapply Forall_impl; [exact Hok|]. apply stripped_entry_ok. }
  destruct (names_of_entries _ Hstripped_ok) as (names & Hnames & Hall).
  exists names. split; [|split].
  - unfold _get_active_connectors. rewrite (bind_ok _ _ _ _ _ Hget).
    unfold lift. by rewrite Hnames.
  - apply Forall2_fmap_l in Hall. eapply Forall2_impl; [exact Hall|].
    intros entry name. simpl. by rewrite stripped_name.
  - unfold _delete_connectors_from_config. rewrite (bind_ok _ _ _ _ _ Hagain).
    rewrite filter_listed_spec.
    + unfold mbind, M_bind, lift, modify.
      replace (List.filter (entry_listed names) (stripped <$> entries))
        with (stripped <$> entries).
      * subst s'. simpl. by rewrite dict_set_set.
      * symmetry. apply forallb_filter_id, forallb_forall. intros entry Hin.
        apply list_elem_of_In in Hin.
        destruct (list_elem_of_lookup_1 _ _ Hin) as [i Hi].
        destruct (Forall2_lookup_l _ _ _ _ _ Hall Hi) as (name & Hname & Hentry).
        unfold entry_listed. simpl in Hentry. rewrite Hentry.
        apply existsb_exists. exists name. split; [|apply py_eq_refl].
        apply list_elem_of_In. by eapply list_elem_of_lookup_2.
    + eapply Forall_impl; [exact Hstripped_ok|].
      intros entry (d & -> & _ & Hname & _). done.
Qed.

End ReadingBack.

(** ** Connector updates, once more *)

Lemma stripped_stored_ok entry : stored_entry_ok entry → stored_entry_ok (stripped entry).
Proof.
  intros (d & -> & Hname & Hcj). eexists. split; [reflexivity|].
  by rewrite !dict_get_remove_ne.
Qed.

Lemma stripped_cname entry : cname (stripped entry) = cname entry.
Proof. unfold cname. by rewrite stripped_name. Qed.

Lemma stripped_matches entry d : entry_matches entry d → entry_matches (stripped entry) d.
Proof.
  intros (fd & -> & Htype & Hclass & Hkey & Hlevel).
  eexists. split; [reflexivity|]. unfold same_optional in *.
  by rewrite !dict_get_remove_ne.
Qed.

Section ConnectorUpdates.

Context {W : Type} `{!Externals W}.

Implicit Types (s : State W).

Lemma summary_changed_same fd d s :
  stored_entry_ok (JObj fd) →
  (∃ fn name, Dict.get "name" fd = Some fn ∧ Dict.get "name" d = Some name ∧
              canon fn = canon name) →
  is_Some (Dict.get "type" d) →
  entry_matches (JObj fd) d →
  summary_changed (JObj fd) (JObj d) s = (Ok false, s).
Proof.
  intros (fd0 & [= <-] & _ & Hcj) (fn & name & Hfn & Hname & Hsame) [type Htype]
    (fd1 & [= <-] & Htypes & Hclass & Hkey & Hlevel).
  unfold same_optional in *. rewrite Htype in Htypes. simpl in Htypes.
  assert (Hnames : py_ne fn name = false).
  { unfold py_ne. by rewrite (proj2 (py_eq_canon _ _) Hsame). }
  unfold summary_changed, or_else. exec. rewrite Hfn, Hname, Htype. simpl.
  rewrite Hnames. simpl. unfold py_ne. rewrite Htypes. simpl.
  rewrite Hclass. simpl. rewrite Hkey. simpl.
  destruct (Dict.get "configurationJson" fd) as [[| | | | |stored]|];
    try done; simpl; by rewrite Hlevel.
Qed.

(** X21.  An update of a stored connector that changes nothing does
    nothing but acknowledge: when the configuration on disk and the
    incoming one are equal under the content check and the stored
    entry agrees with the payload on the name, the type, the class,
    the key and the log level, no file is written, no backup is
    made, the connector is not restarted, and the payload is sent back
    as it came. *)
Theorem connector_update_that_changes_nothing d file_name name key
    configuration_json l f connector_config_data s :
  connector_payload d file_name name configuration_json →
  attribute_key name = Ok key →
  Dict.get "connectors" (_config s) = Some (JList l) →
  Forall stored_entry_ok l →
  Exists (λ entry, cname entry = Some (canon name)) l →
  Forall (λ entry, cname entry = Some (canon name) → entry_matches entry d) l →
  files s !! (config_path (_gateway s) ++ file_name) = Some f →
  loads (content f) = Ok connector_config_data →
  py_hash (py_str connector_config_data) = py_hash (py_str (JObj configuration_json)) →
  _handle_connector_configuration_update (JObj d) s
  = (Ok tt,
     set_trace
       (trace s ++
        [EvLog DEBUG "Processing connectors configuration update...";
         EvSend key (JObj d)])%list
       (set_config (Dict.set "connectors" (JList (stripped <$> l)) (_config s)) s)).
Proof.
  intros Hpayload Hkey Hget Hl Hexists Hmatches Hf Hloads Hhash.
  pose proof Hpayload as (Hconfiguration & Hname & Htype & Hlevel & Hcj).
  set (s0 := set_trace (trace s ++ [EvLog DEBUG "Processing connectors configuration update..."])%list s).
  set (s1 := set_config (Dict.set "connectors" (JList (stripped <$> l)) (_config s)) s0).
  assert (Hrun : connectors_configuration s0 = (Ok (stripped <$> l), s1)).
  { unfold connectors_configuration. exec. rewrite Hget.
    rewrite strip_markers_stripped; [done|].
    eapply Forall_impl; [exact Hl|]. intros entry (e & -> & _). by eexists. }
  assert (Hl' : Forall stored_entry_ok (stripped <$> l)).
  { apply Forall_fmap. eapply Forall_impl; [exact Hl|]. apply stripped_stored_ok. }
  destruct (find_connectors_total (JObj d) (stripped <$> l) 0 name Hl')
    as (found & Hfound & Hfound_ok & Hsome).
  { simpl. by rewrite Hname. }
  destruct found as [|[position found_connector] others].
  { exfalso. apply Hsome; [|done].
    apply Exists_fmap. eapply Exists_impl; [exact Hexists|].
    intros entry Hentry. simpl. by rewrite stripped_cname. }
  destruct (find_connectors_spec _ _ _ _ Hfound)
    as [[_ [=]]|(wanted & Hwanted & Hin & _)].
  assert (wanted = name) as -> by (simpl in Hwanted; rewrite Hname in Hwanted; congruence).
  destruct (Hin position found_connector) as (j & _ & Hj & Hcname); [by left|].
  rewrite list_lookup_fmap in Hj.
  destruct (l !! j) as [entry|] eqn:Hentry; [|done].
  injection Hj as <-. rewrite stripped_cname in Hcname.
  assert (Hentry_in : entry ∈ l) by (by eapply list_elem_of_lookup_2).
  rewrite Forall_forall in Hmatches, Hl.
  pose proof (stripped_matches _ _ (Hmatches _ Hentry_in Hcname)) as Hmatch.
  pose proof (stripped_stored_ok _ (Hl _ Hentry_in)) as Hstored.
  destruct Hstored as (fd & Hfd & Hfd_name & Hfd_cj).
  rewrite Hfd in *.
  assert (Hfd_ok : stored_entry_ok (JObj fd)) by (by exists fd).
  assert (Hf1 : files s1 !! (config_path (_gateway s1) ++ file_name) = Some f) by done.
  pose proof (backup_if_content_differs_run d file_name configuration_json f
                connector_config_data s1 Hcj Hf1 Hloads) as Hbackup.
  rewrite (proj2 (Z.eqb_eq _ _) Hhash) in Hbackup.
  assert (Hsummary : summary_changed (JObj fd) (JObj d) s1 = (Ok false, s1)).
  { apply summary_changed_same; try done.
    destruct Hfd_name as [fn Hfn]. exists fn, name. split; [done|]. split; [done|].
    rewrite <- stripped_cname, Hfd in Hcname. unfold cname in Hcname. simpl in Hcname.
    rewrite Hfn in Hcname. by injection Hcname. }
  unfold _handle_connector_configuration_update.
  rewrite (bind_ok (log DEBUG _) _ s tt s0 eq_refl).
  unfold try_except.
  rewrite (bind_ok (lift (Py.getitem (JObj d) "configuration")) _ s0
             (JStr file_name) s0) by (unfold lift; simpl; by rewrite Hconfiguration).
  rewrite (bind_ok _ _ _ _ _ Hrun).
  rewrite (bind_ok (lift (find_connectors (JObj d) (stripped <$> l) 0)) _ s1 _ s1)
    by (unfold lift; by rewrite Hfound).
  assert (Hupdate : update_connector (JObj d) (JStr file_name) position (JObj fd) s1
                    = (Ok (JObj d), s1)).
  { unfold update_connector.
    by rewrite (bind_ok _ _ _ _ _ Hbackup), (bind_ok _ _ _ _ _ Hsummary). }
  cbv iota beta. rewrite (bind_ok _ _ _ _ _ Hupdate).
  exec. rewrite Hname. simpl. rewrite Hkey. f_equal.
  subst s1 s0. unfold set_trace, set_config. simpl. f_equal.
  by rewrite <- app_assoc.
Qed.






End ConnectorUpdates.

Section Loading.

Context {W : Type} `{!Externals W}.

Implicit Types (s : State W).

(** A turn at an entry with another name does nothing. *)
Lemma merge_loaded_connector_other c wanted position entry s :
  Dict.get "name" c = Some wanted →
  is_Some (entry_name entry) →
  cname entry ≠ Some (canon wanted) →
  merge_loaded_connector (JObj c) position entry s = (Ok (JObj c), s).
Proof.
  intros Hwanted [n Hn] Hother. unfold merge_loaded_connector.
  rewrite (bind_ok (lift (Py.getitem entry "name")) _ s n s)
    by (unfold lift; by rewrite (proj2 (getitem_name _ _) Hn)).
  rewrite (bind_ok (lift (Py.getitem (JObj c) "name")) _ s wanted s)
    by (unfold lift; simpl; by rewrite Hwanted).
  destruct (py_eq n wanted) eqn:Heq; [|done].
  exfalso. apply Hother. unfold cname. rewrite Hn. simpl. f_equal.
  by apply py_eq_canon.
Qed.

Lemma cname_same entry wanted :
  cname entry = Some (canon wanted) →
  ∃ n, entry_name entry = Some n ∧ py_eq n wanted = true.
Proof.
  unfold cname. destruct (entry_name entry) as [n|]; [|done].
  simpl. intros [= Hn]. exists n. split; [done|]. by apply py_eq_canon.
Qed.

(** A turn at an entry with the name of the connector raises, or takes
    [config] out of the connector. *)
Lemma merge_loaded_connector_same c wanted position entry s :
  Dict.get "name" c = Some wanted →
  cname entry = Some (canon wanted) →
  (∃ e s', merge_loaded_connector (JObj c) position entry s = (Raise e, s')) ∨
  (∃ s', merge_loaded_connector (JObj c) position entry s
         = (Ok (JObj (Dict.remove "config" c)), s')).
Proof.
  intros Hwanted (n & Hn & Heq)%cname_same. unfold merge_loaded_connector.
  rewrite (bind_ok (lift (Py.getitem entry "name")) _ s n s)
    by (unfold lift; by rewrite (proj2 (getitem_name _ _) Hn)).
  rewrite (bind_ok (lift (Py.getitem (JObj c) "name")) _ s wanted s)
    by (unfold lift; simpl; by rewrite Hwanted).
  rewrite Heq.
  destruct entry as [| | | | |fd]; try discriminate Hn.
  unfold modify_connectors, Py.pop. exec.
  destruct (Dict.get "config" c) as [configs|]; simpl; [|left; by eauto].
  destruct (Dict.get "configuration" fd) as [file_name|]; simpl; [|left; by eauto].
  destruct (Py.subscript configs file_name) as [config|e|] eqn:Hconfig; simpl;
    [|left; by eauto|].
  - right. destruct (Dict.get "connectors" (_config s)) as [[| | | | |]|]; by eauto.
  - exfalso. revert Hconfig. unfold Py.subscript, Py.getitem.
    destruct configs as [| | | | |]; simpl; try done;
      destruct file_name; simpl; try done;
      repeat (match goal with
              | |- context [match ?x with _ => _ end] => destruct x
              end; try done).
Qed.

(** A turn of a connector without [config] at an entry with its name
    raises [KeyError]. *)
Lemma merge_loaded_connector_popped c wanted position entry s :
  Dict.get "name" c = Some wanted →
  Dict.get "config" c = None →
  cname entry = Some (canon wanted) →
  merge_loaded_connector (JObj c) position entry s = (Raise KeyError, s).
Proof.
  intros Hwanted Hconfig (n & Hn & Heq)%cname_same. unfold merge_loaded_connector.
  rewrite (bind_ok (lift (Py.getitem entry "name")) _ s n s)
    by (unfold lift; by rewrite (proj2 (getitem_name _ _) Hn)).
  rewrite (bind_ok (lift (Py.getitem (JObj c) "name")) _ s wanted s)
    by (unfold lift; simpl; by rewrite Hwanted).
  rewrite Heq. unfold mbind, M_bind, lift. simpl. by rewrite Hconfig.
Qed.

Lemma merge_into_entries_others c wanted entries position s :
  Dict.get "name" c = Some wanted →
  Forall (λ entry, is_Some (entry_name entry) ∧ cname entry ≠ Some (canon wanted))
    entries →
  merge_into_entries (JObj c) entries position s = (Ok (JObj c), s).
Proof.
  intros Hwanted Hentries. revert position.
  induction Hentries as [|entry entries [Hn Hother] _ IH]; intros position; [done|].
  simpl.
  rewrite (bind_ok _ _ _ _ _ (merge_loaded_connector_other _ _ _ _ _ Hwanted Hn Hother)).
  apply IH.
Qed.

Lemma merge_into_entries_app c wanted before entries position s :
  Dict.get "name" c = Some wanted →
  Forall (λ entry, is_Some (entry_name entry) ∧ cname entry ≠ Some (canon wanted))
    before →
  merge_into_entries (JObj c) (before ++ entries) position s
  = merge_into_entries (JObj c) entries (position + length before) s.
Proof.
  intros Hwanted Hbefore. revert position.
  induction Hbefore as [|entry before [Hn Hother] _ IH]; intros position.
  { simpl. by rewrite Nat.add_0_r. }
  simpl.
  rewrite (bind_ok _ _ _ _ _ (merge_loaded_connector_other _ _ _ _ _ Hwanted Hn Hother)).
  rewrite IH. f_equal. lia.
Qed.

Lemma merge_into_entries_popped c wanted entries position s :
  Dict.get "name" c = Some wanted →
  Dict.get "config" c = None →
  Forall (λ entry, is_Some (entry_name entry)) entries →
  Exists (λ entry, cname entry = Some (canon wanted)) entries →
  raised (merge_into_entries (JObj c) entries position s).1 = true.
Proof.
  intros Hwanted Hconfig Hnames. revert position.
  induction Hnames as [|entry entries Hn _ IH]; intros position Hexists.
  { by apply Exists_nil in Hexists. }
  simpl. destruct (decide (cname entry = Some (canon wanted))) as [Hsame|Hother].
  - by rewrite (bind_raise _ _ _ _ _
                  (merge_loaded_connector_popped _ _ position _ s Hwanted Hconfig Hsame)).
  - rewrite (bind_ok _ _ _ _ _
               (merge_loaded_connector_other _ _ position _ s Hwanted Hn Hother)).
    apply IH. by apply Exists_cons in Hexists as [?|?].
Qed.

Lemma merge_into_entries_twice c wanted entries position s :
  Dict.get "name" c = Some wanted →
  NoDup (Dict.keys c) →
  Forall (λ entry, is_Some (entry_name entry)) entries →
  (∃ before entry after,
     entries = (before ++ entry :: after)%list ∧
     cname entry = Some (canon wanted) ∧
     Exists (λ entry, cname entry = Some (canon wanted)) after) →
  raised (merge_into_entries (JObj c) entries position s).1 = true.
Proof.
  intros Hwanted Hkeys Hnames. revert position s.
  induction Hnames as [|first entries Hn Hnames IH];
    intros position s (before & entry & after & Hsplit & Hentry & Hafter).
  { by destruct before. }
  assert (Hrest : cname first = Some (canon wanted) →
                  Exists (λ entry, cname entry = Some (canon wanted)) entries).
  { intros _. destruct before as [|first' before]; simplify_eq/=;
      first [done | apply Exists_app; right; by apply Exists_cons_hd]. }
  simpl. destruct (decide (cname first = Some (canon wanted))) as [Hsame|Hother].
  - destruct (merge_loaded_connector_same c wanted position first s Hwanted Hsame)
      as [(e & s' & Hturn)|(s' & Hturn)].
    + by rewrite (bind_raise _ _ _ _ _ Hturn).
    + rewrite (bind_ok _ _ _ _ _ Hturn).
      apply (merge_into_entries_popped _ wanted); [| |done|by apply Hrest].
      * by rewrite dict_get_remove_ne.
      * by apply dict_get_removed.
  - rewrite (bind_ok _ _ _ _ _
               (merge_loaded_connector_other _ _ position _ s Hwanted Hn Hother)).
    apply IH. destruct before as [|first' before]; simplify_eq/=.
    by exists before, entry, after.
Qed.

(** X23.  Loading merges a connector read from disk into the one stored
    entry with its name: the entry takes the fields of the connector but
    [config], and under [configurationJson] the configuration the
    connector holds for the entry's file; the connector is left without
    [config], and the other entries lose their marks and nothing else. *)
Theorem loaded_configuration_is_merged connector_type c wanted configs
    before fd file_name config after s :
  Dict.get "name" c = Some wanted →
  Dict.get "config" c = Some configs →
  Dict.get "connectors" (_config s) = Some (JList (before ++ JObj fd :: after)) →
  Forall entry_is_dict (before ++ JObj fd :: after) →
  Forall (λ entry, is_Some (entry_name entry) ∧ cname entry ≠ Some (canon wanted))
    (before ++ after) →
  cname (JObj fd) = Some (canon wanted) →
  Dict.get "configuration" fd = Some file_name →
  Py.subscript configs file_name = Ok config →
  _load_connectors_configuration [(connector_type, [JObj c])] s
  = (Ok [(connector_type, [JObj (Dict.remove "config" c)])],
     set_config
       (Dict.set "connectors"
          (JList ((stripped <$> before) ++
                  JObj (Dict.set "configurationJson" config
                          (Dict.update
                             (Dict.remove "config_file_path"
                                (Dict.remove "config_updated" fd))
                             (Dict.remove "config" c)))
                  :: (stripped <$> after)))
          (_config s))
       s).
Proof.
  intros Hwanted Hconfigs Hget Hdicts Hothers Hsame Hfile Hconfig.
  apply Forall_app in Hothers as [Hbefore Hafter].
  assert (Hstripped : ∀ l,
    Forall (λ entry, is_Some (entry_name entry) ∧ cname entry ≠ Some (canon wanted)) l →
    Forall (λ entry, is_Some (entry_name entry) ∧ cname entry ≠ Some (canon wanted))
      (stripped <$> l)).
  { intros l Hl. apply Forall_fmap. eapply Forall_impl; [exact Hl|].
    intros entry [Hn Hother]. simpl. by rewrite stripped_name, stripped_cname. }
  destruct (connectors_getter_strips _ s Hget Hdicts) as [Hgetter _].
  rewrite fmap_app, fmap_cons in Hgetter.
  set (entry := stripped (JObj fd)) in *.
  set (s1 := set_config _ s) in Hgetter.
  destruct (cname_same _ _ Hsame) as (n & Hn & Heq).
  assert (Hturn :
    merge_loaded_connector (JObj c) (0 + length (stripped <$> before)) entry s1
    = (Ok (JObj (Dict.remove "config" c)),
       set_config
         (Dict.set "connectors"
            (JList ((stripped <$> before) ++
                    JObj (Dict.set "configurationJson" config
                            (Dict.update
                               (Dict.remove "config_file_path"
                                  (Dict.remove "config_updated" fd))
                               (Dict.remove "config" c)))
                    :: (stripped <$> after)))
            (_config s))
         s)).
  { unfold merge_loaded_connector, entry.
    rewrite (bind_ok (lift (Py.getitem _ "name")) _ s1 n s1).
    2:{ unfold lift. simpl in Hn. simpl. by rewrite !dict_get_remove_ne, Hn. }
    rewrite (bind_ok (lift (Py.getitem (JObj c) "name")) _ s1 wanted s1)
      by (unfold lift; simpl; by rewrite Hwanted).
    rewrite Heq.
    unfold modify_connectors, Py.pop. exec.
    rewrite Hconfigs. simpl. rewrite !dict_get_remove_ne by done.
    rewrite Hfile. simpl. rewrite Hconfig. simpl.
    rewrite dict_get_set_eq.
    f_equal. destruct s. unfold set_config. simpl. f_equal.
    rewrite dict_set_set. do 2 f_equal.
    rewrite <- (Nat.add_0_r (length (stripped <$> before))).
    by rewrite insert_app_r. }
  assert (Hmerge :
    merge_into_entries (JObj c)
      ((stripped <$> before) ++ entry :: (stripped <$> after)) 0 s1
    = (Ok (JObj (Dict.remove "config" c)),
       set_config
         (Dict.set "connectors"
            (JList ((stripped <$> before) ++
                    JObj (Dict.set "configurationJson" config
                            (Dict.update
                               (Dict.remove "config_file_path"
                                  (Dict.remove "config_updated" fd))
                               (Dict.remove "config" c)))
                    :: (stripped <$> after)))
            (_config s))
         s)).
  { rewrite (merge_into_entries_app _ wanted) by (done || by apply Hstripped).
    cbn [merge_into_entries].
    rewrite (bind_ok _ _ _ _ _ Hturn).
    apply (merge_into_entries_others _ wanted).
    - by rewrite dict_get_remove_ne.
    - by apply Hstripped. }
  unfold _load_connectors_configuration, merge_connector_list.
  unfold mbind, M_bind, mret, M_ret.
  rewrite Hgetter. cbv beta iota. by rewrite Hmerge.
Qed.

(** X24.  Two stored entries with the name of a connector read from
    disk break the loading: the first match takes [config] out of the
    connector, so the second one finds none, and the call raises. *)
Theorem duplicate_names_break_loading connector_type c wanted more rest
    before entry between entry' after s :
  Dict.get "name" c = Some wanted →
  NoDup (Dict.keys c) →
  Dict.get "connectors" (_config s)
  = Some (JList (before ++ entry :: between ++ entry' :: after)%list) →
  Forall entry_is_dict (before ++ entry :: between ++ entry' :: after)%list →
  Forall (λ entry, is_Some (entry_name entry))
    (before ++ entry :: between ++ entry' :: after)%list →
  cname entry = Some (canon wanted) →
  cname entry' = Some (canon wanted) →
  raised (_load_connectors_configuration ((connector_type, JObj c :: more) :: rest) s).1
  = true.
Proof.
  intros Hwanted Hkeys Hget Hdicts Hnames Hentry Hentry'.
  destruct (connectors_getter_strips _ s Hget Hdicts) as [Hgetter _].
  set (s1 := set_config _ s) in Hgetter.
  assert (Hmerge :
    raised (merge_into_entries (JObj c)
              (stripped <$> (before ++ entry :: between ++ entry' :: after)%list) 0 s1).1
    = true).
  { apply (merge_into_entries_twice _ wanted); [done|done| |].
    - apply Forall_fmap. eapply Forall_impl; [exact Hnames|].
      intros e He. simpl. by rewrite stripped_name.
    - exists (stripped <$> before), (stripped entry),
             (stripped <$> (between ++ entry' :: after)%list).
      split; [by rewrite fmap_app, fmap_cons|].
      split; [by rewrite stripped_cname|].
      rewrite fmap_app, fmap_cons. apply Exists_app. right.
      apply Exists_cons_hd. by rewrite stripped_cname. }
  cbn [_load_connectors_configuration merge_connector_list].
  unfold mbind, M_bind, mret, M_ret.
  rewrite Hgetter. cbv beta iota.
  destruct (merge_into_entries _ _ _ _) as [[connector|e|] s2]; done.
Qed.

End Loading.

(** * Runs on the test double *)

(** * Runs on the test double *)

Lemma run_eq {W A} (m : @M W A) (s : State W) r :
  (m s).1 = r → m s = (r, (m s).2).
Proof. intros <-. by destruct (m s). Qed.

Module Runs.

Import Stub.

(** C1, as stated, fails on this batch: handling the first key raises
    a [KeyError], and the handler of the second key, which sends the
    logging level when the key comes alone, is not invoked: the batch
    ends with the error logged and nothing sent. *)
Lemma error_in_first_key_ends_broken_batch :
  (process_key (_handlers 1) ("general_configuration", JObj []) (entered start)).1
  = Raise KeyError ∧
  trace (process_config_request 1 broken_batch start).2
  = [EvLog DEBUG "Got config update request: %s";
     EvLog INFO "Processing general configuration update";
     EvLog INFO "--- Checking connection configuration changes...";
     EvLog ERROR "Unknown attribute update name (Available: %s)"] ∧
  trace (process_config_request 1 [("RemoteLoggingLevel", JStr "DEBUG")] start).2
  = [EvLog DEBUG "Got config update request: %s";
     EvSend "RemoteLoggingLevel" (JStr "DEBUG")].
Proof. by vm_compute. Qed.

Lemma first_error_ends_the_batch_witness :
  process_config_request_with (_handlers 1)
    ([] ++ ("general_configuration", JObj []) :: [("RemoteLoggingLevel", JStr "DEBUG")])
    start
  = (Ok tt,
     set_in_process false
       (set_trace
          (trace (process_key (_handlers 1) ("general_configuration", JObj [])
                    (entered start)).2
           ++ [EvLog ERROR "Unknown attribute update name (Available: %s)"])
          (process_key (_handlers 1) ("general_configuration", JObj [])
             (entered start)).2)).
Proof.
  apply (first_error_ends_the_batch (_handlers 1) []
           ("general_configuration", JObj [])
           [("RemoteLoggingLevel", JStr "DEBUG")] start KeyError (entered start)).
  - reflexivity.
  - reflexivity.
  - apply run_eq. vm_compute. reflexivity.
Defined.

Lemma process_config_request_single_flight_witness :
  process_config_request_with (_handlers 1) broken_batch busy
  = (Ok tt,
     set_trace
       (trace busy ++ [EvLog ERROR "Remote configuration is already in processing"])
       busy) ∧
  in_process (process_config_request_with (_handlers 1) broken_batch start).2 = false.
Proof.
  split.
  - apply (process_config_request_single_flight (_handlers 1) broken_batch busy).
    reflexivity.
  - eapply (proj2 (process_config_request_single_flight (_handlers 1) broken_batch start)).
    + reflexivity.
    + apply run_eq. reflexivity.
    + vm_compute. discriminate.
Defined.


Lemma payload_without_ts_is_skipped_witness :
  payload_ts (JObj []) = Some 0%Z ∧
  _is_modified "logs_configuration" (JObj []) start = (Ok false, start) ∧
  process_key (_handlers 1) ("logs_configuration", JObj []) start = (Ok tt, start).
Proof.
  apply (payload_without_ts_is_skipped (_handlers 1) "logs_configuration" []
           "logs.json" {| content := "{}"; mtime := 1600000000000 |} start).
  - reflexivity.
  - reflexivity.
  - vm_compute. reflexivity.
  - simpl. lia.
Defined.

Lemma apply_connection_config_never_times_out_witness :
  (_apply_connection_config 1000 moved (state_in outage)).1 = Diverge.
Proof.
  apply (apply_connection_config_never_times_out
           (λ g, broker_reachable (world g) = false ∧
                 client_breaks (world g) = false)).
  - intros g Hg. exact Hg.
  - intros ms g Hg. exact Hg.
  - intros c g Hg. split; [reflexivity | exact Hg].
  - intros config folder g [Hb Hc]. simpl. rewrite Hc. simpl. by split.
  - intros c g Hg. split; [reflexivity | exact Hg].
  - intros c g [Hb Hc]. simpl. rewrite Hb. by split.
  - split; reflexivity.
Defined.

(** C4, as stated, fails here: building the new client raises, the
    connection sub-step reports a failure, and the payload comes out
    of it with [maxPayloadSizeBytes], which is no connection field,
    overwritten with the current value. *)
Lemma failed_connection_overwrites_payload_size :
  Py.getitem moved "maxPayloadSizeBytes" = Ok (JInt 2048) ∧
  (_apply_connection_config 1 moved (state_in no_client)).1 = Ok false ∧
  (connection_step 1 moved (state_in no_client)).1
  = Ok (JObj [("host", JStr "tb.local"); ("port", JInt 1883);
              ("security", JObj [("accessToken", JStr "t0")]); ("qos", JInt 1);
              ("maxPayloadSizeBytes", JInt 1024);
              ("statistics", JObj [("enable", JBool true);
                                   ("statsSendPeriodInSeconds", JInt 3600)])]).
Proof. by vm_compute. Qed.

Lemma failed_connection_restores_every_current_field_witness :
  ∃ reverted,
    (connection_step 1 moved (state_in no_client)).1 = Ok (JObj reverted) ∧
    Dict.get "maxPayloadSizeBytes" reverted = Some (JInt 1024).
Proof.
  destruct (failed_connection_restores_every_current_field 1
              [("host", JStr "tb2.local"); ("port", JInt 1883);
               ("security", JObj [("accessToken", JStr "t0")]); ("qos", JInt 1);
               ("maxPayloadSizeBytes", JInt 2048)]
              [("host", JStr "tb.local"); ("port", JInt 1883);
               ("security", JObj [("accessToken", JStr "t0")]); ("qos", JInt 1);
               ("maxPayloadSizeBytes", JInt 1024);
               ("statistics", JObj [("enable", JBool true);
                                    ("statsSendPeriodInSeconds", JInt 3600)])]
              (state_in no_client)
              (_apply_connection_config 1 moved
                 (logged "---- Connection configuration changed. Processing..."
                    (logged "--- Checking connection configuration changes..."
                       (state_in no_client)))).2)
    as (reverted & Hrun & _ & Hkeys).
  - vm_compute. reflexivity.
  - apply run_eq. vm_compute. reflexivity.
  - reflexivity.
  - compute_done.
  - exists reverted. split.
    + unfold moved. rewrite Hrun. reflexivity.
    + rewrite Hkeys. reflexivity.
Defined.

Lemma storage_update_swaps_or_reverts_witness :
  (∃ s', _handle_storage_configuration_update file_storage (state_in no_storage)
         = (Ok tt, s') ∧
         _config s' = stored_config) ∧
  (∃ s', _handle_storage_configuration_update file_storage start = (Ok tt, s') ∧
         Dict.get "storage" (_config s') = Some (JObj [("type", JStr "file")])).
Proof.
  split.
  - destruct (proj1 (storage_update_swaps_or_reverts file_storage (state_in no_storage))
                (OtherError "storage")
                (install_event_storage file_storage
                   (set_trace
                      (trace (state_in no_storage) ++
                       [EvLog DEBUG "Processing storage configuration update..."])%list
                      (state_in no_storage))).2)
      as (s' & Hrun & _ & Hconfig & _).
    + apply run_eq. vm_compute. reflexivity.
    + exists s'. split; [exact Hrun | exact Hconfig].
  - destruct (proj2 (storage_update_swaps_or_reverts file_storage start)
                (install_event_storage file_storage
                   (set_trace
                      (trace start ++
                       [EvLog DEBUG "Processing storage configuration update..."])%list
                      start)).2
                [("type", JStr "memory")])
      as (new & storage_class & summaries & t & s' & Hrun & Hnew & _ & _ & Hstored & _).
    + apply run_eq. vm_compute. reflexivity.
    + reflexivity.
    + unfold connectors_well_formed. simpl. repeat constructor.
      eexists. split; [reflexivity|]. simpl. by repeat split.
    + exists s'. split; [exact Hrun|].
      injection Hnew as <-. exact Hstored.
Defined.

(** C8 at a payload without statistics, which the handler provides
    for with [DEFAULT_STATISTICS]: the payload is merged into the
    general configuration in memory and the acknowledgement is sent,
    then [_cleanup] raises a [KeyError], since the statistics in
    memory have no [commands], and the general configuration file is
    not rewritten. *)
Theorem general_update_without_commands_is_not_saved :
  (_handle_general_configuration_update 1 resized start).1 = Raise KeyError ∧
  (_cleanup (set_config (_config (_handle_general_configuration_update 1 resized start).2)
               start)).1 = Raise KeyError ∧
  Dict.get "thingsboard" (_config (_handle_general_configuration_update 1 resized start).2)
  = Some (JObj [("host", JStr "tb.local"); ("port", JInt 1883);
                ("security", JObj [("accessToken", JStr "t0")]); ("qos", JInt 1);
                ("maxPayloadSizeBytes", JInt 2048);
                ("statistics", JObj [("enable", JBool true);
                                     ("statsSendPeriodInSeconds", JInt 3600)])]) ∧
  trace (_handle_general_configuration_update 1 resized start).2
  = [EvLog INFO "Processing general configuration update";
     EvLog INFO "--- Checking connection configuration changes...";
     EvLog INFO "--- Connection configuration not changed.";
     EvLog INFO "--- Checking statistics configuration changes...";
     EvLog INFO "--- Statistics configuration not changed.";
     EvLog INFO "--- Checking device filtering configuration changes...";
     EvLog INFO "--- Device filtering configuration not changed.";
     EvLog INFO "--- Checking Remote Shell configuration changes...";
     EvLog INFO "--- Remote Shell configuration not changed.";
     EvLog INFO "--- Checking other configuration parameters changes...";
     EvLog INFO "--- Saving new general configuration...";
     EvSend "general_configuration"
       (JObj [("host", JStr "tb.local"); ("port", JInt 1883);
              ("security", JObj [("accessToken", JStr "t0")]); ("qos", JInt 1);
              ("maxPayloadSizeBytes", JInt 2048);
              ("statistics", JObj [("enable", JBool true);
                                   ("statsSendPeriodInSeconds", JInt 3600)])])] ∧
  files (_handle_general_configuration_update 1 resized start).2
    !! "/etc/tb/tb_gateway.json" = None.
Proof. by vm_compute. Qed.


Lemma connector_names_stay_distinct_witness :
  connectors_distinct
    (_config (for_each _handle_connector_configuration_update
                [JObj modbus_update; JObj (mqtt_update mqtt_v2); JObj modbus_update]
                start).2).
Proof.
  apply (connector_names_stay_distinct
           [JObj modbus_update; JObj (mqtt_update mqtt_v2); JObj modbus_update] start).
  split.
  - constructor; [by eexists|constructor].
  - apply NoDup_singleton.
Defined.

End Runs.

(** * Runs on the second test double *)

Module Checks.

Import Lab.

Lemma connector_handler_is_the_catch_all_witness :
  dispatch (_handlers 1) "logs_configuration" logging
  = _handle_logs_configuration_update logging ∧
  dispatch (_handlers 1) "Modbus" (JObj Stub.modbus_update)
  = _handle_connector_configuration_update (JObj Stub.modbus_update) ∧
  dispatch (_handlers 1) (String "010"%char "Modbus") (JObj Stub.modbus_update)
  = mret tt.
Proof.
  split; [|split].
  - apply (proj1 (connector_handler_is_the_catch_all 1 "Modbus" logging)
             "logs_configuration").
    unfold _handlers. do 3 (apply elem_of_cons; right). apply elem_of_cons. by left.
  - apply (proj1 (proj2 (connector_handler_is_the_catch_all 1 "Modbus"
                           (JObj Stub.modbus_update)))).
    + unfold reserved_names. intros Hin.
      repeat (apply elem_of_cons in Hin as [Hin|Hin]; [discriminate Hin|]).
      by apply elem_of_nil in Hin.
    + reflexivity.
  - apply (proj2 (proj2 (connector_handler_is_the_catch_all 1
                           (String "010"%char "Modbus")
                           (JObj Stub.modbus_update)))).
    reflexivity.
Defined.

Lemma timestamp_that_is_no_number_raises_witness :
  _is_modified "MQTT" (JObj [("configuration", JStr "mqtt.json"); ("ts", JStr "1700000000000")])
    start
  = (Raise TypeError, start) ∧
  process_config_request_with (_handlers 1)
    [("MQTT", JObj [("configuration", JStr "mqtt.json"); ("ts", JStr "1700000000000")]);
     ("RemoteLoggingLevel", JStr "DEBUG")]
    start
  = (Raise TypeError, set_in_process false (entered start)).
Proof.
  apply (timestamp_that_is_no_number_raises (_handlers 1) "MQTT"
           [("configuration", JStr "mqtt.json"); ("ts", JStr "1700000000000")]
           "mqtt.json"
           {| content := Stub.render Stub.mqtt_v1; mtime := 1600000000000 |}
           [("RemoteLoggingLevel", JStr "DEBUG")] start).
  - reflexivity.
  - reflexivity.
  - reflexivity.
  - vm_compute. reflexivity.
  - reflexivity.
Defined.

Lemma refused_logs_configuration_is_dropped_witness :
  ∃ s',
    _handle_logs_configuration_update logging (failing ["dictConfig"]) = (Ok tt, s') ∧
    files s' = files (failing ["dictConfig"]) ∧
    trace s'
    = [EvLog DEBUG "Processing logs configuration update...";
       EvLog ERROR "Remote logging configuration is wrong!";
       EvLogExc (OtherError "dictConfig")].
Proof.
  destruct (refused_logs_configuration_is_dropped logging (failing ["dictConfig"])
              (OtherError "dictConfig") (_gateway (failing ["dictConfig"])))
    as (s' & Hrun & Hfiles & _ & _ & Htrace).
  - left. reflexivity.
  - exists s'. split; [exact Hrun|]. split; [exact Hfiles | exact Htrace].
Defined.

Lemma applied_logs_configuration_is_not_replayed_witness :
  ∃ s',
    _handle_logs_configuration_update logging start = (Ok tt, s') ∧
    process_key (_handlers 1)
      ("logs_configuration", JObj [("version", JInt 1); ("ts", JInt 1700000000002)]) s'
    = (Ok tt, s').
Proof.
  destruct (applied_logs_configuration_is_not_replayed logging start
              (dictConfig logging (_gateway start)).2
              (install_remote_handler (dictConfig logging (_gateway start)).2).2)
    as (s' & Hrun & _ & _ & Hreplay).
  - reflexivity.
  - reflexivity.
  - reflexivity.
  - exists s'. split; [exact Hrun|].
    apply (Hreplay (_handlers 1) [("version", JInt 1); ("ts", JInt 1700000000002)]
             1700000000002%Z).
    + reflexivity.
    + reflexivity.
    + vm_compute. discriminate.
Defined.

Lemma storage_update_without_a_section_witness :
  (_handle_storage_configuration_update Stub.file_storage
     (set_config [("thingsboard", general)] start)).1 = Raise KeyError.
Proof.
  pose (s := set_config [("thingsboard", general)] start).
  destruct (storage_update_without_a_section Stub.file_storage s
              (install_event_storage Stub.file_storage
                 (set_trace
                    (trace s ++ [EvLog DEBUG "Processing storage configuration update..."])%list
                    s)).2)
    as (Hrun & _).
  - apply run_eq. vm_compute. reflexivity.
  - reflexivity.
  - subst s. rewrite Hrun. reflexivity.
Defined.

Lemma connection_errors_never_escape_witness :
  ∃ e rest,
    trace (_apply_connection_config 1 general (failing ["TBClient"])).2
    = (trace (failing ["TBClient"]) ++
       EvLogExc e
       :: EvLog INFO "Remote general configuration will be restored."
       :: rest)%list.
Proof.
  apply (proj2 (proj2 (connection_errors_never_escape 1 general
                         (failing ["TBClient"])))).
  apply run_eq. vm_compute. reflexivity.
Defined.


Lemma grpc_update_is_applied_or_undone_witness :
  _handle_grpc_configuration_update (JObj []) start
  = (Ok tt,
     set_trace
       (trace start ++ [EvLog DEBUG "Processing GRPC configuration update..."])%list
       start) ∧
  files (_handle_grpc_configuration_update (JObj [("enabled", JBool true)])
           (failing ["init_grpc_service"])).2
  = files (failing ["init_grpc_service"]).
Proof.
  split.
  - apply (proj1 (grpc_update_is_applied_or_undone (JObj []) start)).
    reflexivity.
  - pose (s := failing ["init_grpc_service"]).
    pose (config := JObj [("enabled", JBool true)]).
    destruct (proj2 (grpc_update_is_applied_or_undone config s)
                (OtherError "init_grpc_service")
                ((call (init_grpc_service config) ;; restart_connectors)
                   (set_trace
                      (trace s ++ [EvLog DEBUG "Processing GRPC configuration update..."])%list
                      s)).2)
      as (Hrun & _ & Hfiles & _).
    + reflexivity.
    + apply run_eq. vm_compute. reflexivity.
    + subst s config. rewrite Hrun. exact Hfiles.
Defined.

Lemma grpc_section_is_never_created_witness :
  Dict.get "grpc"
    (_config (_handle_grpc_configuration_update (JObj [("enabled", JBool true)]) start).2)
  = None ∧
  ∃ summaries s',
    _handle_grpc_configuration_update (JObj [("enabled", JBool true)]) start
    = (Ok tt, s') ∧
    trace s'
    = [EvLog DEBUG "Processing GRPC configuration update...";
       EvOpenW "/etc/tb/tb_gateway.json";
       EvWrite "/etc/tb/tb_gateway.json"
         (Stub.render
            (JObj [("thingsboard", general);
                   ("storage", JObj [("type", JStr "memory")]);
                   ("grpc", JObj []);
                   ("connectors", JList summaries)]));
       EvSend "grpc_configuration" (JObj []);
       EvLog INFO "Processed GRPC configuration update successfully"].
Proof.
  pose (config := JObj [("enabled", JBool true)]).
  split.
  - apply (proj1 (grpc_section_is_never_created config start eq_refl)).
  - destruct (proj2 (grpc_section_is_never_created config start eq_refl)
                [("enabled", JBool true)]
                ((call (init_grpc_service config) ;; restart_connectors)
                   (set_trace
                      (trace start ++ [EvLog DEBUG "Processing GRPC configuration update..."])%list
                      start)).2)
      as (summaries & s' & Hrun & Htrace).
    + reflexivity.
    + discriminate.
    + apply run_eq. vm_compute. reflexivity.
    + unfold connectors_well_formed. simpl.
      repeat constructor; eexists; (split; [reflexivity|]); simpl; by repeat split.
    + exists summaries, s'. split; [exact Hrun | exact Htrace].
Defined.

Lemma active_connectors_that_stay_witness :
  _handle_active_connectors_update (JList [JStr "Modbus"; JStr "MQTT"]) start
  = (Ok tt,
     set_trace
       (trace start ++
        [EvLog DEBUG "Processing active connectors configuration update...";
         EvSend "active_connectors" (JList [JStr "Modbus"; JStr "MQTT"])])%list
       start) ∧
  ∃ g excs,
    _handle_active_connectors_update (JList [JStr "MQTT"]) (failing ["close Modbus"])
    = (Ok tt,
       set_trace
         (trace (failing ["close Modbus"]) ++
          [EvLog DEBUG "Processing active connectors configuration update..."] ++
          excs ++ [EvSend "active_connectors" (JList [JStr "MQTT"])])%list
         (set_gateway g (failing ["close Modbus"]))) ∧
    forallb is_exception_log excs = true.
Proof.
  split.
  - apply (proj1 (active_connectors_that_stay (λ _, True)
                    [JStr "Modbus"; JStr "MQTT"] start)).
    repeat constructor.
  - apply (proj2 (active_connectors_that_stay
                    (λ g, broken (world g) = ["close Modbus"])
                    [JStr "MQTT"] (failing ["close Modbus"]))).
    + constructor; [by left|]. constructor; [|constructor].
      right. intros g Hg. exists (OtherError "close Modbus"), g.
      split; [|exact Hg]. simpl. unfold attempt. by rewrite Hg.
    + reflexivity.
Defined.

Lemma active_connectors_that_go_witness :
  ∃ summaries s',
    _handle_active_connectors_update (JList [JStr "MQTT"]) start = (Ok tt, s') ∧
    (∀ name, name ∈ available_connectors (_gateway s')
             ↔ name ∈ ["MQTT"; "Modbus"] ∧ listed [JStr "MQTT"] name = true) ∧
    Dict.get "connectors" (_config s') = Some (JList [mqtt_entry]) ∧
    _active_connectors s' = JList [JStr "MQTT"] ∧
    trace s'
    = [EvLog DEBUG "Processing active connectors configuration update...";
       EvOpenW "/etc/tb/tb_gateway.json";
       EvWrite "/etc/tb/tb_gateway.json"
         (Stub.render (local_format_of stored_config summaries));
       EvSend "active_connectors" (JList [JStr "MQTT"])].
Proof.
  destruct (active_connectors_that_go (λ g, broken (world g) = [])
              [JStr "MQTT"] [mqtt_entry; modbus_entry] start)
    as (summaries & s' & Hrun & Havailable & Hconnectors & _ & Hactive & Htrace).
  - intros name g Hg. eexists. simpl. unfold attempt. rewrite Hg. simpl.
    split; [reflexivity|]. split; [reflexivity | exact Hg].
  - reflexivity.
  - simpl. apply NoDup_cons. split; [|apply NoDup_singleton].
    intros Hin. apply list_elem_of_singleton in Hin. discriminate Hin.
  - right. left. reflexivity.
  - reflexivity.
  - repeat constructor; eexists; (split; [reflexivity|]); simpl; by repeat split.
  - repeat constructor; eexists; (split; [reflexivity|]); compute_done.
  - exists summaries, s'. split; [exact Hrun|]. split; [exact Havailable|].
    split; [exact Hconnectors|]. split; [exact Hactive|].
    rewrite Htrace.
    assert (Hpath : config_path (_gateway s') = "/etc/tb/").
    { clear -Hrun.
      assert (Heq : s' = (_handle_active_connectors_update (JList [JStr "MQTT"]) start).2)
        by (by rewrite Hrun).
      rewrite Heq. vm_compute. reflexivity. }
    rewrite Hpath. reflexivity.
Defined.


Lemma applied_statistics_are_current_witness :
  let payload :=
    [("enable", JBool true); ("statsSendPeriodInSeconds", JInt 60);
     ("commands", uptime)] in
  let applied := _apply_statistics_config (JObj payload) start in
  applied.1 = Ok (true, JObj (Dict.set "configuration" (JStr "statistics.json") payload)) ∧
  _check_statistics_configuration_changes
    (JObj (Dict.set "configuration" (JStr "statistics.json") payload)) applied.2
  = (Ok false, applied.2).
Proof.
  intros payload applied.
  assert (Hrun : applied
                 = (Ok (true, JObj (Dict.set "configuration" (JStr "statistics.json") payload)),
                    applied.2)).
  { apply run_eq. vm_compute. reflexivity. }
  split; [by rewrite Hrun|].
  apply (applied_statistics_are_current payload uptime
           [("host", JStr "tb.local"); ("port", JInt 1883);
            ("security", JObj [("accessToken", JStr "t0")]); ("qos", JInt 1);
            ("maxPayloadSizeBytes", JInt 1024); ("statistics", statistics)]
           [("enable", JBool true); ("statsSendPeriodInSeconds", JInt 3600);
            ("configuration", JStr "statistics.json")]
           "statistics.json"
           (JObj (Dict.set "configuration" (JStr "statistics.json") payload))
           start applied.2).
  - reflexivity.
  - reflexivity.
  - by eexists.
  - by eexists.
  - reflexivity.
  - reflexivity.
  - reflexivity.
  - discriminate.
  - vm_compute. reflexivity.
  - exact Hrun.
  - vm_compute. reflexivity.
Defined.


Lemma remote_format_is_built_in_the_store_witness :
  (_get_general_config_in_remote_format ;; _cleanup) start
  = (Ok tt,
     set_config
       (Dict.set "thingsboard"
          (JObj [("host", JStr "tb.local"); ("port", JInt 1883);
                 ("security", JObj [("accessToken", JStr "t0")]); ("qos", JInt 1);
                 ("maxPayloadSizeBytes", JInt 1024);
                 ("statistics",
                  JObj [("enable", JBool true); ("statsSendPeriodInSeconds", JInt 3600);
                        ("configuration", JStr "statistics.json")])])
          (_config start))
       start) ∧
  _get_general_config_in_remote_format
    (set_config [("thingsboard", JObj [("host", JStr "tb.local")])] start)
  = (Raise KeyError, set_config [("thingsboard", JObj [("host", JStr "tb.local")])] start).
Proof.
  split.
  - apply (proj1 (remote_format_is_built_in_the_store
                    [("host", JStr "tb.local"); ("port", JInt 1883);
                     ("security", JObj [("accessToken", JStr "t0")]); ("qos", JInt 1);
                     ("maxPayloadSizeBytes", JInt 1024); ("statistics", statistics)]
                    start eq_refl)
             [("enable", JBool true); ("statsSendPeriodInSeconds", JInt 3600);
              ("configuration", JStr "statistics.json")]
             (JBool true) (JInt 3600) uptime eq_refl eq_refl eq_refl).
    exists "statistics.json",
      {| content := Stub.render uptime; mtime := 1600000000000 |}.
    split; [reflexivity|]. split; vm_compute; reflexivity.
  - apply (proj2 (remote_format_is_built_in_the_store
                    [("host", JStr "tb.local")]
                    (set_config [("thingsboard", JObj [("host", JStr "tb.local")])] start)
                    eq_refl)).
    reflexivity.
Defined.

Lemma connectors_getter_takes_the_marks_out_witness :
  connectors_configuration start
  = (Ok [mqtt_entry;
         JObj [("name", JStr "Modbus"); ("type", JStr "modbus");
               ("configuration", JStr "modbus.json")]],
     set_config
       (Dict.set "connectors"
          (JList [mqtt_entry;
                  JObj [("name", JStr "Modbus"); ("type", JStr "modbus");
                        ("configuration", JStr "modbus.json")]])
          (_config start))
       start).
Proof.
  apply (connectors_getter_takes_the_marks_out [mqtt_entry; modbus_entry] start eq_refl).
  repeat constructor; eexists; (split; [reflexivity|]); compute_done.
Defined.

Lemma deleting_with_the_active_names_deletes_nothing_witness :
  ∃ names s',
    _get_active_connectors start = (Ok names, s') ∧
    _delete_connectors_from_config (JList names) s' = (Ok tt, s').
Proof.
  destruct (deleting_with_the_active_names_deletes_nothing
              [mqtt_entry; modbus_entry] start eq_refl)
    as (names & Hnames & _ & Hdelete).
  - repeat constructor; eexists; (split; [reflexivity|]); simpl; by repeat split.
  - repeat constructor; eexists; (split; [reflexivity|]); compute_done.
  - eexists names, _. split; [exact Hnames | exact Hdelete].
Defined.

Lemma connector_update_that_changes_nothing_witness :
  _handle_connector_configuration_update (JObj (Stub.mqtt_update Stub.mqtt_v1)) loaded
  = (Ok tt,
     set_trace
       [EvLog DEBUG "Processing connectors configuration update...";
        EvSend "MQTT" (JObj (Stub.mqtt_update Stub.mqtt_v1))]
       (set_config
          (Dict.set "connectors" (JList (stripped <$> [loaded_mqtt_entry; modbus_entry]))
             (_config loaded))
          loaded)).
Proof.
  apply (connector_update_that_changes_nothing (Stub.mqtt_update Stub.mqtt_v1)
           "mqtt.json" (JStr "MQTT") "MQTT" [("broker", JStr "old")]
           [loaded_mqtt_entry; modbus_entry]
           {| content := Stub.render Stub.mqtt_v1; mtime := 1600000000000 |}
           Stub.mqtt_v1 loaded).
  - unfold connector_payload. by repeat split; try eexists.
  - reflexivity.
  - reflexivity.
  - repeat constructor; eexists; (split; [reflexivity|]); by split; [eexists|].
  - apply Exists_cons_hd. reflexivity.
  - repeat constructor.
    + intros _. eexists. split; [reflexivity|]. by repeat split.
    + intros Hname. discriminate Hname.
  - reflexivity.
  - vm_compute. reflexivity.
  - reflexivity.
Defined.


Lemma loaded_configuration_is_merged_witness :
  _load_connectors_configuration [("mqtt", [JObj mqtt_read])] start
  = (Ok [("mqtt", [JObj (Dict.remove "config" mqtt_read)])],
     set_config
       (Dict.set "connectors"
          (JList ((stripped <$> []) ++
                  JObj (Dict.set "configurationJson" Stub.mqtt_v1
                          (Dict.update
                             (Dict.remove "config_file_path"
                                (Dict.remove "config_updated" mqtt_fields))
                             (Dict.remove "config" mqtt_read)))
                  :: (stripped <$> [modbus_entry])))
          (_config start))
       start).
Proof.
  apply (loaded_configuration_is_merged "mqtt" mqtt_read (JStr "MQTT")
           (JObj [("mqtt.json", Stub.mqtt_v1)]) [] mqtt_fields (JStr "mqtt.json")
           Stub.mqtt_v1 [modbus_entry] start).
  - reflexivity.
  - reflexivity.
  - reflexivity.
  - apply Forall_cons. split; [|apply Forall_cons; split; [|by apply Forall_nil]];
      (eexists; split; [reflexivity|]); vm_compute;
      repeat (apply NoDup_cons; split;
              [intros Hin; repeat (apply elem_of_cons in Hin as [Hin|Hin];
                                   [discriminate Hin|]);
               by apply elem_of_nil in Hin|]);
      by apply NoDup_nil.
  - apply Forall_cons. split; [|by apply Forall_nil].
    split; [by eexists|]. intros Hname. discriminate Hname.
  - reflexivity.
  - reflexivity.
  - reflexivity.
Defined.

Lemma duplicate_names_break_loading_witness :
  raised (_load_connectors_configuration [("mqtt", [JObj mqtt_read])] doubled).1 = true.
Proof.
  apply (duplicate_names_break_loading "mqtt" mqtt_read (JStr "MQTT") [] []
           [] mqtt_entry [modbus_entry] mqtt_entry [] doubled).
  - reflexivity.
  - vm_compute.
    repeat (apply NoDup_cons; split;
            [intros Hin; repeat (apply elem_of_cons in Hin as [Hin|Hin];
                                 [discriminate Hin|]);
             by apply elem_of_nil in Hin|]).
    by apply NoDup_nil.
  - reflexivity.
  - repeat (apply Forall_cons; split; [|]); try by apply Forall_nil.
    all: (eexists; split; [reflexivity|]); vm_compute;
      repeat (apply NoDup_cons; split;
              [intros Hin; repeat (apply elem_of_cons in Hin as [Hin|Hin];
                                   [discriminate Hin|]);
               by apply elem_of_nil in Hin|]);
      by apply NoDup_nil.
  - repeat (apply Forall_cons; split; [by eexists|]). by apply Forall_nil.
  - reflexivity.
  - reflexivity.
Defined.

End Checks.
